(** * pycaching: backends, strategies and the cache manager

    A shallow embedding of the policy engine of [pycaching]:
    the metadata/TTL substrate of [backends/base.py] over the dictionary
    store of [backends/memory.py], the strategies of [strategies/*.py]
    (TTL, write-through, write-back, LRU, LFU, FIFO) and the manager of
    [core/cache.py]; further on, the remaining strategies, the manager of
    [api/manager.py], and the table of [backends/sqlite_backend.py], a
    store that checks expiry itself.

    Conventions.
    - Python objects are mutated in place; here every method is a state
      transformer that returns the outcome of the call together with the
      state the call leaves behind, also when it raises.
    - [datetime.now()] and [time.time()] are the explicit argument [now] of
      every call, an integer count of clock ticks; a ttl is a number of
      ticks.
    - A cache value is [option V]: [None] is Python's [None], which a store
      can hold and which [get] also returns for a missing key.
    - Calls run one at a time, as they do under the manager's lock; the
      locks themselves are not part of the model. *)

From stdpp Require Import gmap strings list pretty.
From Stdlib Require Import ZArith Lia.

Set Default Proof Using "Type".

(** ** Exceptions and the state-and-exception monad *)

(** [core/exceptions.py], and the built-in exceptions the strategies raise. *)
Inductive exn : Type :=
  | BackendError
  | StrategyError
  | CacheConfigurationError
  | RuntimeError
  | ValueError
  | IndexError
  | StopIteration
  | CallbackError.

Inductive outcome (A : Type) : Type :=
  | Return (a : A)
  | Raise (e : exn).
Arguments Return {A} a.
Arguments Raise {A} e.

Definition M (S A : Type) : Type := S → outcome A * S.

Definition ret {S A} (a : A) : M S A := λ s, (Return a, s).
Definition raise {S A} (e : exn) : M S A := λ s, (Raise e, s).
Definition bind {S A B} (m : M S A) (k : A → M S B) : M S B :=
  λ s, match m s with
       | (Return a, s') => k a s'
       | (Raise e, s') => (Raise e, s')
       end.
Definition modify {S} (f : S → S) : M S unit := λ s, (Return tt, f s).
Definition gets {S A} (f : S → A) : M S A := λ s, (Return (f s), s).

Notation "x <- m ;; k" := (bind m (λ x, k))
  (at level 100, m at next level, right associativity,
   format "'[v' x  <-  m  ;;  '/' k ']'").
Notation "m ;;; k" := (bind m (λ _, k))
  (at level 100, right associativity).

(** Run a computation on the second component of a pair of states. *)
Definition on_snd {S T A} (m : M T A) : M (S * T) A :=
  λ st, let '(r, t') := m st.2 in (r, (st.1, t')).
(** Run a computation on the first component. *)
Definition on_fst {S T A} (m : M S A) : M (S * T) A :=
  λ st, let '(r, s') := m st.1 in (r, (s', st.2)).

(** ** [core/types.py] *)

Abbreviation CacheKey := string.

Record CacheMetadata : Type := mkCacheMetadata {
  created_at : Z;
  expires_at : option Z;
  access_count : Z;
  last_accessed : Z;
  tags : list string
}.

Module CacheMetadata.

(** [CacheMetadata.__init__]: [created_at or datetime.now()],
    [last_accessed or self.created_at], [tags or []]. *)
Definition __init__ (now : Z) (created : option Z) (expires : option Z)
    (count : Z) (accessed : option Z) (tgs : option (list string))
  : CacheMetadata :=
  let created' := default now created in
  {| created_at := created';
     expires_at := expires;
     access_count := count;
     last_accessed := default created' accessed;
     tags := default [] tgs |}.

(** [datetime.now() >= self.expires_at] *)
Definition is_expired (now : Z) (self : CacheMetadata) : bool :=
  match expires_at self with
  | None => false
  | Some e => bool_decide (e ≤ now)%Z
  end.

Definition update_access (now : Z) (self : CacheMetadata) : CacheMetadata :=
  {| created_at := created_at self;
     expires_at := expires_at self;
     access_count := (access_count self + 1)%Z;
     last_accessed := now;
     tags := tags self |}.

Definition set_expires_at (e : option Z) (self : CacheMetadata) : CacheMetadata :=
  {| created_at := created_at self;
     expires_at := e;
     access_count := access_count self;
     last_accessed := last_accessed self;
     tags := tags self |}.

Definition set_tags (tgs : list string) (self : CacheMetadata) : CacheMetadata :=
  {| created_at := created_at self;
     expires_at := expires_at self;
     access_count := access_count self;
     last_accessed := last_accessed self;
     tags := tgs |}.

End CacheMetadata.

(** ** The backend object: [core/backend.py], [backends/base.py],
    [backends/memory.py] *)

Record Backend (V : Type) : Type := mkBackend {
  name : string;
  _closed : bool;
  enable_metadata : bool;
  _metadata : gmap string CacheMetadata;
  _store : gmap string (option V)
}.
Arguments mkBackend {V}.
Arguments name {V}.
Arguments _closed {V}.
Arguments enable_metadata {V}.
Arguments _metadata {V}.
Arguments _store {V}.

Section backend_fields.
Context {V : Type}.
Local Abbreviation CacheValue := (option V).

Definition with_closed (c : bool) (b : Backend V) : Backend V :=
  mkBackend (name b) c (enable_metadata b) (_metadata b) (_store b).
Definition with_metadata (m : gmap string CacheMetadata) (b : Backend V) : Backend V :=
  mkBackend (name b) (_closed b) (enable_metadata b) m (_store b).
Definition with_store (s : gmap string (option V)) (b : Backend V) : Backend V :=
  mkBackend (name b) (_closed b) (enable_metadata b) (_metadata b) s.
End backend_fields.

(** [MemoryBackend]: the primitive operations on the dictionary [_store]. *)
Module MemoryBackend.
Section defs.
Context {V : Type}.
Local Abbreviation CacheValue := (option V).

Definition __init__ (nm : string) (enable : bool) : Backend V :=
  mkBackend nm false enable ∅ ∅.

(** [self._store.get(key)]: a missing key and a stored [None] both give
    [None]. *)
Definition _get_impl (key : CacheKey) : M (Backend V) CacheValue :=
  gets (λ b, mjoin (_store b !! key)).

Definition _set_impl (key : CacheKey) (value : CacheValue) (ttl : option Z)
  : M (Backend V) bool :=
  modify (λ b, with_store (<[key := value]> (_store b)) b) ;;;
  ret true.

Definition _delete_impl (key : CacheKey) : M (Backend V) bool :=
  present <- gets (λ b, bool_decide (is_Some (_store b !! key))) ;;
  if present : bool
  then modify (λ b, with_store (base.delete key (_store b)) b) ;;; ret true
  else ret false.

Definition _exists_impl (key : CacheKey) : M (Backend V) bool :=
  gets (λ b, bool_decide (is_Some (_store b !! key))).

Definition _clear_impl : M (Backend V) bool :=
  modify (with_store ∅) ;;; ret true.

Definition size (b : Backend V) : nat := base.size (_store b).

End defs.
End MemoryBackend.

(** [BaseBackend]: the closed flag of [core/backend.py] and the metadata
    layer of [backends/base.py]. *)
Module BaseBackend.
Section defs.
Context {V : Type}.
Local Abbreviation CacheValue := (option V).

Definition _check_closed : M (Backend V) unit :=
  λ b, if _closed b then (Raise BackendError, b) else (Return tt, b).

Definition _get_metadata (key : CacheKey) (b : Backend V) : option CacheMetadata :=
  if enable_metadata b then _metadata b !! key else None.

Definition _set_metadata (now : Z) (key : CacheKey) (ttl : option Z)
    (tgs : option (list string)) : M (Backend V) unit :=
  modify (λ b,
    if negb (enable_metadata b) then b else
    let expires := (λ t, now + t)%Z <$> ttl in
    match _metadata b !! key with
    | Some metadata =>
        let metadata := CacheMetadata.set_expires_at expires metadata in
        let metadata :=
          match tgs with
          | Some (t :: ts) => CacheMetadata.set_tags (t :: ts) metadata
          | _ => metadata
          end in
        with_metadata (<[key := metadata]> (_metadata b)) b
    | None =>
        with_metadata
          (<[key := CacheMetadata.__init__ now None expires 0 None
                      (Some (default [] tgs))]> (_metadata b)) b
    end).

Definition _update_access_metadata (now : Z) (key : CacheKey) : M (Backend V) unit :=
  modify (λ b,
    if enable_metadata b
    then match _metadata b !! key with
         | Some metadata =>
             with_metadata
               (<[key := CacheMetadata.update_access now metadata]> (_metadata b)) b
         | None => b
         end
    else b).

Definition _delete_metadata (key : CacheKey) : M (Backend V) unit :=
  modify (λ b,
    if enable_metadata b
    then with_metadata (base.delete key (_metadata b)) b
    else b).

Definition _clear_metadata : M (Backend V) unit :=
  modify (λ b, if enable_metadata b then with_metadata ∅ b else b).

Definition _is_expired (now : Z) (key : CacheKey) (b : Backend V) : bool :=
  if negb (enable_metadata b) then false else
  match _metadata b !! key with
  | None => false
  | Some metadata => CacheMetadata.is_expired now metadata
  end.

Definition delete (key : CacheKey) : M (Backend V) bool :=
  _check_closed ;;;
  result <- MemoryBackend._delete_impl key ;;
  (if result : bool then _delete_metadata key else ret tt) ;;;
  ret result.

Definition get (now : Z) (key : CacheKey) : M (Backend V) CacheValue :=
  _check_closed ;;;
  expired <- gets (_is_expired now key) ;;
  if expired : bool
  then delete key ;;; ret None
  else
    value <- MemoryBackend._get_impl key ;;
    (if value is Some _ then _update_access_metadata now key else ret tt) ;;;
    ret value.

Definition set (now : Z) (key : CacheKey) (value : CacheValue) (ttl : option Z)
  : M (Backend V) bool :=
  _check_closed ;;;
  result <- MemoryBackend._set_impl key value ttl ;;
  (if result : bool then _set_metadata now key ttl None else ret tt) ;;;
  ret result.

Definition clear : M (Backend V) bool :=
  _check_closed ;;;
  result <- MemoryBackend._clear_impl ;;
  (if result : bool then _clear_metadata else ret tt) ;;;
  ret result.

Definition exists_ (now : Z) (key : CacheKey) : M (Backend V) bool :=
  _check_closed ;;;
  expired <- gets (_is_expired now key) ;;
  if expired : bool
  then delete key ;;; ret false
  else MemoryBackend._exists_impl key.

(** [super().close()] sets the flag, then the metadata is cleared. *)
Definition close : M (Backend V) unit :=
  modify (with_closed true) ;;;
  _clear_metadata.

End defs.
End BaseBackend.


(** ** Strategies: [core/strategy.py], [strategies/base.py] *)

(** [try: m except Exception as e: handler e] *)
Definition try_except {S A} (m : M S A) (handler : exn → M S A) : M S A :=
  λ s, match m s with
       | (Return a, s') => (Return a, s')
       | (Raise e, s') => handler e s'
       end.

(** A miss callback computes a value for a key, or raises. Here it is a
    function of the key, a callable that answers the same whenever it is
    asked; callables with a state of their own are in [Callables]. *)
Definition CacheMissCallback (V : Type) : Type := CacheKey → outcome (option V).

(** A write callback stores a pair in the authoritative data store, whose
    state has type [D], or raises. *)
Definition WriteCallback (V D : Type) : Type := CacheKey → option V → M D unit.

(** The [Strategy] protocol: the four methods every strategy offers, as
    transformers of the strategy's own state [St] and the backend. *)
Record Strategy (V St : Type) : Type := mkStrategy {
  strategy_get : Z → CacheKey → option (CacheMissCallback V) → M (St * Backend V) (option V);
  strategy_set : Z → CacheKey → option V → option Z → M (St * Backend V) bool;
  strategy_delete : CacheKey → M (St * Backend V) bool;
  strategy_clear : M (St * Backend V) bool
}.
Arguments mkStrategy {V St}.
Arguments strategy_get {V St}.
Arguments strategy_set {V St}.
Arguments strategy_delete {V St}.
Arguments strategy_clear {V St}.

(** [BaseStrategy] of [strategies/base.py]. [_validate_backend] only asks
    whether the backend object has [get] and [set] attributes, which every
    [Backend] has. [get] calls [self.set], the method of the subclass, which
    is the parameter [self_set] here. *)
Module BaseStrategy.
Section defs.
Context {V St : Type}.
Local Abbreviation CacheValue := (option V).

Definition get
    (self_set : Z → CacheKey → CacheValue → option Z → M (St * Backend V) bool)
    (now : Z) (key : CacheKey) (miss_callback : option (CacheMissCallback V))
  : M (St * Backend V) CacheValue :=
  value <- on_snd (BaseBackend.get now key) ;;
  match value, miss_callback with
  | None, Some cb =>
      value <- (λ w, (cb key, w)) ;;
      (if value is Some _ then self_set now key value None ;;; ret tt else ret tt) ;;;
      ret value
  | _, _ => ret value
  end.

Definition set (now : Z) (key : CacheKey) (value : CacheValue) (ttl : option Z)
  : M (St * Backend V) bool :=
  on_snd (BaseBackend.set now key value ttl).

Definition delete (key : CacheKey) : M (St * Backend V) bool :=
  on_snd (BaseBackend.delete key).

Definition clear : M (St * Backend V) bool :=
  on_snd BaseBackend.clear.

End defs.
End BaseStrategy.

(** ** [strategies/ttl.py] *)
Module TTLStrategy.

Record t : Type := mk {
  name : string;
  default_ttl : option Z
}.

Definition __init__ (default_ttl : option Z) (name : string) : outcome t :=
  match default_ttl with
  | Some d => if bool_decide (d ≤ 0)%Z then Raise StrategyError
              else Return (mk name default_ttl)
  | None => Return (mk name default_ttl)
  end.

Section defs.
Context {V : Type}.
Local Abbreviation CacheValue := (option V).

(** [ttl if ttl is not None else self.default_ttl] *)
Definition effective_ttl (self : t) (ttl : option Z) : option Z :=
  match ttl with
  | Some x => Some x
  | None => default_ttl self
  end.

Definition set (now : Z) (key : CacheKey) (value : CacheValue) (ttl : option Z)
  : M (t * Backend V) bool :=
  self <- gets fst ;;
  match effective_ttl self ttl with
  | None => raise StrategyError
  | Some e =>
      if bool_decide (e ≤ 0)%Z then raise StrategyError
      else on_snd (BaseBackend.set now key value (Some e))
  end.

Definition get (now : Z) (key : CacheKey) (miss_callback : option (CacheMissCallback V))
  : M (t * Backend V) CacheValue :=
  BaseStrategy.get set now key miss_callback.

Definition as_strategy : Strategy V t :=
  mkStrategy get set BaseStrategy.delete BaseStrategy.clear.

End defs.
End TTLStrategy.

(** ** [strategies/write_through.py] *)
Module WriteThroughStrategy.
Section defs.
Context {V D : Type}.
Local Abbreviation CacheValue := (option V).

Record t : Type := mk {
  name : string;
  write_callback : option (WriteCallback V D)
}.

Definition __init__ (write_callback : option (WriteCallback V D)) (name : string) : t :=
  mk name write_callback.

(** The state is the strategy object together with the data store the
    callback writes to. *)
Definition set (now : Z) (key : CacheKey) (value : CacheValue) (ttl : option Z)
  : M ((t * D) * Backend V) bool :=
  self <- gets (λ w, w.1.1) ;;
  match write_callback self with
  | Some cb =>
      try_except (on_fst (on_snd (cb key value))) (λ e, raise RuntimeError)
  | None => ret tt
  end ;;;
  on_snd (BaseBackend.set now key value ttl).

Definition get (now : Z) (key : CacheKey) (miss_callback : option (CacheMissCallback V))
  : M ((t * D) * Backend V) CacheValue :=
  BaseStrategy.get set now key miss_callback.

Definition as_strategy : Strategy V (t * D) :=
  mkStrategy get set BaseStrategy.delete BaseStrategy.clear.

End defs.
Arguments t : clear implicits.
End WriteThroughStrategy.

(** ** Python containers used by the stateful strategies *)

(** A [dict] keeps insertion order: an association list without repeated
    keys. [dict_set] is [d[key] = value]: an existing key keeps its place. *)
Section pydict.
Context {A : Type}.

Fixpoint dict_set (key : CacheKey) (value : A) (d : list (CacheKey * A))
  : list (CacheKey * A) :=
  match d with
  | [] => [(key, value)]
  | (k, v) :: rest =>
      if decide (k = key) then (k, value) :: rest
      else (k, v) :: dict_set key value rest
  end.

Fixpoint dict_get (key : CacheKey) (d : list (CacheKey * A)) : option A :=
  match d with
  | [] => None
  | (k, v) :: rest => if decide (k = key) then Some v else dict_get key rest
  end.

Definition dict_contains (key : CacheKey) (d : list (CacheKey * A)) : bool :=
  bool_decide (key ∈ d.*1).

(** [d.pop(key, None)] and [del d[key]] for a key of the dict. *)
Definition dict_del (key : CacheKey) (d : list (CacheKey * A)) : list (CacheKey * A) :=
  filter (λ kv, kv.1 ≠ key) d.

End pydict.

(** An [OrderedDict] whose values are all [None] is the list of its keys. *)
Definition od_contains (key : CacheKey) (od : list CacheKey) : bool :=
  bool_decide (key ∈ od).
(** [od[key] = None] *)
Definition od_set (key : CacheKey) (od : list CacheKey) : list CacheKey :=
  if od_contains key od then od else od ++ [key].
(** [del od[key]], [od.pop(key, None)] *)
Definition od_del (key : CacheKey) (od : list CacheKey) : list CacheKey :=
  filter (λ k, k ≠ key) od.
(** [od.move_to_end(key)] for a key of the dict *)
Definition od_move_to_end (key : CacheKey) (od : list CacheKey) : list CacheKey :=
  if od_contains key od then od_del key od ++ [key] else od.

(** [deque.remove(key)] removes the first occurrence; [None] stands for the
    [ValueError] of a missing element. *)
Fixpoint deque_remove (key : CacheKey) (q : list CacheKey) : option (list CacheKey) :=
  match q with
  | [] => None
  | k :: rest =>
      if decide (k = key) then Some rest
      else cons k <$> deque_remove key rest
  end.

(** [min(d.items(), key=lambda x: x[1])]: the first item, in the order of
    the dict, whose count is minimal. *)
Fixpoint min_item (d : list (CacheKey * Z)) : option (CacheKey * Z) :=
  match d with
  | [] => None
  | x :: rest =>
      match min_item rest with
      | None => Some x
      | Some y => if bool_decide (y.2 < x.2)%Z then Some y else Some x
      end
  end.

(** ** [strategies/write_back.py] *)
Module WriteBackStrategy.
Section defs.
Context {V D : Type}.
Local Abbreviation CacheValue := (option V).

Record t : Type := mk {
  name : string;
  write_callback : option (WriteCallback V D);
  batch_size : Z;
  flush_interval : Z;
  _write_queue : list (CacheKey * CacheValue);
  _last_flush : Z
}.

Definition with_queue (q : list (CacheKey * CacheValue)) (self : t) : t :=
  mk (name self) (write_callback self) (batch_size self) (flush_interval self)
     q (_last_flush self).
Definition with_last_flush (x : Z) (self : t) : t :=
  mk (name self) (write_callback self) (batch_size self) (flush_interval self)
     (_write_queue self) x.

Definition __init__ (now : Z) (write_callback : option (WriteCallback V D))
    (batch_size : Z) (flush_interval : Z) (name : string) : t :=
  mk name write_callback batch_size flush_interval [] now.

(** The loop of [_flush] over the copy of the queue: a callback that raises
    puts its item back on the queue. *)
Fixpoint flush_items (cb : WriteCallback V D) (items : list (CacheKey * CacheValue))
  : M (t * D) unit :=
  match items with
  | [] => ret tt
  | (key, value) :: rest =>
      try_except (on_snd (cb key value))
        (λ _, on_fst (modify (λ self,
           with_queue (dict_set key value (_write_queue self)) self))) ;;;
      flush_items cb rest
  end.

Definition _flush (now : Z) : M (t * D) unit :=
  self <- gets fst ;;
  match _write_queue self with
  | [] => ret tt
  | queue_copy =>
      on_fst (modify (with_queue [])) ;;;
      on_fst (modify (with_last_flush now)) ;;;
      match write_callback self with
      | Some cb => flush_items cb queue_copy
      | None =>
          (* calling [None] raises inside the [try]: every item is put back *)
          on_fst (modify (λ self,
            with_queue (foldl (λ q kv, dict_set kv.1 kv.2 q) (_write_queue self)
                          queue_copy) self))
      end
  end.

(** [len(self._write_queue) >= self.batch_size or
    (current_time - self._last_flush) >= self.flush_interval] *)
Definition should_flush (now : Z) (self : t) : bool :=
  bool_decide (batch_size self ≤ Z.of_nat (length (_write_queue self)))%Z
  || bool_decide (flush_interval self ≤ now - _last_flush self)%Z.

Definition _maybe_flush (now : Z) : M (t * D) unit :=
  self <- gets fst ;;
  if should_flush now self && bool_decide (is_Some (write_callback self))
  then _flush now
  else ret tt.

Definition set (now : Z) (key : CacheKey) (value : CacheValue) (ttl : option Z)
  : M ((t * D) * Backend V) bool :=
  result <- on_snd (BaseBackend.set now key value ttl) ;;
  self <- gets (λ w, w.1.1) ;;
  (if bool_decide (is_Some (write_callback self)) && result
   then on_fst (
          on_fst (modify (λ self,
            with_queue (dict_set key value (_write_queue self)) self)) ;;;
          _maybe_flush now)
   else ret tt) ;;;
  ret result.

Definition flush (now : Z) : M (t * D) unit := _flush now.

Definition clear (now : Z) : M ((t * D) * Backend V) bool :=
  on_fst (_flush now) ;;;
  on_snd BaseBackend.clear.

Definition get (now : Z) (key : CacheKey) (miss_callback : option (CacheMissCallback V))
  : M ((t * D) * Backend V) CacheValue :=
  BaseStrategy.get set now key miss_callback.

End defs.
Arguments t : clear implicits.
End WriteBackStrategy.

(** ** [strategies/eviction.py] *)

Module LRUEvictionStrategy.

Record t : Type := mk {
  name : string;
  max_size : Z;
  _access_order : list CacheKey
}.

Definition with_access_order (od : list CacheKey) (self : t) : t :=
  mk (name self) (max_size self) od.

Definition __init__ (max_size : Z) (name : string) : outcome t :=
  if bool_decide (max_size ≤ 0)%Z then Raise ValueError
  else Return (mk name max_size []).

Section defs.
Context {V : Type}.
Local Abbreviation CacheValue := (option V).

Definition set (now : Z) (key : CacheKey) (value : CacheValue) (ttl : option Z)
  : M (t * Backend V) bool :=
  self <- gets fst ;;
  (if negb (od_contains key (_access_order self))
      && bool_decide (max_size self ≤ Z.of_nat (length (_access_order self)))%Z
   then
     match _access_order self with
     | [] => raise StopIteration
     | lru_key :: _ =>
         on_snd (BaseBackend.delete lru_key) ;;;
         on_fst (modify (λ self,
           with_access_order (od_del lru_key (_access_order self)) self))
     end
   else ret tt) ;;;
  on_fst (modify (λ self,
    with_access_order (od_move_to_end key (od_set key (_access_order self))) self)) ;;;
  on_snd (BaseBackend.set now key value ttl).

Definition get (now : Z) (key : CacheKey) (miss_callback : option (CacheMissCallback V))
  : M (t * Backend V) CacheValue :=
  value <- on_snd (BaseBackend.get now key) ;;
  match value, miss_callback with
  | Some _, _ =>
      on_fst (modify (λ self,
        with_access_order
          (if od_contains key (_access_order self)
           then od_move_to_end key (_access_order self)
           else od_set key (_access_order self)) self)) ;;;
      ret value
  | None, Some cb =>
      value <- (λ w, (cb key, w)) ;;
      (if value is Some _ then set now key value None ;;; ret tt else ret tt) ;;;
      ret value
  | None, None => ret value
  end.

Definition delete (key : CacheKey) : M (t * Backend V) bool :=
  result <- on_snd (BaseBackend.delete key) ;;
  (if result : bool
   then on_fst (modify (λ self,
          with_access_order (od_del key (_access_order self)) self))
   else ret tt) ;;;
  ret result.

Definition clear : M (t * Backend V) bool :=
  on_fst (modify (with_access_order [])) ;;;
  on_snd BaseBackend.clear.

Definition as_strategy : Strategy V t := mkStrategy get set delete clear.

End defs.
End LRUEvictionStrategy.

Module LFUEvictionStrategy.

Record t : Type := mk {
  name : string;
  max_size : Z;
  _access_counts : list (CacheKey * Z)
}.

Definition with_access_counts (d : list (CacheKey * Z)) (self : t) : t :=
  mk (name self) (max_size self) d.

Definition __init__ (max_size : Z) (name : string) : outcome t :=
  if bool_decide (max_size ≤ 0)%Z then Raise ValueError
  else Return (mk name max_size []).

Section defs.
Context {V : Type}.
Local Abbreviation CacheValue := (option V).

Definition set (now : Z) (key : CacheKey) (value : CacheValue) (ttl : option Z)
  : M (t * Backend V) bool :=
  self <- gets fst ;;
  (if negb (dict_contains key (_access_counts self))
      && bool_decide (max_size self ≤ Z.of_nat (length (_access_counts self)))%Z
   then
     match min_item (_access_counts self) with
     | None => raise ValueError
     | Some (lfu_key, _) =>
         on_snd (BaseBackend.delete lfu_key) ;;;
         on_fst (modify (λ self,
           with_access_counts (dict_del lfu_key (_access_counts self)) self))
     end
   else ret tt) ;;;
  on_fst (modify (λ self,
    if dict_contains key (_access_counts self) then self
    else with_access_counts (dict_set key 0%Z (_access_counts self)) self)) ;;;
  on_snd (BaseBackend.set now key value ttl).

Definition get (now : Z) (key : CacheKey) (miss_callback : option (CacheMissCallback V))
  : M (t * Backend V) CacheValue :=
  value <- on_snd (BaseBackend.get now key) ;;
  match value, miss_callback with
  | Some _, _ =>
      on_fst (modify (λ self,
        with_access_counts
          (dict_set key (default 0 (dict_get key (_access_counts self)) + 1)%Z
             (_access_counts self)) self)) ;;;
      ret value
  | None, Some cb =>
      value <- (λ w, (cb key, w)) ;;
      (if value is Some _ then set now key value None ;;; ret tt else ret tt) ;;;
      ret value
  | None, None => ret value
  end.

Definition delete (key : CacheKey) : M (t * Backend V) bool :=
  result <- on_snd (BaseBackend.delete key) ;;
  (if result : bool
   then on_fst (modify (λ self,
          with_access_counts (dict_del key (_access_counts self)) self))
   else ret tt) ;;;
  ret result.

Definition clear : M (t * Backend V) bool :=
  on_fst (modify (with_access_counts [])) ;;;
  on_snd BaseBackend.clear.

Definition as_strategy : Strategy V t := mkStrategy get set delete clear.

End defs.
End LFUEvictionStrategy.

Module FIFOEvictionStrategy.

Record t : Type := mk {
  name : string;
  max_size : Z;
  _insertion_order : list CacheKey
}.

Definition with_insertion_order (q : list CacheKey) (self : t) : t :=
  mk (name self) (max_size self) q.

Definition __init__ (max_size : Z) (name : string) : outcome t :=
  if bool_decide (max_size ≤ 0)%Z then Raise ValueError
  else Return (mk name max_size []).

Section defs.
Context {V : Type}.
Local Abbreviation CacheValue := (option V).

Definition set (now : Z) (key : CacheKey) (value : CacheValue) (ttl : option Z)
  : M (t * Backend V) bool :=
  self <- gets fst ;;
  (if negb (bool_decide (key ∈ _insertion_order self))
      && bool_decide (max_size self ≤ Z.of_nat (length (_insertion_order self)))%Z
   then
     match _insertion_order self with
     | [] => raise IndexError
     | oldest_key :: rest =>
         on_fst (modify (with_insertion_order rest)) ;;;
         on_snd (BaseBackend.delete oldest_key) ;;;
         ret tt
     end
   else ret tt) ;;;
  on_fst (modify (λ self,
    if bool_decide (key ∈ _insertion_order self) then self
    else with_insertion_order (_insertion_order self ++ [key]) self)) ;;;
  on_snd (BaseBackend.set now key value ttl).

Definition get (now : Z) (key : CacheKey) (miss_callback : option (CacheMissCallback V))
  : M (t * Backend V) CacheValue :=
  value <- on_snd (BaseBackend.get now key) ;;
  match value, miss_callback with
  | None, Some cb =>
      value <- (λ w, (cb key, w)) ;;
      (if value is Some _ then set now key value None ;;; ret tt else ret tt) ;;;
      ret value
  | _, _ => ret value
  end.

Definition delete (key : CacheKey) : M (t * Backend V) bool :=
  result <- on_snd (BaseBackend.delete key) ;;
  (if result : bool
   then on_fst (modify (λ self,
          match deque_remove key (_insertion_order self) with
          | Some q => with_insertion_order q self
          | None => self
          end))
   else ret tt) ;;;
  ret result.

Definition clear : M (t * Backend V) bool :=
  on_fst (modify (with_insertion_order [])) ;;;
  on_snd BaseBackend.clear.

Definition as_strategy : Strategy V t := mkStrategy get set delete clear.

End defs.
End FIFOEvictionStrategy.

(** ** The three eviction strategies behind the [Strategy] protocol *)

Inductive EvictionStrategy : Type :=
  | LRU (s : LRUEvictionStrategy.t)
  | LFU (s : LFUEvictionStrategy.t)
  | FIFO (s : FIFOEvictionStrategy.t).

(** The keys of the shadow index: the recency list of LRU, the keys of the
    frequency counters of LFU, the insertion queue of FIFO. *)
Definition shadow_keys (s : EvictionStrategy) : list CacheKey :=
  match s with
  | LRU s => LRUEvictionStrategy._access_order s
  | LFU s => (LFUEvictionStrategy._access_counts s).*1
  | FIFO s => FIFOEvictionStrategy._insertion_order s
  end.

Definition max_size (s : EvictionStrategy) : Z :=
  match s with
  | LRU s => LRUEvictionStrategy.max_size s
  | LFU s => LFUEvictionStrategy.max_size s
  | FIFO s => FIFOEvictionStrategy.max_size s
  end.

(** The key each policy evicts when it has to: the head of the recency list,
    the first key with a minimal count, the head of the queue. *)
Definition victim (s : EvictionStrategy) : option CacheKey :=
  match s with
  | LRU s => head (LRUEvictionStrategy._access_order s)
  | LFU s => fst <$> min_item (LFUEvictionStrategy._access_counts s)
  | FIFO s => head (FIFOEvictionStrategy._insertion_order s)
  end.

(** A call of one of the four strategy methods, and what it returns. *)
Inductive StrategyOp (V : Type) : Type :=
  | SGet (key : CacheKey) (miss_callback : option (CacheMissCallback V))
  | SSet (key : CacheKey) (value : option V) (ttl : option Z)
  | SDelete (key : CacheKey)
  | SClear.
Arguments SGet {V}.
Arguments SSet {V}.
Arguments SDelete {V}.
Arguments SClear {V}.

Inductive result (V : Type) : Type :=
  | RValue (v : option V)
  | RBool (b : bool)
  | RNone.
Arguments RValue {V}.
Arguments RBool {V}.
Arguments RNone {V}.

Section dispatch.
Context {V : Type}.

Definition call {St : Type} (impl : Strategy V St) (now : Z) (op : StrategyOp V)
  : M (St * Backend V) (result V) :=
  match op with
  | SGet key cb => v <- strategy_get impl now key cb ;; ret (RValue v)
  | SSet key value ttl => r <- strategy_set impl now key value ttl ;; ret (RBool r)
  | SDelete key => r <- strategy_delete impl key ;; ret (RBool r)
  | SClear => r <- strategy_clear impl ;; ret (RBool r)
  end.

(** Run a method of a concrete strategy class on a strategy object [s]. *)
Definition as_eviction {St A : Type} (inj : St → EvictionStrategy) (s : St)
    (m : M (St * Backend V) A) : M (EvictionStrategy * Backend V) A :=
  λ w, let '(r, (s', b')) := m (s, w.2) in (r, (inj s', b')).

Definition step (now : Z) (op : StrategyOp V)
  : M (EvictionStrategy * Backend V) (result V) :=
  λ w, match w.1 with
       | LRU s => as_eviction LRU s (call LRUEvictionStrategy.as_strategy now op) w
       | LFU s => as_eviction LFU s (call LFUEvictionStrategy.as_strategy now op) w
       | FIFO s => as_eviction FIFO s (call FIFOEvictionStrategy.as_strategy now op) w
       end.

(** The state after a sequence of timed calls, and the states after each
    call of the sequence. *)
Fixpoint exec (ops : list (Z * StrategyOp V)) (w : EvictionStrategy * Backend V)
  : EvictionStrategy * Backend V :=
  match ops with
  | [] => w
  | (now, op) :: rest => exec rest (step now op w).2
  end.

Fixpoint states (ops : list (Z * StrategyOp V)) (w : EvictionStrategy * Backend V)
  : list (EvictionStrategy * Backend V) :=
  match ops with
  | [] => []
  | (now, op) :: rest => (step now op w).2 :: states rest (step now op w).2
  end.

(** What [set] does to the shadow index, policy by policy: the test that
    opens the eviction branch, the removal of the victim and the admission
    of the key. *)
Definition needs_eviction (key : CacheKey) (s : EvictionStrategy) : bool :=
  negb (bool_decide (key ∈ shadow_keys s))
  && bool_decide (max_size s ≤ Z.of_nat (length (shadow_keys s)))%Z.

Definition evict (v : CacheKey) (s : EvictionStrategy) : EvictionStrategy :=
  match s with
  | LRU s =>
      LRU (LRUEvictionStrategy.with_access_order
             (od_del v (LRUEvictionStrategy._access_order s)) s)
  | LFU s =>
      LFU (LFUEvictionStrategy.with_access_counts
             (dict_del v (LFUEvictionStrategy._access_counts s)) s)
  | FIFO s =>
      FIFO (FIFOEvictionStrategy.with_insertion_order
              (tail (FIFOEvictionStrategy._insertion_order s)) s)
  end.

Definition enlist (key : CacheKey) (s : EvictionStrategy) : EvictionStrategy :=
  match s with
  | LRU s =>
      LRU (LRUEvictionStrategy.with_access_order
             (od_move_to_end key (od_set key (LRUEvictionStrategy._access_order s))) s)
  | LFU s =>
      if dict_contains key (LFUEvictionStrategy._access_counts s) then LFU s
      else LFU (LFUEvictionStrategy.with_access_counts
                  (dict_set key 0%Z (LFUEvictionStrategy._access_counts s)) s)
  | FIFO s =>
      if bool_decide (key ∈ FIFOEvictionStrategy._insertion_order s) then FIFO s
      else FIFO (FIFOEvictionStrategy.with_insertion_order
                   (FIFOEvictionStrategy._insertion_order s ++ [key]) s)
  end.

(** What a hit of [get], a successful [delete] and [clear] do to the shadow
    index. *)
Definition touch (key : CacheKey) (s : EvictionStrategy) : EvictionStrategy :=
  match s with
  | LRU s =>
      LRU (LRUEvictionStrategy.with_access_order
             (if od_contains key (LRUEvictionStrategy._access_order s)
              then od_move_to_end key (LRUEvictionStrategy._access_order s)
              else od_set key (LRUEvictionStrategy._access_order s)) s)
  | LFU s =>
      LFU (LFUEvictionStrategy.with_access_counts
             (dict_set key
                (default 0 (dict_get key (LFUEvictionStrategy._access_counts s)) + 1)%Z
                (LFUEvictionStrategy._access_counts s)) s)
  | FIFO s => FIFO s
  end.

Definition drop (key : CacheKey) (s : EvictionStrategy) : EvictionStrategy :=
  match s with
  | LRU s =>
      LRU (LRUEvictionStrategy.with_access_order
             (od_del key (LRUEvictionStrategy._access_order s)) s)
  | LFU s =>
      LFU (LFUEvictionStrategy.with_access_counts
             (dict_del key (LFUEvictionStrategy._access_counts s)) s)
  | FIFO s =>
      match deque_remove key (FIFOEvictionStrategy._insertion_order s) with
      | Some q => FIFO (FIFOEvictionStrategy.with_insertion_order q s)
      | None => FIFO s
      end
  end.

Definition cleared (s : EvictionStrategy) : EvictionStrategy :=
  match s with
  | LRU s => LRU (LRUEvictionStrategy.with_access_order [] s)
  | LFU s => LFU (LFUEvictionStrategy.with_access_counts [] s)
  | FIFO s => FIFO (FIFOEvictionStrategy.with_insertion_order [] s)
  end.

(** The exception of an eviction from an empty index. *)
Definition empty_index_error (s : EvictionStrategy) : exn :=
  match s with
  | LRU _ => StopIteration
  | LFU _ => ValueError
  | FIFO _ => IndexError
  end.

(** What a miss does once the backend has answered: it asks the callback
    and admits what the callback returns through the strategy's [set]. *)
Definition miss_fill (now : Z) (key : CacheKey)
    (cb : option (CacheMissCallback V)) (w : EvictionStrategy * Backend V)
  : outcome (result V) * (EvictionStrategy * Backend V) :=
  match cb with
  | Some f =>
      match f key with
      | Return (Some x) =>
          (match (step now (SSet key (Some x) None) w).1 with
           | Return _ => Return (RValue (Some x))
           | Raise e => Raise e
           end,
           (step now (SSet key (Some x) None) w).2)
      | Return None => (Return (RValue None), w)
      | Raise e => (Raise e, w)
      end
  | None => (Return (RValue None), w)
  end.

(** The keys a call takes out of the shadow index, in the order of the
    index. *)
Definition evicted_by (now : Z) (op : StrategyOp V)
    (w : EvictionStrategy * Backend V) : list CacheKey :=
  filter (λ k, k ∉ shadow_keys (step now op w).2.1) (shadow_keys w.1).




(** The calls that admit a list of entries in order, each with the time of
    its call, its key and its value, and without reads in between. *)
Definition put_all (entries : list (Z * (CacheKey * option V)))
  : list (Z * StrategyOp V) :=
  (λ e, (e.1, SSet e.2.1 e.2.2 None)) <$> entries.

(** The backend holds [value] under [key], and for good: the entry does
    not expire. *)
Definition holds (key : CacheKey) (value : option V) (b : Backend V) : Prop :=
  _store b !! key = Some value ∧ ∀ t, BaseBackend._is_expired t key b = false.


(** The shadow index only names keys of the backend. *)
Definition shadow_subset (w : EvictionStrategy * Backend V) : Prop :=
  ∀ key, key ∈ shadow_keys w.1 → is_Some (_store w.2 !! key).

(** The state of a strategy at work on an open backend: no key twice in
    the index, and the index within the backend. *)
Definition index_inv (w : EvictionStrategy * Backend V) : Prop :=
  _closed w.2 = false ∧ NoDup (shadow_keys w.1) ∧ shadow_subset w.

(** A [get] whose key has a metadata record that is expired at the time of
    the call: the backend then deletes the key on its own. *)
Definition hits_expired (now : Z) (op : StrategyOp V) (b : Backend V) : bool :=
  match op with
  | SGet key _ => BaseBackend._is_expired now key b
  | _ => false
  end.

Fixpoint expiry_free (ops : list (Z * StrategyOp V)) (w : EvictionStrategy * Backend V)
  : bool :=
  match ops with
  | [] => true
  | (now, op) :: rest =>
      negb (hits_expired now op w.2) && expiry_free rest (step now op w).2
  end.

End dispatch.

(** ** The backend's own calls, and the backends a program can build *)

Inductive BackendOp (V : Type) : Type :=
  | BGet (key : CacheKey)
  | BSet (key : CacheKey) (value : option V) (ttl : option Z)
  | BDelete (key : CacheKey)
  | BExists (key : CacheKey)
  | BClear
  | BClose.
Arguments BGet {V}.
Arguments BSet {V}.
Arguments BDelete {V}.
Arguments BExists {V}.
Arguments BClear {V}.
Arguments BClose {V}.

Section backend_calls.
Context {V : Type}.

Definition backend_call (now : Z) (op : BackendOp V) : M (Backend V) (result V) :=
  match op with
  | BGet key => v <- BaseBackend.get now key ;; ret (RValue v)
  | BSet key value ttl => r <- BaseBackend.set now key value ttl ;; ret (RBool r)
  | BDelete key => r <- BaseBackend.delete key ;; ret (RBool r)
  | BExists key => r <- BaseBackend.exists_ now key ;; ret (RBool r)
  | BClear => r <- BaseBackend.clear ;; ret (RBool r)
  | BClose => BaseBackend.close ;;; ret RNone
  end.

Fixpoint backend_exec (ops : list (Z * BackendOp V)) (b : Backend V) : Backend V :=
  match ops with
  | [] => b
  | (now, op) :: rest => backend_exec rest (backend_call now op b).2
  end.

(** The outcomes of a sequence of calls. *)
Fixpoint backend_outcomes (ops : list (Z * BackendOp V)) (b : Backend V)
  : list (outcome (result V)) :=
  match ops with
  | [] => []
  | (now, op) :: rest =>
      (backend_call now op b).1 :: backend_outcomes rest (backend_call now op b).2
  end.

(** A backend as a program can have it: a new [MemoryBackend] after any
    sequence of calls at any times. *)
Inductive reachable : Backend V → Prop :=
  | reachable_init nm enable : reachable (MemoryBackend.__init__ nm enable)
  | reachable_call b now op :
      reachable b → reachable (backend_call now op b).2.

(** What every such backend satisfies: metadata is only kept when enabled,
    only for keys of the store, and not after [close]. *)
Definition backend_inv (b : Backend V) : Prop :=
  (enable_metadata b = false → _metadata b = ∅)
  ∧ (∀ key, is_Some (_metadata b !! key) → is_Some (_store b !! key))
  ∧ (_closed b = true → _metadata b = ∅).

(** The calls that can take [key] out of the store. *)
Definition removes (key : CacheKey) (op : BackendOp V) : Prop :=
  op = BGet key ∨ op = BExists key ∨ op = BDelete key ∨ op = BClear.

End backend_calls.

(** ** [core/config.py], [core/cache.py] *)

Record CacheConfig : Type := mkCacheConfig {
  default_ttl : option Z;
  key_prefix : string;
  namespace : string
}.

Module CacheConfig.

(** [__post_init__]: the check of [default_ttl]. *)
Definition __post_init__ (self : CacheConfig) : outcome CacheConfig :=
  match default_ttl self with
  | Some d => if bool_decide (d ≤ 0)%Z then Raise CacheConfigurationError
              else Return self
  | None => Return self
  end.

End CacheConfig.

Module CacheManager.
Section defs.
Context {V St : Type}.
Local Abbreviation CacheValue := (option V).

Record t : Type := mk {
  backend : Backend V;
  strategy : St;
  config : CacheConfig
}.

(** Run a strategy method on the manager's strategy and backend. *)
Definition delegate {A} (m : M (St * Backend V) A) : M t A :=
  λ self, let '(r, (s', b')) := m (strategy self, backend self) in
          (r, mk b' s' (config self)).

(** [":".join(parts)], the parts being the non-empty ones of namespace and
    prefix, then [str(key)]. The argument [key] is that string: for a key
    that is a [str] it is the key, and a caller with keys of another type
    passes [str(key)], which is all that the manager takes from a key. *)
Definition _make_key (self : t) (key : CacheKey) : CacheKey :=
  let parts :=
    (if decide (namespace (config self) = "") then [] else [namespace (config self)])
    ++ (if decide (key_prefix (config self) = "") then [] else [key_prefix (config self)])
    ++ [key] in
  String.concat ":" parts.

(** [ttl or default]: [None] and [0] are falsy. *)
Definition ttl_or (ttl : option Z) (dflt : option Z) : option Z :=
  match ttl with
  | Some x => if bool_decide (x = 0)%Z then dflt else Some x
  | None => dflt
  end.

Definition get (impl : Strategy V St) (now : Z) (key : CacheKey)
    (miss_callback : option (CacheMissCallback V)) : M t CacheValue :=
  λ self, delegate (strategy_get impl now (_make_key self key) miss_callback) self.

Definition set (impl : Strategy V St) (now : Z) (key : CacheKey)
    (value : CacheValue) (ttl : option Z) : M t bool :=
  λ self,
    let full_key := _make_key self key in
    let ttl := ttl_or ttl (default_ttl (config self)) in
    delegate (strategy_set impl now full_key value ttl) self.

Definition delete (impl : Strategy V St) (key : CacheKey) : M t bool :=
  λ self, delegate (strategy_delete impl (_make_key self key)) self.

Definition exists_ (now : Z) (key : CacheKey) : M t bool :=
  λ self, delegate (on_snd (BaseBackend.exists_ now (_make_key self key))) self.

Definition clear (impl : Strategy V St) : M t bool :=
  delegate (strategy_clear impl).

Definition close : M t unit :=
  delegate (on_snd BaseBackend.close).

End defs.
Arguments t : clear implicits.
End CacheManager.

(** ** Sample objects *)

(** A manager over a TTL strategy without a default of its own, configured
    with a default ttl of 5 and the namespace of [CacheConfig]'s default. *)
Definition sample_manager : CacheManager.t Z TTLStrategy.t :=
  CacheManager.mk (MemoryBackend.__init__ "memory" true)
    (TTLStrategy.mk "ttl" None)
    (mkCacheConfig (Some 5%Z) "" "default").

(** A backend with one entry, stored at time 0 with a ttl of 5. *)
Definition sample_backend : Backend Z :=
  backend_exec [(0%Z, BSet "a" (Some 1%Z) (Some 5%Z))]
    (MemoryBackend.__init__ "memory" true).

(** An authoritative store that logs the pairs written to it, and one whose
    writes always fail. *)
Definition recording_store : WriteCallback Z (list (string * option Z)) :=
  λ key value d, (Return tt, d ++ [(key, value)]).
Definition failing_store : WriteCallback Z (list (string * option Z)) :=
  λ key value d, (Raise CallbackError, d).

(** New strategies, of capacity 2 and 1, on a new backend. *)
Definition sample_lru : EvictionStrategy * Backend Z :=
  (LRU (LRUEvictionStrategy.mk "lru" 2 []), MemoryBackend.__init__ "memory" true).
Definition sample_fifo : EvictionStrategy * Backend Z :=
  (FIFO (FIFOEvictionStrategy.mk "fifo" 1 []), MemoryBackend.__init__ "memory" true).

(** A new LRU strategy of capacity 1 on a backend that already holds two
    keys, written by the backend's own [set]. *)
Definition sample_lru_populated : EvictionStrategy * Backend Z :=
  (LRU (LRUEvictionStrategy.mk "lru" 1 []),
   backend_exec [(0%Z, BSet "a" (Some 1%Z) None); (0%Z, BSet "b" (Some 2%Z) None)]
     (MemoryBackend.__init__ "memory" true)).

(** The LRU strategy of capacity 2 after admitting two keys. *)
Definition sample_lru_full : EvictionStrategy * Backend Z :=
  exec [(0%Z, SSet "a" (Some 1%Z) None); (1%Z, SSet "b" (Some 2%Z) None)] sample_lru.

(** Three calls on a FIFO strategy of capacity 1: the [get] in the middle
    misses and fills the cache through its callback. *)
Definition fifo_run_with_fill : list (Z * StrategyOp Z) :=
  [(0%Z, SSet "a" (Some 1%Z) None);
   (1%Z, SGet "b" (Some (λ _, Return (Some 2%Z))));
   (2%Z, SSet "c" (Some 3%Z) None)].


(** ** Further definitions *)

Section sole_writer.
Context {V : Type}.

(** A strategy that is the only writer of its open backend: every key of
    the backend is in the shadow index, which repeats no key and is within
    [max_size]. *)
Definition owns (w : EvictionStrategy * Backend V) : Prop :=
  _closed w.2 = false
  ∧ NoDup (shadow_keys w.1)
  ∧ (∀ k, is_Some (_store w.2 !! k) → k ∈ shadow_keys w.1)
  ∧ (Z.of_nat (length (shadow_keys w.1)) ≤ max_size w.1)%Z.

End sole_writer.

(** ** [strategies/cache_aside.py] *)
Module CacheAsideStrategy.

Record t : Type := mk { name : string }.

Section defs.
Context {V : Type}.
Local Abbreviation CacheValue := (option V).

Definition get (now : Z) (key : CacheKey) (miss_callback : option (CacheMissCallback V))
  : M (t * Backend V) CacheValue :=
  value <- on_snd (BaseBackend.get now key) ;;
  match value, miss_callback with
  | None, Some cb =>
      value <- (λ w, (cb key, w)) ;;
      (if value is Some _
       then on_snd (BaseBackend.set now key value None) ;;; ret tt
       else ret tt) ;;;
      ret value
  | _, _ => ret value
  end.

Definition set (now : Z) (key : CacheKey) (value : CacheValue) (ttl : option Z)
  : M (t * Backend V) bool :=
  on_snd (BaseBackend.set now key value ttl).

Definition as_strategy : Strategy V t :=
  mkStrategy get set BaseStrategy.delete BaseStrategy.clear.

End defs.
End CacheAsideStrategy.

(** ** [strategies/read_through.py]

    The model is of the body of [get]. Its signature is annotated with
    [CacheMissCallback], a name the module does not import, so the class
    is defined only where annotations are not evaluated when the method is
    defined. *)
Module ReadThroughStrategy.
Section defs.
Context {V : Type}.
Local Abbreviation CacheValue := (option V).

Record t : Type := mk {
  name : string;
  read_callback : option (CacheMissCallback V)
}.

(** [miss_callback or self.read_callback] *)
Definition callback (self : t) (miss_callback : option (CacheMissCallback V))
  : option (CacheMissCallback V) :=
  match miss_callback with
  | Some cb => Some cb
  | None => read_callback self
  end.

Definition get (now : Z) (key : CacheKey) (miss_callback : option (CacheMissCallback V))
  : M (t * Backend V) CacheValue :=
  self <- gets fst ;;
  value <- on_snd (BaseBackend.get now key) ;;
  match value with
  | None =>
      match callback self miss_callback with
      | Some cb =>
          try_except
            (value <- (λ w, (cb key, w)) ;;
             (if value is Some _
              then on_snd (BaseBackend.set now key value None) ;;; ret tt
              else ret tt) ;;;
             ret value)
            (λ e, raise RuntimeError)
      | None => ret value
      end
  | Some _ => ret value
  end.

Definition as_strategy : Strategy V t :=
  mkStrategy get BaseStrategy.set BaseStrategy.delete BaseStrategy.clear.

End defs.
Arguments t : clear implicits.
End ReadThroughStrategy.

(** ** Callables with a state of their own

    [CacheMissCallback] of [core/types.py] is
    [Callable[[CacheKey], CacheValue]]: any Python callable, whose answer
    for a key may change from one call to the next. [Callable V D] is such
    a callable with a state [D] of its own; a call runs it on that state.
    The methods through which [get_or_compute] reaches its callable are
    restated over it, for the cache-aside strategy: [CacheAsideStrategy.get]
    and [CacheManager.get] of [core/cache.py]. With a callable that has no
    state they are the methods above. *)
Module Callables.
Section defs.
Context {V D : Type}.
Local Abbreviation CacheValue := (option V).

Definition Callable : Type := CacheKey → M D CacheValue.

(** The callable that answers by a function of the key. *)
Definition stateless (f : CacheMissCallback V) : Callable :=
  λ key d, (f key, d).

(** [CacheAsideStrategy.get] *)
Definition CacheAsideStrategy_get (now : Z) (key : CacheKey)
    (miss_callback : option Callable)
  : M (D * (CacheAsideStrategy.t * Backend V)) CacheValue :=
  value <- on_snd (on_snd (BaseBackend.get now key)) ;;
  match value, miss_callback with
  | None, Some cb =>
      value <- on_fst (cb key) ;;
      (if value is Some _
       then on_snd (on_snd (BaseBackend.set now key value None)) ;;; ret tt
       else ret tt) ;;;
      ret value
  | _, _ => ret value
  end.

(** Run a strategy method on the manager's strategy and backend. *)
Definition delegate {A} (m : M (D * (CacheAsideStrategy.t * Backend V)) A)
  : M (D * CacheManager.t V CacheAsideStrategy.t) A :=
  λ w, let '(r, (d', (s', b'))) :=
         m (w.1, (CacheManager.strategy w.2, CacheManager.backend w.2)) in
       (r, (d', CacheManager.mk b' s' (CacheManager.config w.2))).

(** [CacheManager.get] *)
Definition CacheManager_get (now : Z) (key : CacheKey)
    (miss_callback : option Callable)
  : M (D * CacheManager.t V CacheAsideStrategy.t) CacheValue :=
  λ w, delegate
         (CacheAsideStrategy_get now (CacheManager._make_key w.2 key)
            miss_callback) w.

End defs.
Arguments Callable : clear implicits.
End Callables.

(** ** [api/manager.py]

    [CacheManager] of [api/manager.py], the subclass of the core manager
    with the convenience methods.

    [get_or_compute] is over the cache-aside strategy and a callable with
    a state of its own.

    [set_many] and [get_many] take the keys as the program passes them:
    [CacheKey] is [Union[str, bytes, int, float]], a type [K] here, with
    [str] for Python's [str(key)], the one thing the manager does with a
    key ([_make_key]), and [key_eq] for the equality by which a [dict]
    tells its keys apart. A [dict] argument is the list of its items, in
    the order of iteration; the [dict] that [get_many] returns is built
    with [dict_put]. *)
Module ApiCacheManager.
Section defs.
Context {V St : Type}.
Local Abbreviation CacheValue := (option V).

Definition get_or_set (impl : Strategy V St) (now : Z) (key : CacheKey)
    (default : CacheValue) (ttl : option Z) : M (CacheManager.t V St) CacheValue :=
  value <- CacheManager.get impl now key None ;;
  match value with
  | None => CacheManager.set impl now key default ttl ;;; ret default
  | Some _ => ret value
  end.

(** The loop of [delete_many], from a count. *)
Fixpoint delete_many_from (impl : Strategy V St) (keys : list CacheKey) (count : Z)
  : M (CacheManager.t V St) Z :=
  match keys with
  | [] => ret count
  | key :: rest =>
      r <- CacheManager.delete impl key ;;
      delete_many_from impl rest (if r : bool then count + 1 else count)%Z
  end.

Definition delete_many (impl : Strategy V St) (keys : list CacheKey)
  : M (CacheManager.t V St) Z :=
  delete_many_from impl keys 0.

End defs.

Section compute.
Context {V D : Type}.
Local Abbreviation CacheValue := (option V).

Definition get_or_compute (now : Z) (key : CacheKey)
    (compute_func : Callables.Callable V D) (ttl : option Z)
  : M (D * CacheManager.t V CacheAsideStrategy.t) CacheValue :=
  value <- Callables.CacheManager_get now key (Some compute_func) ;;
  match value with
  | None =>
      value <- on_fst (compute_func key) ;;
      (if value is Some _
       then on_snd (CacheManager.set CacheAsideStrategy.as_strategy now key
                      value ttl) ;;; ret tt
       else ret tt) ;;;
      ret value
  | Some _ => ret value
  end.

End compute.

Section many.
Context {V St K : Type} (key_eq : K → K → bool) (str : K → string).
Local Abbreviation CacheValue := (option V).

(** [d[key] = value] on a [dict] with keys of type [K]: a key equal to
    [key] keeps its place, and stays the key of the item. *)
Fixpoint dict_put {A : Type} (key : K) (value : A) (d : list (K * A))
  : list (K * A) :=
  match d with
  | [] => [(key, value)]
  | (k, v) :: rest =>
      if key_eq k key then (k, value) :: rest
      else (k, v) :: dict_put key value rest
  end.

(** The loop of [set_many], from a count. *)
Fixpoint set_many_from (impl : Strategy V St) (now : Z)
    (items : list (K * CacheValue)) (ttl : option Z) (count : Z)
  : M (CacheManager.t V St) Z :=
  match items with
  | [] => ret count
  | (key, value) :: rest =>
      r <- CacheManager.set impl now (str key) value ttl ;;
      set_many_from impl now rest ttl (if r : bool then count + 1 else count)%Z
  end.

Definition set_many (impl : Strategy V St) (now : Z)
    (mapping : list (K * CacheValue)) (ttl : option Z)
  : M (CacheManager.t V St) Z :=
  set_many_from impl now mapping ttl 0.

(** The loop of [get_many], from a result. *)
Fixpoint get_many_from (impl : Strategy V St) (now : Z) (keys : list K)
    (result : list (K * CacheValue))
  : M (CacheManager.t V St) (list (K * CacheValue)) :=
  match keys with
  | [] => ret result
  | key :: rest =>
      value <- CacheManager.get impl now (str key) None ;;
      get_many_from impl now rest (dict_put key value result)
  end.

Definition get_many (impl : Strategy V St) (now : Z) (keys : list K)
  : M (CacheManager.t V St) (list (K * CacheValue)) :=
  get_many_from impl now keys [].

End many.
End ApiCacheManager.

(** The keys of [core/types.py] that are text or whole numbers, with
    Python's [str] and [==] on them: a [str] is never equal to an [int]. *)
Inductive PyKey : Type :=
  | KStr (s : string)
  | KInt (n : Z).

Definition py_str (key : PyKey) : string :=
  match key with
  | KStr s => s
  | KInt n => pretty n
  end.

Definition py_eq (k k' : PyKey) : bool :=
  match k, k' with
  | KStr s, KStr s' => bool_decide (s = s')
  | KInt n, KInt n' => bool_decide (n = n')
  | _, _ => false
  end.

(** A [dict]: no two of its items have equal keys. *)
Fixpoint is_dict {K A : Type} (key_eq : K → K → bool) (items : list (K * A))
  : bool :=
  match items with
  | [] => true
  | (k, _) :: rest =>
      forallb (λ kv, negb (key_eq k kv.1)) rest && is_dict key_eq rest
  end.

(** The value of the last item written under the string [s], if any. *)
Fixpoint written {K A : Type} (str : K → string) (s : string)
    (items : list (K * A)) : option A :=
  match items with
  | [] => None
  | (k, v) :: rest =>
      match written str s rest with
      | Some x => Some x
      | None => if decide (str k = s) then Some v else None
      end
  end.

(** ** What a backend holds for one key *)
Section per_key.
Context {V : Type}.

(** The key a call of the backend is about. *)
Definition op_key (op : BackendOp V) : option CacheKey :=
  match op with
  | BGet key | BSet key _ _ | BDelete key | BExists key => Some key
  | BClear | BClose => None
  end.

(** Two backends that are the same as far as [key] goes: flags, stored
    value and metadata of the key. *)
Definition agree_at (key : CacheKey) (b b' : Backend V) : Prop :=
  _closed b' = _closed b
  ∧ enable_metadata b' = enable_metadata b
  ∧ _store b' !! key = _store b !! key
  ∧ _metadata b' !! key = _metadata b !! key.

End per_key.

(** What [get] returns on an open backend: the stored value of a key that
    has not expired. *)
Definition reads {V : Type} (now : Z) (b : Backend V) (key : CacheKey)
  : option V :=
  if BaseBackend._is_expired now key b then None else mjoin (_store b !! key).

(** The calls of the backend that a [set_many] over the cache-aside
    strategy amounts to: one [set] for each item, under the full key. *)
Definition set_calls {V K : Type} (now : Z) (ttl : option Z)
    (full : K → CacheKey) (items : list (K * option V))
  : list (Z * BackendOp V) :=
  (λ kv, (now, BSet (full kv.1) kv.2 ttl)) <$> items.

(** ** [strategies/refresh_ahead.py]

    The refresh thread is not modelled: [_refresh_expiring_keys] is one pass
    of its worker, taken on its own, as [set] and [delete] are. The fields
    that only serve the thread ([_running], [_refresh_thread]) and
    [refresh_threshold], which no method reads, are left out, and so are
    [get] and [clear], which start and stop the thread. As in
    [read_through.py], the signature of [get] names [CacheMissCallback]
    without importing it. *)
Module RefreshAheadStrategy.
Section defs.
Context {V : Type}.
Local Abbreviation CacheValue := (option V).

Record t : Type := mk {
  name : string;
  refresh_callback : option (CacheMissCallback V);
  _refresh_times : list (CacheKey * Z)
}.

Definition with_refresh_times (r : list (CacheKey * Z)) (self : t) : t :=
  mk (name self) (refresh_callback self) r.

Definition set (now : Z) (key : CacheKey) (value : CacheValue) (ttl : option Z)
  : M (t * Backend V) bool :=
  result <- on_snd (BaseBackend.set now key value ttl) ;;
  (if result : bool
   then on_fst (modify (λ self,
          with_refresh_times (dict_set key now (_refresh_times self)) self))
   else ret tt) ;;;
  ret result.

Definition delete (key : CacheKey) : M (t * Backend V) bool :=
  result <- on_snd (BaseBackend.delete key) ;;
  (if result : bool
   then on_fst (modify (λ self,
          with_refresh_times (dict_del key (_refresh_times self)) self))
   else ret tt) ;;;
  ret result.

(** The body of the loop of [_refresh_expiring_keys], for one key: whatever
    is raised inside is dropped. *)
Definition refresh_key (now : Z) (cb : CacheMissCallback V) (key : CacheKey)
  : M (t * Backend V) unit :=
  try_except
    (present <- on_snd (BaseBackend.exists_ now key) ;;
     if present : bool
     then
       new_value <- (λ w, (cb key, w)) ;;
       if new_value is Some _
       then
         on_snd (BaseBackend.set now key new_value None) ;;;
         on_fst (modify (λ self,
           with_refresh_times (dict_set key now (_refresh_times self)) self))
       else ret tt
     else ret tt)
    (λ _, ret tt).

Fixpoint refresh_keys (now : Z) (cb : CacheMissCallback V) (keys : list CacheKey)
  : M (t * Backend V) unit :=
  match keys with
  | [] => ret tt
  | key :: rest => refresh_key now cb key ;;; refresh_keys now cb rest
  end.

Definition _refresh_expiring_keys (now : Z) : M (t * Backend V) unit :=
  self <- gets fst ;;
  match refresh_callback self with
  | None => ret tt
  | Some cb => refresh_keys now cb (_refresh_times self).*1
  end.

End defs.
Arguments t : clear implicits.
End RefreshAheadStrategy.

(** ** Runs of an eviction strategy: what is deleted, adopted, stranded *)
Section runs.
Context {V : Type}.


(** A [get] that adopts its key: on a hit, LRU and LFU add to the index,
    without a look at [max_size], a key that the backend holds and the
    index does not. The [get] of FIFO leaves the queue alone. *)
Definition adopts (now : Z) (op : StrategyOp V)
    (w : EvictionStrategy * Backend V) : bool :=
  match op, w.1 with
  | SGet key _, (LRU _ | LFU _) =>
      bool_decide (key ∉ shadow_keys w.1)
      && negb (BaseBackend._is_expired now key w.2)
      && bool_decide (is_Some (mjoin (_store w.2 !! key)))
  | _, _ => false
  end.

Fixpoint adoptions (ops : list (Z * StrategyOp V))
    (w : EvictionStrategy * Backend V) : nat :=
  match ops with
  | [] => 0
  | (now, op) :: rest =>
      (if adopts now op w then 1 else 0) + adoptions rest (step now op w).2
  end.




End runs.

(** ** [backends/sqlite_backend.py]

    [SQLiteBackend], the backend of this repository whose store checks
    expiry in its own code. The database file outlives the backend objects
    opened on it, and several objects can be open on one file, so the table
    is a state of its own beside the object, which holds what
    [BaseBackend.__init__] sets up: the closed flag, [enable_metadata] and
    the metadata records. A row of the table [cache] is the value and the
    [expires_at] column. The serializer is taken to give back the value it
    was given and the database to answer every statement, so the hooks
    raise nothing. [get], [set], [delete] and [exists] are the methods of
    [BaseBackend], which [SQLiteBackend] inherits, over its own hooks. *)
Module SQLiteBackend.
Section defs.
Context {V : Type}.
Local Abbreviation CacheValue := (option V).

Record t : Type := mk {
  name : string;
  _closed : bool;
  enable_metadata : bool;
  _metadata : gmap string CacheMetadata
}.

Definition Table : Type := gmap string (CacheValue * option Z).

Definition with_metadata (m : gmap string CacheMetadata) (self : t) : t :=
  mk (name self) (_closed self) (enable_metadata self) m.

Definition __init__ (nm : string) (enable : bool) : t := mk nm false enable ∅.

Definition _check_closed : M (t * Table) unit :=
  λ w, if _closed w.1 then (Raise BackendError, w) else (Return tt, w).

(** [SELECT value, expires_at ...]; a row whose [expires_at] has passed is
    deleted here, and [None] returned. *)
Definition _get_impl (now : Z) (key : CacheKey) : M (t * Table) CacheValue :=
  row <- gets (λ w, w.2 !! key) ;;
  match row with
  | None => ret None
  | Some (value, expires_at) =>
      match expires_at with
      | Some e =>
          if bool_decide (e ≤ now)%Z
          then on_snd (modify (base.delete key)) ;;; ret None
          else ret value
      | None => ret value
      end
  end.

(** [INSERT OR REPLACE], with [expires_at = now + ttl] when there is a
    ttl. *)
Definition _set_impl (now : Z) (key : CacheKey) (value : CacheValue)
    (ttl : option Z) : M (t * Table) bool :=
  on_snd (modify (<[key := (value, (λ x, now + x)%Z <$> ttl)]>)) ;;;
  ret true.

(** [DELETE ...; return cursor.rowcount > 0] *)
Definition _delete_impl (key : CacheKey) : M (t * Table) bool :=
  present <- gets (λ w, bool_decide (is_Some (w.2 !! key))) ;;
  on_snd (modify (base.delete key)) ;;;
  ret present.

Definition _exists_impl (key : CacheKey) : M (t * Table) bool :=
  gets (λ w, bool_decide (is_Some (w.2 !! key))).

Definition _is_expired (now : Z) (key : CacheKey) (self : t) : bool :=
  if negb (enable_metadata self) then false else
  match _metadata self !! key with
  | None => false
  | Some metadata => CacheMetadata.is_expired now metadata
  end.

(** [_set_metadata(key, ttl)], without tags *)
Definition _set_metadata (now : Z) (key : CacheKey) (ttl : option Z)
  : M (t * Table) unit :=
  on_fst (modify (λ self,
    if negb (enable_metadata self) then self else
    let expires := (λ x, now + x)%Z <$> ttl in
    match _metadata self !! key with
    | Some metadata =>
        with_metadata
          (<[key := CacheMetadata.set_expires_at expires metadata]>
             (_metadata self)) self
    | None =>
        with_metadata
          (<[key := CacheMetadata.__init__ now None expires 0 None (Some [])]>
             (_metadata self)) self
    end)).

Definition _update_access_metadata (now : Z) (key : CacheKey)
  : M (t * Table) unit :=
  on_fst (modify (λ self,
    if enable_metadata self
    then match _metadata self !! key with
         | Some metadata =>
             with_metadata
               (<[key := CacheMetadata.update_access now metadata]>
                  (_metadata self)) self
         | None => self
         end
    else self)).

Definition _delete_metadata (key : CacheKey) : M (t * Table) unit :=
  on_fst (modify (λ self,
    if enable_metadata self
    then with_metadata (base.delete key (_metadata self)) self
    else self)).

Definition delete (key : CacheKey) : M (t * Table) bool :=
  _check_closed ;;;
  result <- _delete_impl key ;;
  (if result : bool then _delete_metadata key else ret tt) ;;;
  ret result.

Definition get (now : Z) (key : CacheKey) : M (t * Table) CacheValue :=
  _check_closed ;;;
  expired <- gets (λ w, _is_expired now key w.1) ;;
  if expired : bool
  then delete key ;;; ret None
  else
    value <- _get_impl now key ;;
    (if value is Some _ then _update_access_metadata now key else ret tt) ;;;
    ret value.

Definition set (now : Z) (key : CacheKey) (value : CacheValue) (ttl : option Z)
  : M (t * Table) bool :=
  _check_closed ;;;
  result <- _set_impl now key value ttl ;;
  (if result : bool then _set_metadata now key ttl else ret tt) ;;;
  ret result.

Definition exists_ (now : Z) (key : CacheKey) : M (t * Table) bool :=
  _check_closed ;;;
  expired <- gets (λ w, _is_expired now key w.1) ;;
  if expired : bool
  then delete key ;;; ret false
  else _exists_impl key.

End defs.
Arguments t : clear implicits.
Arguments Table : clear implicits.
End SQLiteBackend.

(** * Properties *)

Ltac run_monad :=
  unfold bind, ret, raise, modify, gets, on_snd, on_fst, try_except in *;
  simpl in *.

Ltac unfold_backend :=
  unfold BaseBackend.get, BaseBackend.set, BaseBackend.delete,
    BaseBackend.exists_, BaseBackend.clear, BaseBackend.close,
    BaseBackend._check_closed, BaseBackend._set_metadata,
    BaseBackend._update_access_metadata, BaseBackend._delete_metadata,
    BaseBackend._clear_metadata,
    MemoryBackend._get_impl, MemoryBackend._set_impl,
    MemoryBackend._delete_impl, MemoryBackend._exists_impl,
    MemoryBackend._clear_impl in *.

(** ** The backend: closed flag, store and metadata after each call *)
Section backend_facts.
Context {V : Type}.
Implicit Types (b : Backend V) (key : CacheKey) (value : option V).

Lemma closed_get now key b :
  _closed b = true → BaseBackend.get now key b = (Raise BackendError, b).
Proof. intros H. unfold_backend. run_monad. by rewrite H. Qed.

Lemma closed_set now key value ttl b :
  _closed b = true → BaseBackend.set now key value ttl b = (Raise BackendError, b).
Proof. intros H. unfold_backend. run_monad. by rewrite H. Qed.

Lemma closed_delete key b :
  _closed b = true → BaseBackend.delete key b = (Raise BackendError, b).
Proof. intros H. unfold_backend. run_monad. by rewrite H. Qed.

Lemma closed_exists now key b :
  _closed b = true → BaseBackend.exists_ now key b = (Raise BackendError, b).
Proof. intros H. unfold_backend. run_monad. by rewrite H. Qed.

Lemma closed_clear b :
  _closed b = true → BaseBackend.clear b = (Raise BackendError, b).
Proof. intros H. unfold_backend. run_monad. by rewrite H. Qed.

(** [delete] on an open backend. *)
Lemma open_delete key b :
  _closed b = false →
  BaseBackend.delete key b =
    (Return (bool_decide (is_Some (_store b !! key))),
     if bool_decide (is_Some (_store b !! key))
     then mkBackend (name b) false (enable_metadata b)
            (if enable_metadata b then base.delete key (_metadata b) else _metadata b)
            (base.delete key (_store b))
     else b).
Proof.
  intros H. unfold_backend. run_monad. rewrite H.
  destruct (bool_decide _); simpl; [|done].
  unfold with_metadata, with_store; simpl. rewrite H. by destruct (enable_metadata b).
Qed.

Lemma open_set now key value ttl b :
  _closed b = false →
  (BaseBackend.set now key value ttl b).1 = Return true
  ∧ _store (BaseBackend.set now key value ttl b).2 = <[key := value]> (_store b)
  ∧ _closed (BaseBackend.set now key value ttl b).2 = false
  ∧ enable_metadata (BaseBackend.set now key value ttl b).2 = enable_metadata b
  ∧ (enable_metadata b = true →
     ∃ m, _metadata (BaseBackend.set now key value ttl b).2
            = <[key := m]> (_metadata b)
          ∧ expires_at m = (λ t, (now + t)%Z) <$> ttl)
  ∧ (enable_metadata b = false →
     _metadata (BaseBackend.set now key value ttl b).2 = _metadata b).
Proof.
  intros H. unfold_backend. run_monad. rewrite H. simpl.
  destruct (enable_metadata b) eqn:E; simpl.
  - destruct (_metadata b !! key) eqn:Em; simpl; rewrite ?E;
      (repeat split; try done; intros _; eexists; split; [reflexivity|done]).
  - repeat split; done.
Qed.

Lemma open_get_eq now key b :
  _closed b = false →
  BaseBackend.get now key b =
    if BaseBackend._is_expired now key b
    then (Return None, (BaseBackend.delete key b).2)
    else (Return (mjoin (_store b !! key)),
          if mjoin (_store b !! key) is Some _
          then (BaseBackend._update_access_metadata now key b).2
          else b).
Proof.
  intros H.
  unfold BaseBackend.get, bind, gets, ret, BaseBackend._check_closed.
  rewrite H. destruct (BaseBackend._is_expired now key b).
  - by rewrite (open_delete _ _ H).
  - unfold MemoryBackend._get_impl, gets.
    by destruct (mjoin (_store b !! key)).
Qed.

Lemma open_get now key b :
  _closed b = false →
  (BaseBackend.get now key b).1
    = Return (if BaseBackend._is_expired now key b then None
              else mjoin (_store b !! key))
  ∧ _store (BaseBackend.get now key b).2
    = (if BaseBackend._is_expired now key b then base.delete key (_store b)
       else _store b)
  ∧ _closed (BaseBackend.get now key b).2 = false
  ∧ enable_metadata (BaseBackend.get now key b).2 = enable_metadata b.
Proof.
  intros H. rewrite (open_get_eq _ _ _ H).
  destruct (BaseBackend._is_expired now key b).
  - rewrite (open_delete _ _ H).
    destruct (bool_decide _) eqn:Ed; simpl; repeat split; try done.
    apply bool_decide_eq_false in Ed.
    rewrite delete_id; [done|]. by apply eq_None_not_Some.
  - unfold BaseBackend._update_access_metadata, modify.
    destruct (mjoin (_store b !! key)); simpl; [|done].
    destruct (enable_metadata b) eqn:Ee; [destruct (_metadata b !! key)|];
      simpl; rewrite ?Ee; done.
Qed.

Lemma open_exists_eq now key b :
  _closed b = false →
  BaseBackend.exists_ now key b =
    if BaseBackend._is_expired now key b
    then (Return false, (BaseBackend.delete key b).2)
    else (Return (bool_decide (is_Some (_store b !! key))), b).
Proof.
  intros H.
  unfold BaseBackend.exists_, bind, gets, ret, BaseBackend._check_closed.
  rewrite H. destruct (BaseBackend._is_expired now key b).
  - by rewrite (open_delete _ _ H).
  - done.
Qed.

Lemma open_clear b :
  _closed b = false →
  BaseBackend.clear b =
    (Return true,
     mkBackend (name b) false (enable_metadata b)
       (if enable_metadata b then ∅ else _metadata b) ∅).
Proof.
  intros H. unfold_backend. run_monad. rewrite H. simpl.
  unfold with_metadata, with_store. simpl. rewrite ?H.
  by destruct (enable_metadata b).
Qed.

End backend_facts.

(** ** Every backend a program can build satisfies [backend_inv] *)
Section backend_invariant.
Context {V : Type}.
Implicit Types (b : Backend V) (key : CacheKey) (value : option V).

Lemma backend_inv_delete key b :
  backend_inv b → backend_inv (BaseBackend.delete key b).2.
Proof.
  intros Hinv. pose proof Hinv as (Hen & Hsub & Hcl).
  destruct (_closed b) eqn:Ec.
  { rewrite closed_delete by done. exact Hinv. }
  rewrite open_delete by done.
  destruct (bool_decide _); simpl; [|exact Hinv].
  split_and!; simpl; [| |done].
  - intros He. rewrite He. auto.
  - intros k. destruct (decide (k = key)) as [->|Hne].
    + destruct (enable_metadata b) eqn:He.
      * rewrite lookup_delete_eq. by intros [? ?].
      * rewrite Hen by done. rewrite lookup_empty. by intros [? ?].
    + rewrite lookup_delete_ne by done.
      destruct (enable_metadata b); [rewrite lookup_delete_ne by done|]; auto.
Qed.

Lemma backend_inv_call now (op : BackendOp V) b :
  backend_inv b → backend_inv (backend_call now op b).2.
Proof.
  intros Hinv. pose proof Hinv as (Hen & Hsub & Hcl).
  destruct op as [key|key value ttl|key|key| |]; simpl; unfold bind, ret.
  - (* get *)
    destruct (_closed b) eqn:Ec; [rewrite closed_get by done; exact Hinv|].
    rewrite open_get_eq by done.
    destruct (BaseBackend._is_expired now key b); simpl.
    { by apply backend_inv_delete. }
    destruct (mjoin (_store b !! key)); simpl; [|exact Hinv].
    unfold BaseBackend._update_access_metadata, modify; simpl.
    destruct (enable_metadata b) eqn:He; [|exact Hinv].
    destruct (_metadata b !! key) eqn:Em; [|exact Hinv].
    split_and!; simpl; [congruence| |congruence].
    intros k. destruct (decide (k = key)) as [->|Hne].
    + intros _. apply Hsub. by rewrite Em.
    + rewrite lookup_insert_ne by done. auto.
  - (* set *)
    destruct (_closed b) eqn:Ec; [rewrite closed_set by done; exact Hinv|].
    destruct (open_set now key value ttl b Ec) as (Hr & Hs & Hc & He & Hm1 & Hm0).
    destruct (BaseBackend.set now key value ttl b) as [r b']; simpl in *.
    subst r. simpl.
    split_and!; [| |congruence].
    + intros He'. rewrite He in He'. rewrite Hm0 by done. auto.
    + intros k. rewrite Hs. destruct (decide (k = key)) as [->|Hne].
      * rewrite lookup_insert_eq. eauto.
      * rewrite lookup_insert_ne by done.
        destruct (enable_metadata b) eqn:Heb.
        -- destruct (Hm1 eq_refl) as (m & -> & _).
           rewrite lookup_insert_ne by done. auto.
        -- rewrite Hm0 by done. auto.
  - (* delete *)
    pose proof (backend_inv_delete key b Hinv) as Hd.
    destruct (BaseBackend.delete key b) as [[r|e] b']; done.
  - (* exists *)
    destruct (_closed b) eqn:Ec; [rewrite closed_exists by done; exact Hinv|].
    rewrite open_exists_eq by done.
    destruct (BaseBackend._is_expired now key b); simpl; [|exact Hinv].
    by apply backend_inv_delete.
  - (* clear *)
    destruct (_closed b) eqn:Ec; [rewrite closed_clear by done; exact Hinv|].
    rewrite open_clear by done. simpl.
    assert ((if enable_metadata b then ∅ else _metadata b) = ∅) as Hm.
    { destruct (enable_metadata b); auto. }
    split_and!; simpl; rewrite Hm; [done| |done].
    intros k. rewrite lookup_empty. by intros [? ?].
  - (* close *)
    unfold BaseBackend.close, BaseBackend._clear_metadata, bind, modify; simpl.
    destruct (enable_metadata b) eqn:He; simpl.
    + split_and!; simpl; [congruence| |done].
      intros k. rewrite lookup_empty. by intros [? ?].
    + split_and!; simpl; auto.
Qed.

Lemma reachable_inv b : reachable b → backend_inv b.
Proof.
  induction 1 as [nm enable|b now op _ IH].
  - split_and!; simpl; try done. intros k. rewrite lookup_empty. by intros [? ?].
  - by apply backend_inv_call.
Qed.

End backend_invariant.

(** ** Lazy expiry and the closed flag *)
Section backend_claims.
Context {V : Type}.
Implicit Types (b : Backend V) (key : CacheKey) (value : option V).

(** A call that is neither an access to [key], nor [delete key], nor
    [clear], leaves [key] in the store. *)
Lemma store_kept now (op : BackendOp V) key b :
  is_Some (_store b !! key) →
  op ≠ BGet key → op ≠ BExists key → op ≠ BDelete key → op ≠ BClear →
  is_Some (_store (backend_call now op b).2 !! key).
Proof.
  intros Hk Hg He Hd Hc.
  destruct op as [k|k value ttl|k|k| |]; simpl; unfold bind, ret.
  - assert (k ≠ key) by congruence.
    destruct (_closed b) eqn:Ec; [by rewrite closed_get|].
    destruct (open_get now k b Ec) as (Hr & Hs & _).
    destruct (BaseBackend.get now k b) as [[r|e] b']; simpl in *; rewrite Hs;
      (destruct (BaseBackend._is_expired now k b);
        [by rewrite lookup_delete_ne|done]).
  - destruct (_closed b) eqn:Ec; [by rewrite closed_set|].
    destruct (open_set now k value ttl b Ec) as (Hr & Hs & _).
    destruct (BaseBackend.set now k value ttl b) as [[r|e] b']; simpl in *;
      rewrite Hs; (destruct (decide (k = key)) as [->|];
        [rewrite lookup_insert_eq; eauto|by rewrite lookup_insert_ne]).
  - assert (k ≠ key) by congruence.
    destruct (_closed b) eqn:Ec; [by rewrite closed_delete|].
    rewrite open_delete by done.
    destruct (bool_decide _); simpl; [by rewrite lookup_delete_ne|done].
  - assert (k ≠ key) by congruence.
    destruct (_closed b) eqn:Ec; [by rewrite closed_exists|].
    rewrite open_exists_eq by done.
    destruct (BaseBackend._is_expired now k b); simpl; [|done].
    rewrite open_delete by done.
    destruct (bool_decide _); simpl; [by rewrite lookup_delete_ne|done].
  - done.
  - unfold BaseBackend.close, BaseBackend._clear_metadata, bind, modify; simpl.
    by destruct (enable_metadata b).
Qed.

Lemma store_kept_exec (ops : list (Z * BackendOp V)) key b :
  is_Some (_store b !! key) →
  Forall (λ p, ¬ removes key p.2) ops →
  is_Some (_store (backend_exec ops b) !! key).
Proof.
  intros Hk Hops. revert b Hk.
  induction Hops as [|[now op] ops Hop _ IH]; intros b Hk; simpl; [done|].
  apply IH. unfold removes in Hop. simpl in Hop.
  apply store_kept; [done|..]; intros ->; apply Hop; auto.
Qed.

Lemma reachable_exec (ops : list (Z * BackendOp V)) b :
  reachable b → reachable (backend_exec ops b).
Proof.
  revert b. induction ops as [|[now op] ops IH]; intros b Hb; simpl; [done|].
  apply IH. by constructor.
Qed.

Lemma closed_call_closed now (op : BackendOp V) b :
  _closed b = true → _closed (backend_call now op b).2 = true.
Proof.
  intros Hc. destruct op; simpl; unfold bind, ret.
  - by rewrite closed_get.
  - by rewrite closed_set.
  - by rewrite closed_delete.
  - by rewrite closed_exists.
  - by rewrite closed_clear.
  - unfold BaseBackend.close, BaseBackend._clear_metadata, bind, modify; simpl.
    by destruct (enable_metadata b).
Qed.

Lemma closed_call_raises now (op : BackendOp V) b :
  _closed b = true → op ≠ BClose →
  (backend_call now op b).1 = Raise BackendError.
Proof.
  intros Hc Hop. destruct op; simpl; unfold bind, ret.
  - by rewrite closed_get.
  - by rewrite closed_set.
  - by rewrite closed_delete.
  - by rewrite closed_exists.
  - by rewrite closed_clear.
  - done.
Qed.

Lemma closed_outcomes (ops : list (Z * BackendOp V)) b i now op :
  _closed b = true → ops !! i = Some (now, op) → op ≠ BClose →
  backend_outcomes ops b !! i = Some (Raise BackendError).
Proof.
  revert b i. induction ops as [|[now' op'] ops IH]; intros b i Hc Hi Hop.
  - by rewrite lookup_nil in Hi.
  - destruct i as [|i]; simpl in *.
    + injection Hi as -> ->. f_equal. by apply closed_call_raises.
    + eapply IH; [|done..]. by apply closed_call_closed.
Qed.

(** The state an expired key is deleted into. *)
Lemma expired_delete key b m :
  backend_inv b → enable_metadata b = true → _metadata b !! key = Some m →
  _store (BaseBackend.delete key b).2 !! key = None
  ∧ _metadata (BaseBackend.delete key b).2 !! key = None
  ∧ _closed b = false.
Proof.
  intros (Hen & Hsub & Hcl) He Hm.
  assert (_closed b = false) as Ec.
  { destruct (_closed b); [|done]. rewrite Hcl in Hm by done.
    by rewrite lookup_empty in Hm. }
  rewrite open_delete by done.
  rewrite bool_decide_eq_true_2 by (apply Hsub; by rewrite Hm).
  simpl. rewrite He. by rewrite !lookup_delete_eq.
Qed.

End backend_claims.

(** ** [SQLiteBackend]: a store with an expiry check of its own *)
Section sqlite_facts.
Context {V : Type}.
Implicit Types (a : SQLiteBackend.t) (T : SQLiteBackend.Table V)
  (key : CacheKey).

(** An access at or after the expiry of the metadata record: the row goes,
    and the record goes with it only when the row was still there. *)
Lemma sqlite_get_expired now key a T :
  SQLiteBackend._closed a = false →
  SQLiteBackend._is_expired now key a = true →
  SQLiteBackend.get now key (a, T)
  = (Return None,
     (if bool_decide (is_Some (T !! key))
      then SQLiteBackend.with_metadata
             (base.delete key (SQLiteBackend._metadata a)) a
      else a,
      base.delete key T)).
Proof.
  intros Ec Hx.
  assert (SQLiteBackend.enable_metadata a = true) as He.
  { unfold SQLiteBackend._is_expired in Hx.
    by destruct (SQLiteBackend.enable_metadata a). }
  unfold SQLiteBackend.get, SQLiteBackend.delete, SQLiteBackend._check_closed,
    SQLiteBackend._delete_impl, SQLiteBackend._delete_metadata,
    bind, gets, ret, on_fst, on_snd, modify. cbn [fst snd].
  rewrite Ec. cbn [fst snd]. rewrite Hx. cbn [fst snd].
  rewrite Ec. cbn [fst snd].
  destruct (bool_decide (is_Some (T !! key))); cbn [fst snd]; [|done].
  by rewrite He.
Qed.

Lemma sqlite_exists_expired now key a T :
  SQLiteBackend._closed a = false →
  SQLiteBackend._is_expired now key a = true →
  SQLiteBackend.exists_ now key (a, T)
  = (Return false,
     (if bool_decide (is_Some (T !! key))
      then SQLiteBackend.with_metadata
             (base.delete key (SQLiteBackend._metadata a)) a
      else a,
      base.delete key T)).
Proof.
  intros Ec Hx.
  assert (SQLiteBackend.enable_metadata a = true) as He.
  { unfold SQLiteBackend._is_expired in Hx.
    by destruct (SQLiteBackend.enable_metadata a). }
  unfold SQLiteBackend.exists_, SQLiteBackend.delete, SQLiteBackend._check_closed,
    SQLiteBackend._delete_impl, SQLiteBackend._delete_metadata,
    bind, gets, ret, on_fst, on_snd, modify. cbn [fst snd].
  rewrite Ec. cbn [fst snd]. rewrite Hx. cbn [fst snd].
  rewrite Ec. cbn [fst snd].
  destruct (bool_decide (is_Some (T !! key))); cbn [fst snd]; [|done].
  by rewrite He.
Qed.

(** The check of [_get_impl]: a row whose own [expires_at] has passed is
    deleted by a [get] that finds no expired metadata record, and the
    object is left as it is. *)
Lemma sqlite_get_native now key a T value r :
  SQLiteBackend._closed a = false →
  SQLiteBackend._is_expired now key a = false →
  T !! key = Some (value, Some r) → (r ≤ now)%Z →
  SQLiteBackend.get now key (a, T) = (Return None, (a, base.delete key T)).
Proof.
  intros Ec Hx Hrow Hr.
  unfold SQLiteBackend.get, SQLiteBackend._check_closed, SQLiteBackend._get_impl,
    bind, gets, ret, on_fst, on_snd, modify. cbn [fst snd].
  rewrite Ec. cbn [fst snd]. rewrite Hx. cbn [fst snd]. rewrite Hrow.
  cbn [fst snd]. by rewrite bool_decide_eq_true_2.
Qed.

End sqlite_facts.

(** C1, as stated, fails: [SQLiteBackend] has an expiry check in
    [_get_impl]. Two backend objects are open on one database file, both
    with metadata enabled. The first stores "k" with a ttl of 5 at time 0;
    at time 5 a [get] of the second object, which has no metadata record
    for the key, deletes the row through the check of [_get_impl]. At time
    6, past the expiry that the first object's metadata records, [get] and
    [exists] of the first object report the key absent and leave the
    metadata record where it is. *)
Lemma lazy_expiry_fails_on_sqlite :
  let first :=
    (SQLiteBackend.set 0 "k" (Some 1%Z) (Some 5%Z)
       (SQLiteBackend.__init__ "sqlite" true, (∅ : SQLiteBackend.Table Z))).2 in
  let second := SQLiteBackend.__init__ "sqlite" true in
  let table := (SQLiteBackend.get 5 "k" (second, first.2)).2.2 in
  SQLiteBackend.enable_metadata first.1 = true
  ∧ expires_at <$> (SQLiteBackend._metadata first.1 !! "k") = Some (Some 5%Z)
  ∧ is_Some (first.2 !! "k")
  ∧ SQLiteBackend._metadata second !! "k" = None
  ∧ table !! "k" = None
  ∧ (SQLiteBackend.get 6 "k" (first.1, table)).1 = Return None
  ∧ (SQLiteBackend.exists_ 6 "k" (first.1, table)).1 = Return false
  ∧ ¬ (SQLiteBackend._metadata
         (SQLiteBackend.get 6 "k" (first.1, table)).2.1 !! "k" = None)
  ∧ ¬ (SQLiteBackend._metadata
         (SQLiteBackend.exists_ 6 "k" (first.1, table)).2.1 !! "k" = None).
Proof.
  intros first second table. subst first second table.
  split_and!; try (vm_compute; reflexivity).
  - vm_compute. eauto.
  - vm_compute. discriminate.
  - vm_compute. discriminate.
Qed.

(** C1, amended. On the in-memory backend ([MemoryBackend]) with metadata
    enabled, in any state a program can build, a key whose metadata record
    has an expiry time [e] is, at any time [now ≥ e], deleted by [get] and
    by [exists]: the call reports the key absent ([None], [False]) and
    leaves neither a store entry nor a metadata record for it. Nothing else
    takes an expired key away there: it is in the store when the access
    happens, and it stays in the store through any sequence of calls that
    contains neither an access to the key, nor [delete] of the key, nor
    [clear]. On [SQLiteBackend] the store has a check of its own: a [get]
    that finds no expired metadata record deletes a row whose own
    [expires_at] has passed; and an access at [now ≥ e] still reports the
    key absent and leaves no row, but takes the metadata record away only
    when the row was still there. *)
Theorem lazy_expiry_on_access {V : Type} (b : Backend V) (key : CacheKey)
    (m : CacheMetadata) (e now : Z) (ops : list (Z * BackendOp V)) :
  reachable b →
  enable_metadata b = true →
  _metadata b !! key = Some m →
  expires_at m = Some e →
  (e ≤ now)%Z →
  ((BaseBackend.get now key b).1 = Return None
   ∧ _store (BaseBackend.get now key b).2 !! key = None
   ∧ _metadata (BaseBackend.get now key b).2 !! key = None)
  ∧ ((BaseBackend.exists_ now key b).1 = Return false
     ∧ _store (BaseBackend.exists_ now key b).2 !! key = None
     ∧ _metadata (BaseBackend.exists_ now key b).2 !! key = None)
  ∧ is_Some (_store b !! key)
  ∧ (Forall (λ p, ¬ removes key p.2) ops →
     is_Some (_store (backend_exec ops b) !! key))
  ∧ (∀ (a : SQLiteBackend.t) (T : SQLiteBackend.Table V) m',
       SQLiteBackend._closed a = false →
       SQLiteBackend.enable_metadata a = true →
       SQLiteBackend._metadata a !! key = Some m' →
       expires_at m' = Some e →
       ((SQLiteBackend.get now key (a, T)).1 = Return None
        ∧ (SQLiteBackend.get now key (a, T)).2.2 !! key = None
        ∧ SQLiteBackend._metadata (SQLiteBackend.get now key (a, T)).2.1 !! key
          = if bool_decide (is_Some (T !! key)) then None else Some m')
       ∧ ((SQLiteBackend.exists_ now key (a, T)).1 = Return false
          ∧ (SQLiteBackend.exists_ now key (a, T)).2.2 !! key = None
          ∧ SQLiteBackend._metadata
              (SQLiteBackend.exists_ now key (a, T)).2.1 !! key
            = if bool_decide (is_Some (T !! key)) then None else Some m'))
  ∧ (∀ (a : SQLiteBackend.t) (T : SQLiteBackend.Table V) value r,
       SQLiteBackend._closed a = false →
       SQLiteBackend._is_expired now key a = false →
       T !! key = Some (value, Some r) → (r ≤ now)%Z →
       SQLiteBackend.get now key (a, T) = (Return None, (a, base.delete key T))).
Proof.
  intros Hreach He Hm Hexp Hle.
  pose proof (reachable_inv b Hreach) as Hinv.
  destruct (expired_delete key b m Hinv He Hm) as (Hs & Hmd & Ec).
  assert (BaseBackend._is_expired now key b = true) as Hx.
  { unfold BaseBackend._is_expired, CacheMetadata.is_expired.
    rewrite He, Hm, Hexp. simpl. by apply bool_decide_eq_true_2. }
  assert (is_Some (_store b !! key)) as Hk.
  { destruct Hinv as (_ & Hsub & _). apply Hsub. by rewrite Hm. }
  rewrite open_get_eq, open_exists_eq by done. rewrite Hx. simpl.
  split_and!; try done.
  - intros Hops. by apply store_kept_exec.
  - intros a T m' Eca Hea Hma Hexpa.
    assert (SQLiteBackend._is_expired now key a = true) as Hxa.
    { unfold SQLiteBackend._is_expired, CacheMetadata.is_expired.
      rewrite Hea, Hma, Hexpa. simpl. by apply bool_decide_eq_true_2. }
    rewrite (sqlite_get_expired now key a T Eca Hxa).
    rewrite (sqlite_exists_expired now key a T Eca Hxa).
    destruct (bool_decide (is_Some (T !! key))); cbn [fst snd];
      unfold SQLiteBackend.with_metadata; cbn [SQLiteBackend._metadata];
      rewrite ?lookup_delete_eq; split_and!; try done;
      exact (lookup_delete_eq (M:=gmap string) T key).
  - intros a T value r Eca Hxa Hrow Hr.
    exact (sqlite_get_native now key a T value r Eca Hxa Hrow Hr).
Qed.

Lemma lazy_expiry_on_access_witness :
  let ops := [(6%Z, BSet "b" (Some 2%Z) None); (7%Z, BGet "b");
              (8%Z, BSet "a" (Some 3%Z) None)] in
  let sqlite :=
    (SQLiteBackend.set 0 "a" (Some 1%Z) (Some 5%Z)
       (SQLiteBackend.__init__ "sqlite" true, (∅ : SQLiteBackend.Table Z))).2 in
  (BaseBackend.get 5 "a" sample_backend).1 = Return None
  ∧ _store (BaseBackend.get 5 "a" sample_backend).2 !! "a" = None
  ∧ (BaseBackend.exists_ 5 "a" sample_backend).1 = Return false
  ∧ is_Some (_store (backend_exec ops sample_backend) !! "a")
  ∧ (SQLiteBackend.get 5 "a" sqlite).1 = Return None
  ∧ (SQLiteBackend.get 5 "a" sqlite).2.2 !! "a" = None
  ∧ SQLiteBackend._metadata (SQLiteBackend.get 5 "a" sqlite).2.1 !! "a" = None
  ∧ SQLiteBackend._metadata
      (SQLiteBackend.get 5 "a" (sqlite.1, (∅ : SQLiteBackend.Table Z))).2.1 !! "a"
    = Some (mkCacheMetadata 0 (Some 5%Z) 0 0 []).
Proof.
  intros ops sqlite.
  assert (reachable sample_backend) as Hr.
  { apply reachable_exec, reachable_init. }
  assert (_metadata sample_backend !! "a"
          = Some (mkCacheMetadata 0 (Some 5%Z) 0 0 [])) as Hm.
  { vm_compute. reflexivity. }
  assert (Forall (λ p : Z * BackendOp Z, ¬ removes "a" p.2) ops) as Hops.
  { repeat constructor; unfold removes; simpl; intros H;
      repeat (destruct H as [H|H]; try discriminate H); discriminate H. }
  assert (SQLiteBackend._metadata sqlite.1 !! "a"
          = Some (mkCacheMetadata 0 (Some 5%Z) 0 0 [])) as Hms.
  { vm_compute. reflexivity. }
  destruct (lazy_expiry_on_access sample_backend "a" _ 5 5 ops Hr eq_refl Hm
              eq_refl ltac:(lia))
    as ((Hg1 & Hg2 & _) & (He1 & _) & _ & Hk & Hsql & _).
  destruct (Hsql sqlite.1 sqlite.2 _ eq_refl eq_refl Hms eq_refl)
    as ((Hs1 & Hs2 & Hs3) & _).
  destruct (Hsql sqlite.1 ∅ _ eq_refl eq_refl Hms eq_refl)
    as ((_ & _ & Hs4) & _).
  split_and!;
    [exact Hg1|exact Hg2|exact He1|exact (Hk Hops)|exact Hs1|exact Hs2
    |exact Hs3|exact Hs4].
Defined.

(** C9. After [close()], every later [get], [set], [delete], [exists] or
    [clear] on the backend raises [BackendError], whatever was called in
    between; [close()] itself returns and leaves no metadata record. *)
Theorem closed_backend_raises {V : Type} (b : Backend V)
    (ops : list (Z * BackendOp V)) :
  reachable b →
  (BaseBackend.close b).1 = Return tt
  ∧ _closed (BaseBackend.close b).2 = true
  ∧ _metadata (BaseBackend.close b).2 = ∅
  ∧ (∀ i now op, ops !! i = Some (now, op) → op ≠ BClose →
       backend_outcomes ops (BaseBackend.close b).2 !! i
         = Some (Raise BackendError))
  ∧ (∀ now key value ttl,
       BaseBackend.get now key (BaseBackend.close b).2
         = (Raise BackendError, (BaseBackend.close b).2)
       ∧ BaseBackend.set now key value ttl (BaseBackend.close b).2
         = (Raise BackendError, (BaseBackend.close b).2)
       ∧ BaseBackend.delete key (BaseBackend.close b).2
         = (Raise BackendError, (BaseBackend.close b).2)
       ∧ BaseBackend.exists_ now key (BaseBackend.close b).2
         = (Raise BackendError, (BaseBackend.close b).2)
       ∧ BaseBackend.clear (BaseBackend.close b).2
         = (Raise BackendError, (BaseBackend.close b).2)).
Proof.
  intros Hreach. destruct (reachable_inv b Hreach) as (Hen & _ & _).
  assert (_closed (BaseBackend.close b).2 = true) as Hc.
  { unfold BaseBackend.close, BaseBackend._clear_metadata, bind, modify; simpl.
    by destruct (enable_metadata b). }
  split_and!; [done|done| | |].
  - unfold BaseBackend.close, BaseBackend._clear_metadata, bind, modify; simpl.
    destruct (enable_metadata b); simpl; auto.
  - intros i now op Hi Hop. by eapply closed_outcomes.
  - intros now key value ttl.
    by rewrite closed_get, closed_set, closed_delete, closed_exists, closed_clear.
Qed.

Lemma closed_backend_raises_witness :
  let b' := (BaseBackend.close sample_backend).2 in
  _metadata b' = ∅
  ∧ backend_outcomes
      [(1%Z, BGet "a"); (2%Z, BSet "a" (Some 7%Z) None); (3%Z, BClose);
       (4%Z, BExists "a"); (5%Z, BDelete "a"); (6%Z, BClear)] b' !! 3%nat
    = Some (Raise BackendError).
Proof.
  intros b'.
  assert (reachable sample_backend) as Hr.
  { apply reachable_exec, reachable_init. }
  destruct (closed_backend_raises sample_backend
              [(1%Z, BGet "a"); (2%Z, BSet "a" (Some 7%Z) None); (3%Z, BClose);
               (4%Z, BExists "a"); (5%Z, BDelete "a"); (6%Z, BClear)] Hr)
    as (_ & _ & Hm & Hops & _).
  split; [exact Hm|].
  apply (Hops 3%nat 4%Z (BExists "a")); [reflexivity|discriminate].
Defined.

(** ** TTL strategy, cache manager, write-through, write-back *)

Lemma backend_set_outcome {V : Type} now key (value : option V) ttl (b : Backend V) :
  (BaseBackend.set now key value ttl b).1
  = if _closed b then Raise BackendError else Return true.
Proof.
  destruct (_closed b) eqn:Ec.
  - by rewrite closed_set.
  - by destruct (open_set now key value ttl b Ec) as (-> & _).
Qed.

(** C8. [TTLStrategy.set] raises [StrategyError] exactly when the effective
    ttl (the ttl of the call if there is one, else the configured default)
    is missing or not positive, and then touches nothing; with a positive
    effective ttl it is the backend's [set] called with that ttl. *)
Theorem ttl_set_validates {V : Type} (self : TTLStrategy.t) (b : Backend V)
    (now : Z) (key : CacheKey) (value : option V) (ttl : option Z) :
  TTLStrategy.effective_ttl self ttl
    = match ttl with Some x => Some x | None => TTLStrategy.default_ttl self end
  ∧ ((TTLStrategy.set now key value ttl (self, b)).1 = Raise StrategyError
     ↔ (TTLStrategy.effective_ttl self ttl = None
        ∨ ∃ e, TTLStrategy.effective_ttl self ttl = Some e ∧ (e ≤ 0)%Z))
  ∧ ((TTLStrategy.set now key value ttl (self, b)).1 = Raise StrategyError →
     (TTLStrategy.set now key value ttl (self, b)).2 = (self, b))
  ∧ (∀ e, TTLStrategy.effective_ttl self ttl = Some e → (0 < e)%Z →
     TTLStrategy.set now key value ttl (self, b)
     = on_snd (BaseBackend.set now key value (Some e)) (self, b)).
Proof.
  split; [done|].
  unfold TTLStrategy.set, bind, gets, raise. simpl.
  destruct (TTLStrategy.effective_ttl self ttl) as [e|] eqn:Ee.
  - destruct (bool_decide (e ≤ 0)%Z) eqn:Hle.
    + apply bool_decide_eq_true in Hle. simpl.
      split_and!; [split; eauto|done|intros e' [= <-] ?; lia].
    + apply bool_decide_eq_false in Hle.
      assert ((on_snd (BaseBackend.set now key value (Some e)) (self, b)).1
              ≠ Raise StrategyError) as Hne.
      { unfold on_snd. simpl.
        pose proof (backend_set_outcome now key value (Some e) b) as Ho.
        destruct (BaseBackend.set now key value (Some e) b) as [r b'].
        simpl in *. rewrite Ho. by destruct (_closed b). }
      split_and!.
      * split; [done|]. intros [?|(e' & [= <-] & ?)]; [done|lia].
      * done.
      * by intros e' [= <-] _.
  - simpl. split_and!; [split; eauto|done|done].
Qed.

Lemma ttl_set_validates_witness :
  (TTLStrategy.set 0 "x" (Some 42%Z) None
     (TTLStrategy.mk "ttl" None, MemoryBackend.__init__ "memory" true)).1
    = Raise StrategyError
  ∧ (TTLStrategy.set 0 "x" (Some 42%Z) (Some 0%Z)
       (TTLStrategy.mk "ttl" (Some 100%Z), MemoryBackend.__init__ "memory" true)).1
    = Raise StrategyError
  ∧ TTLStrategy.set 0 "x" (Some 42%Z) None
      (TTLStrategy.mk "ttl" (Some 100%Z), MemoryBackend.__init__ "memory" true)
    = on_snd (BaseBackend.set 0 "x" (Some 42%Z) (Some 100%Z))
        (TTLStrategy.mk "ttl" (Some 100%Z), MemoryBackend.__init__ "memory" true).
Proof.
  split_and!.
  - apply (ttl_set_validates (TTLStrategy.mk "ttl" None)
             (MemoryBackend.__init__ "memory" true) 0 "x" (Some 42%Z) None).
    left. reflexivity.
  - apply (ttl_set_validates (TTLStrategy.mk "ttl" (Some 100%Z))
             (MemoryBackend.__init__ "memory" true) 0 "x" (Some 42%Z) (Some 0%Z)).
    right. exists 0%Z. split; [reflexivity|lia].
  - apply (ttl_set_validates (TTLStrategy.mk "ttl" (Some 100%Z))
             (MemoryBackend.__init__ "memory" true) 0 "x" (Some 42%Z) None);
      [reflexivity|lia].
Defined.

(** C10. [CacheManager.set] passes the configured [default_ttl] to the
    strategy both when the call has no ttl and when its ttl is 0; any other
    ttl is passed as it is. So the strategy is never handed a ttl of 0 that
    came from the call: under a configuration accepted by
    [CacheConfig.__post_init__] it never sees 0 at all. *)
Theorem manager_set_falsy_ttl {V St : Type} (impl : Strategy V St)
    (self : CacheManager.t V St) (now : Z) (key : CacheKey) (value : option V)
    (ttl : option Z) :
  (ttl = None ∨ ttl = Some 0%Z →
   CacheManager.set impl now key value ttl self
   = CacheManager.delegate
       (strategy_set impl now (CacheManager._make_key self key) value
          (default_ttl (CacheManager.config self))) self)
  ∧ (∀ x, ttl = Some x → x ≠ 0%Z →
     CacheManager.set impl now key value ttl self
     = CacheManager.delegate
         (strategy_set impl now (CacheManager._make_key self key) value (Some x))
         self)
  ∧ (CacheManager.ttl_or ttl (default_ttl (CacheManager.config self)) = Some 0%Z →
     default_ttl (CacheManager.config self) = Some 0%Z)
  ∧ (CacheConfig.__post_init__ (CacheManager.config self)
       = Return (CacheManager.config self) →
     CacheManager.ttl_or ttl (default_ttl (CacheManager.config self)) ≠ Some 0%Z).
Proof.
  assert (CacheManager.ttl_or ttl (default_ttl (CacheManager.config self)) = Some 0%Z →
          default_ttl (CacheManager.config self) = Some 0%Z) as Hzero.
  { unfold CacheManager.ttl_or. destruct ttl as [x|]; [|done].
    case_bool_decide; [done|]. by intros [= ->]. }
  split_and!.
  - intros [->| ->]; reflexivity.
  - intros x -> Hx. unfold CacheManager.set, CacheManager.ttl_or.
    by rewrite bool_decide_eq_false_2.
  - exact Hzero.
  - intros Hok Hz. apply Hzero in Hz. unfold CacheConfig.__post_init__ in Hok.
    rewrite Hz in Hok. by rewrite bool_decide_eq_true_2 in Hok.
Qed.

Lemma manager_set_falsy_ttl_witness :
  CacheManager.set TTLStrategy.as_strategy 0 "k" (Some 1%Z) (Some 0%Z) sample_manager
  = CacheManager.delegate
      (strategy_set TTLStrategy.as_strategy 0 "default:k" (Some 1%Z) (Some 5%Z))
      sample_manager
  ∧ CacheManager.set TTLStrategy.as_strategy 0 "k" (Some 1%Z) (Some 9%Z) sample_manager
    = CacheManager.delegate
        (strategy_set TTLStrategy.as_strategy 0 "default:k" (Some 1%Z) (Some 9%Z))
        sample_manager
  ∧ CacheManager.ttl_or (Some 0%Z) (Some 5%Z) ≠ Some 0%Z.
Proof.
  destruct (manager_set_falsy_ttl TTLStrategy.as_strategy sample_manager 0 "k"
              (Some 1%Z) (Some 0%Z)) as (H0 & _ & _ & Hnz).
  destruct (manager_set_falsy_ttl TTLStrategy.as_strategy sample_manager 0 "k"
              (Some 1%Z) (Some 9%Z)) as (_ & H9 & _).
  split_and!.
  - exact (H0 (or_intror eq_refl)).
  - apply (H9 9%Z); [reflexivity|lia].
  - exact (Hnz eq_refl).
Defined.

(** With a ttl of 0 the TTL strategy on its own raises; behind the manager
    the same call stores the entry with the manager's default ttl. *)
Example manager_set_ttl_zero :
  (TTLStrategy.set 0 "k" (Some 1%Z) (Some 0%Z)
     (CacheManager.strategy sample_manager, CacheManager.backend sample_manager)).1
    = Raise StrategyError
  ∧ (CacheManager.set TTLStrategy.as_strategy 0 "k" (Some 1%Z) (Some 0%Z)
       sample_manager).1 = Return true
  ∧ expires_at <$>
      (_metadata (CacheManager.backend
         (CacheManager.set TTLStrategy.as_strategy 0 "k" (Some 1%Z) (Some 0%Z)
            sample_manager).2) !! "default:k")
    = Some (Some 5%Z).
Proof. vm_compute. done. Qed.

(** C4. Write-through with a write callback that raises: [set] raises, the
    backend is exactly as it was (a later read of the key sees what it saw
    before), and only the data store may have been touched by the
    callback. The backend is written only when there is no callback or
    the callback has returned, and then by the backend's [set] on the
    backend as it was. *)
Theorem write_through_callback_first {V D : Type}
    (self : WriteThroughStrategy.t V D) (d : D) (b : Backend V)
    (now : Z) (key : CacheKey) (value : option V) (ttl : option Z) :
  (∀ cb e d', WriteThroughStrategy.write_callback self = Some cb →
     cb key value d = (Raise e, d') →
     WriteThroughStrategy.set now key value ttl ((self, d), b)
     = (Raise RuntimeError, ((self, d'), b)))
  ∧ (∀ cb d', WriteThroughStrategy.write_callback self = Some cb →
     cb key value d = (Return tt, d') →
     WriteThroughStrategy.set now key value ttl ((self, d), b)
     = ((BaseBackend.set now key value ttl b).1,
        ((self, d'), (BaseBackend.set now key value ttl b).2)))
  ∧ (WriteThroughStrategy.write_callback self = None →
     WriteThroughStrategy.set now key value ttl ((self, d), b)
     = ((BaseBackend.set now key value ttl b).1,
        ((self, d), (BaseBackend.set now key value ttl b).2)))
  ∧ ((WriteThroughStrategy.set now key value ttl ((self, d), b)).2.2 ≠ b →
     WriteThroughStrategy.write_callback self = None
     ∨ ∃ cb d', WriteThroughStrategy.write_callback self = Some cb
                ∧ cb key value d = (Return tt, d')).
Proof.
  unfold WriteThroughStrategy.set, bind, gets, try_except, on_fst, on_snd, raise, ret.
  simpl.
  destruct (WriteThroughStrategy.write_callback self) as [cb|] eqn:Ecb; simpl.
  - destruct (cb key value d) as [[[]|e] d'] eqn:Ecall; simpl.
    + split_and!.
      * intros ? ? ? [= <-]. by rewrite Ecall.
      * intros ? ? [= <-]. rewrite Ecall. intros [= <-].
        by destruct (BaseBackend.set now key value ttl b).
      * done.
      * intros _. right. eauto.
    + split_and!.
      * intros ? ? ? [= <-]. rewrite Ecall. by intros [= <- <-].
      * intros ? ? [= <-]. by rewrite Ecall.
      * done.
      * done.
  - split_and!; [done|done| |by left].
    intros _. by destruct (BaseBackend.set now key value ttl b).
Qed.

Lemma write_through_callback_first_witness :
  let self := WriteThroughStrategy.mk "write_through" (Some failing_store) in
  let b := MemoryBackend.__init__ "memory" true in
  WriteThroughStrategy.set 0 "k" (Some 1%Z) None ((self, []), b)
    = (Raise RuntimeError, ((self, []), b))
  ∧ (BaseBackend.get 1 "k"
       (WriteThroughStrategy.set 0 "k" (Some 1%Z) None ((self, []), b)).2.2).1
    = Return None.
Proof.
  intros self b.
  destruct (write_through_callback_first self [] b 0 "k" (Some 1%Z) None)
    as (Hfail & _).
  pose proof (Hfail failing_store CallbackError [] eq_refl eq_refl) as H.
  split; [exact H|]. rewrite H. reflexivity.
Defined.

(** The write-back queue never lets an exception of the callback out. *)
Section write_back_facts.
Context {V D : Type}.

Lemma flush_items_returns (cb : WriteCallback V D) items
    (w : WriteBackStrategy.t V D * D) :
  (WriteBackStrategy.flush_items cb items w).1 = Return tt.
Proof.
  revert w. induction items as [|[k v] items IH]; intros w; simpl; [done|].
  unfold bind, try_except, on_snd, on_fst, modify. simpl.
  destruct (cb k v w.2) as [[[]|e] d']; simpl; apply IH.
Qed.

Lemma _flush_returns now (w : WriteBackStrategy.t V D * D) :
  (WriteBackStrategy._flush now w).1 = Return tt.
Proof.
  unfold WriteBackStrategy._flush, bind, gets, ret, on_fst, modify. simpl.
  destruct (WriteBackStrategy._write_queue w.1) as [|kv q]; [done|]. simpl.
  destruct (WriteBackStrategy.write_callback w.1) as [cb|]; [|done].
  exact (flush_items_returns cb (kv :: q) _).
Qed.

Lemma _maybe_flush_returns now (w : WriteBackStrategy.t V D * D) :
  (WriteBackStrategy._maybe_flush now w).1 = Return tt.
Proof.
  unfold WriteBackStrategy._maybe_flush, bind, gets, ret. simpl.
  destruct (_ && _); [apply _flush_returns|done].
Qed.

(** [set] is the backend's [set], followed by work on the queue that leaves
    the backend alone and cannot raise. *)
Lemma write_back_set_backend now key (value : option V) ttl
    (self : WriteBackStrategy.t V D) (d : D) (b : Backend V) :
  (WriteBackStrategy.set now key value ttl ((self, d), b)).1
    = (BaseBackend.set now key value ttl b).1
  ∧ (WriteBackStrategy.set now key value ttl ((self, d), b)).2.2
    = (BaseBackend.set now key value ttl b).2.
Proof.
  unfold WriteBackStrategy.set, bind, gets, ret, on_snd. simpl.
  destruct (BaseBackend.set now key value ttl b) as [[r|e] b']; simpl; [|done].
  destruct (_ && _); simpl; [|done].
  unfold on_fst, modify. simpl.
  match goal with
  | |- context [WriteBackStrategy._maybe_flush now ?w] =>
      pose proof (_maybe_flush_returns now w) as Hf;
      destruct (WriteBackStrategy._maybe_flush now w) as [[[]|e] w']
  end; done.
Qed.

End write_back_facts.

(** C5. Write-back [set] on an open backend: the value is in the backend
    when [set] returns, whatever the callback, the batch size and the flush
    interval are, so a [get] of the key at any time before the entry's own
    expiry (any time at all when the call has no ttl) returns the value.
    The backend is the one the backend's own [set] leaves, and when a
    callback is configured and no flush is due, the pair waits in the
    queue while the data store has not been touched. *)
Theorem write_back_read_after_set {V D : Type}
    (self : WriteBackStrategy.t V D) (d : D) (b : Backend V)
    (now now' : Z) (key : CacheKey) (value : option V) (ttl : option Z) :
  _closed b = false →
  (∀ t, ttl = Some t → (now' < now + t)%Z) →
  (WriteBackStrategy.set now key value ttl ((self, d), b)).1 = Return true
  ∧ (WriteBackStrategy.set now key value ttl ((self, d), b)).2.2
    = (BaseBackend.set now key value ttl b).2
  ∧ (BaseBackend.get now' key
       (WriteBackStrategy.set now key value ttl ((self, d), b)).2.2).1
    = Return value
  ∧ (is_Some (WriteBackStrategy.write_callback self) →
     WriteBackStrategy.should_flush now
       (WriteBackStrategy.with_queue
          (dict_set key value (WriteBackStrategy._write_queue self)) self) = false →
     (WriteBackStrategy.set now key value ttl ((self, d), b)).2.1
     = (WriteBackStrategy.with_queue
          (dict_set key value (WriteBackStrategy._write_queue self)) self, d)).
Proof.
  intros Ec Httl.
  destruct (write_back_set_backend now key value ttl self d b) as (Hr & Hb).
  destruct (open_set now key value ttl b Ec) as (Hr' & Hs & Hc & He & Hm1 & Hm0).
  split_and!.
  - by rewrite Hr.
  - done.
  - rewrite Hb.
    destruct (open_get now' key (BaseBackend.set now key value ttl b).2 Hc)
      as (-> & _).
    assert (BaseBackend._is_expired now' key (BaseBackend.set now key value ttl b).2
            = false) as ->.
    { unfold BaseBackend._is_expired. rewrite He.
      destruct (enable_metadata b) eqn:Heb; [|done]. simpl.
      destruct (Hm1 eq_refl) as (m & -> & Hexp).
      rewrite lookup_insert_eq. unfold CacheMetadata.is_expired. rewrite Hexp.
      destruct ttl as [t|]; simpl; [|done].
      apply bool_decide_eq_false_2. specialize (Httl t eq_refl). lia. }
    rewrite Hs, lookup_insert_eq. done.
  - intros Hcb Hnf. clear Hr Hb.
    unfold WriteBackStrategy.set, bind, gets, ret, on_snd. simpl.
    destruct (BaseBackend.set now key value ttl b) as [r b']; simpl in *.
    subst r. cbn [fst snd]. rewrite bool_decide_eq_true_2 by done.
    unfold on_fst, modify, WriteBackStrategy._maybe_flush, bind, gets, ret.
    cbn [fst snd andb]. rewrite Hnf. reflexivity.
Qed.

Lemma write_back_read_after_set_witness :
  let self := WriteBackStrategy.__init__ 0 (Some recording_store) 10 5 "write_back" in
  let b := MemoryBackend.__init__ "memory" true in
  let w := (WriteBackStrategy.set 1 "k" (Some 7%Z) None ((self, []), b)).2 in
  (BaseBackend.get 1 "k" w.2).1 = Return (Some 7%Z)
  ∧ w.1 = (WriteBackStrategy.with_queue [("k", Some 7%Z)] self, []).
Proof.
  intros self b w.
  destruct (write_back_read_after_set self [] b 1 1 "k" (Some 7%Z) None eq_refl)
    as (_ & _ & Hget & Hq).
  { intros t Ht. discriminate Ht. }
  split; [exact Hget|].
  apply Hq; [by eexists|reflexivity].
Defined.

(** ** Eviction strategies: what [set] does on an open backend *)
Section eviction_facts.
Context {V : Type}.
Implicit Types (b : Backend V) (key : CacheKey) (value : option V)
  (s : EvictionStrategy).

Lemma open_set_eq now key value ttl b :
  _closed b = false →
  BaseBackend.set now key value ttl b
  = (Return true, (BaseBackend.set now key value ttl b).2).
Proof.
  intros Ec. destruct (open_set now key value ttl b Ec) as (Hr & _).
  by destruct (BaseBackend.set now key value ttl b) as [r b']; simpl in *; subst.
Qed.

Lemma open_delete_eq key b :
  _closed b = false →
  BaseBackend.delete key b
  = (Return (bool_decide (is_Some (_store b !! key))),
     (BaseBackend.delete key b).2).
Proof. intros Ec. rewrite open_delete by done. done. Qed.

Lemma open_delete_fields key b :
  _closed b = false →
  _store (BaseBackend.delete key b).2 = base.delete key (_store b)
  ∧ _closed (BaseBackend.delete key b).2 = false
  ∧ enable_metadata (BaseBackend.delete key b).2 = enable_metadata b.
Proof.
  intros Ec. rewrite open_delete by done.
  destruct (bool_decide _) eqn:Ed; simpl; [done|].
  apply bool_decide_eq_false in Ed.
  rewrite delete_id; [done|]. by apply eq_None_not_Some.
Qed.

(** The shape of a strategy's [set] on an open backend. *)
Lemma step_set_open now key value ttl s b :
  _closed b = false →
  step now (SSet key value ttl) (s, b) =
    if needs_eviction key s then
      match victim s with
      | None => (Raise (empty_index_error s), (s, b))
      | Some v =>
          (Return (RBool true),
           (enlist key (evict v s),
            (BaseBackend.set now key value ttl (BaseBackend.delete v b).2).2))
      end
    else
      (Return (RBool true), (enlist key s, (BaseBackend.set now key value ttl b).2)).
Proof.
  intros Ec.
  destruct s as [s|s|s]; unfold step, as_eviction, call; simpl;
    unfold needs_eviction; simpl.
  - unfold LRUEvictionStrategy.set, od_contains.
    unfold bind, gets, ret, raise, on_snd, on_fst, modify. simpl.
    destruct (negb _ && _); simpl.
    + destruct (LRUEvictionStrategy._access_order s) as [|v od] eqn:Eod; simpl; [done|].
      rewrite (open_delete_eq v b Ec). simpl.
      destruct (open_delete_fields v b Ec) as (_ & Ec' & _).
      rewrite (open_set_eq _ _ _ _ _ Ec'). simpl. by rewrite Eod.
    + rewrite (open_set_eq _ _ _ _ _ Ec). done.
  - unfold LFUEvictionStrategy.set, dict_contains.
    unfold bind, gets, ret, raise, on_snd, on_fst, modify. simpl.
    rewrite length_fmap.
    destruct (negb _ && _); simpl.
    + destruct (min_item (LFUEvictionStrategy._access_counts s)) as [[v c]|] eqn:Em;
        simpl; [|done].
      rewrite (open_delete_eq v b Ec). simpl.
      destruct (open_delete_fields v b Ec) as (_ & Ec' & _).
      rewrite (open_set_eq _ _ _ _ _ Ec'). simpl.
      unfold dict_contains. by destruct (bool_decide _).
    + rewrite (open_set_eq _ _ _ _ _ Ec). simpl.
      unfold dict_contains. by destruct (bool_decide _).
  - unfold FIFOEvictionStrategy.set.
    unfold bind, gets, ret, raise, on_snd, on_fst, modify. simpl.
    destruct (negb _ && _); simpl.
    + destruct (FIFOEvictionStrategy._insertion_order s) as [|v q] eqn:Eq; simpl; [done|].
      rewrite (open_delete_eq v b Ec). simpl.
      destruct (open_delete_fields v b Ec) as (_ & Ec' & _).
      rewrite (open_set_eq _ _ _ _ _ Ec'). simpl. by destruct (bool_decide _).
    + rewrite (open_set_eq _ _ _ _ _ Ec). simpl. by destruct (bool_decide _).
Qed.

End eviction_facts.

(** ** The containers of the shadow indices *)
Section container_facts.
Implicit Types (key k v : CacheKey) (l od q : list CacheKey).

Lemma elem_of_od_del k v l : k ∈ od_del v l ↔ k ∈ l ∧ k ≠ v.
Proof. unfold od_del. rewrite list_elem_of_filter. tauto. Qed.

Lemma NoDup_od_del v l : NoDup l → NoDup (od_del v l).
Proof. apply NoDup_filter. Qed.

Lemma length_od_del_le v l : length (od_del v l) ≤ length l.
Proof. apply length_filter. Qed.

Lemma length_od_del_lt v l : v ∈ l → length (od_del v l) < length l.
Proof.
  unfold od_del. induction l as [|x l IH]; intros Hin.
  - by apply elem_of_nil in Hin.
  - rewrite filter_cons. destruct (decide (x ≠ v)) as [Hne|Heq]; simpl.
    + apply elem_of_cons in Hin as [->|Hin]; [done|].
      specialize (IH Hin). lia.
    + pose proof (length_filter (λ k, k ≠ v) l). lia.
Qed.

Lemma od_del_not_in v l : v ∉ l → od_del v l = l.
Proof.
  unfold od_del. induction l as [|x l IH]; intros Hin; [done|].
  apply not_elem_of_cons in Hin as [Hne Hin].
  rewrite filter_cons, decide_True by done. by rewrite IH.
Qed.

Lemma elem_of_od_set k key l : k ∈ od_set key l ↔ k = key ∨ k ∈ l.
Proof.
  unfold od_set, od_contains. case_bool_decide.
  - split; [auto|]. by intros [->|?].
  - rewrite elem_of_app, list_elem_of_singleton. tauto.
Qed.

Lemma elem_of_od_move_to_end k key l :
  k ∈ od_move_to_end key l ↔ k ∈ l.
Proof.
  unfold od_move_to_end, od_contains. case_bool_decide; [|done].
  rewrite elem_of_app, elem_of_od_del, list_elem_of_singleton.
  destruct (decide (k = key)) as [->|]; tauto.
Qed.

Lemma NoDup_od_set key l : NoDup l → NoDup (od_set key l).
Proof.
  intros Hnd. unfold od_set, od_contains. case_bool_decide; [done|].
  apply NoDup_app. split_and!; [done| |apply NoDup_singleton].
  intros x Hx ->%list_elem_of_singleton. done.
Qed.

Lemma NoDup_od_move_to_end key l : NoDup l → NoDup (od_move_to_end key l).
Proof.
  intros Hnd. unfold od_move_to_end, od_contains. case_bool_decide; [|done].
  apply NoDup_app. split_and!; [by apply NoDup_od_del| |apply NoDup_singleton].
  intros x [_ Hx]%elem_of_od_del ->%list_elem_of_singleton. done.
Qed.

Lemma length_od_move_to_end key l :
  length (od_move_to_end key l) ≤ length l.
Proof.
  unfold od_move_to_end, od_contains. case_bool_decide as Hin; [|done].
  rewrite length_app. simpl. pose proof (length_od_del_lt key l Hin). lia.
Qed.

Lemma length_od_set key l :
  length (od_set key l) = if bool_decide (key ∈ l) then length l else S (length l).
Proof.
  unfold od_set, od_contains. case_bool_decide; [done|].
  rewrite length_app. simpl. lia.
Qed.

(** [od[key] = None; od.move_to_end(key)] on a recency list without
    repetition: the key goes last, the others keep their order. *)
Lemma od_touch_fresh key l :
  key ∉ l → od_move_to_end key (od_set key l) = l ++ [key].
Proof.
  intros Hin. unfold od_set, od_move_to_end, od_contains.
  rewrite (bool_decide_eq_false_2 (key ∈ l)) by done.
  rewrite bool_decide_eq_true_2 by (apply elem_of_app; right; by apply list_elem_of_singleton).
  unfold od_del. rewrite filter_app, filter_cons, decide_False by (by intros ?).
  rewrite filter_nil, app_nil_r. f_equal. by apply od_del_not_in.
Qed.

Section dicts.
Context {A : Type}.
Implicit Types (d : list (CacheKey * A)).

Lemma dict_set_keys key (x : A) d :
  (dict_set key x d).*1 = if bool_decide (key ∈ d.*1) then d.*1 else d.*1 ++ [key].
Proof.
  induction d as [|[k y] d IH]; [done|].
  cbn [dict_set]. destruct (decide (k = key)) as [->|Hne].
  - rewrite !fmap_cons. cbn [fst].
    rewrite bool_decide_eq_true_2; [done|]. apply elem_of_cons. by left.
  - rewrite !fmap_cons, IH. cbn [fst]. case_bool_decide as Hin.
    + rewrite bool_decide_eq_true_2; [done|]. apply elem_of_cons. by right.
    + rewrite bool_decide_eq_false_2; [done|].
      intros [?|?]%elem_of_cons; congruence.
Qed.

Lemma dict_del_keys key d : (dict_del key d).*1 = od_del key d.*1.
Proof.
  unfold dict_del, od_del. induction d as [|[k y] d IH]; [done|].
  rewrite fmap_cons, !filter_cons. cbn [fst].
  destruct (decide (k ≠ key)); [rewrite fmap_cons|]; by rewrite IH.
Qed.

End dicts.

Lemma min_item_elem_of (d : list (CacheKey * Z)) kv :
  min_item d = Some kv → kv ∈ d.
Proof.
  revert kv. induction d as [|x d IH]; intros kv; simpl; [done|].
  destruct (min_item d) as [y|].
  - case_bool_decide; intros [= <-].
    + apply elem_of_cons. right. by apply IH.
    + apply elem_of_cons. by left.
  - intros [= <-]. apply elem_of_cons. by left.
Qed.

Lemma min_item_is_Some (d : list (CacheKey * Z)) :
  d ≠ [] → is_Some (min_item d).
Proof.
  destruct d as [|x d]; [done|]. intros _. simpl.
  destruct (min_item d); [case_bool_decide|]; eauto.
Qed.

Lemma deque_remove_spec key q :
  NoDup q →
  match deque_remove key q with
  | Some q' => key ∈ q ∧ q' = od_del key q
  | None => key ∉ q
  end.
Proof.
  induction q as [|x q IH]; intros Hnd; simpl.
  - apply not_elem_of_nil.
  - apply NoDup_cons in Hnd as [Hx Hnd]. specialize (IH Hnd).
    destruct (decide (x = key)) as [->|Hne].
    + split; [apply elem_of_cons; by left|].
      unfold od_del. rewrite filter_cons, decide_False by (by intros ?).
      symmetry. by apply od_del_not_in.
    + destruct (deque_remove key q) as [q'|]; simpl.
      * destruct IH as [Hin ->]. split; [apply elem_of_cons; by right|].
        unfold od_del. by rewrite filter_cons, decide_True.
      * intros [?|?]%elem_of_cons; congruence.
Qed.

End container_facts.

(** ** The shadow index under eviction and admission *)
Section index_facts.
Implicit Types (key k v : CacheKey) (s : EvictionStrategy).

Lemma max_size_enlist key s : max_size (enlist key s) = max_size s.
Proof.
  destruct s as [s|s|s]; simpl; [done| |].
  - by destruct (dict_contains _ _).
  - by destruct (bool_decide _).
Qed.

Lemma max_size_evict v s : max_size (evict v s) = max_size s.
Proof. by destruct s. Qed.

Lemma victim_elem_of s v : victim s = Some v → v ∈ shadow_keys s.
Proof.
  destruct s as [s|s|s]; simpl.
  - destruct (LRUEvictionStrategy._access_order s); [done|].
    intros [= ->]. apply elem_of_cons. by left.
  - destruct (min_item _) as [kv|] eqn:Em; [|done]. intros [= <-].
    apply list_elem_of_fmap. exists kv. split; [done|]. by apply min_item_elem_of.
  - destruct (FIFOEvictionStrategy._insertion_order s); [done|].
    intros [= ->]. apply elem_of_cons. by left.
Qed.

Lemma victim_is_Some s : shadow_keys s ≠ [] → is_Some (victim s).
Proof.
  destruct s as [s|s|s]; simpl.
  - destruct (LRUEvictionStrategy._access_order s); [done|]. eauto.
  - intros Hne. apply fmap_is_Some, min_item_is_Some.
    intros Heq. by rewrite Heq in Hne.
  - destruct (FIFOEvictionStrategy._insertion_order s); [done|]. eauto.
Qed.

Lemma shadow_keys_evict s v :
  victim s = Some v → NoDup (shadow_keys s) →
  shadow_keys (evict v s) = od_del v (shadow_keys s).
Proof.
  destruct s as [s|s|s]; simpl; intros Hv Hnd; [done|apply dict_del_keys|].
  destruct (FIFOEvictionStrategy._insertion_order s) as [|x q]; [done|].
  injection Hv as ->. simpl. apply NoDup_cons in Hnd as [Hx _].
  unfold od_del. rewrite filter_cons, decide_False by (by intros ?).
  symmetry. by apply od_del_not_in.
Qed.

Lemma elem_of_shadow_enlist k key s :
  k ∈ shadow_keys (enlist key s) ↔ k = key ∨ k ∈ shadow_keys s.
Proof.
  destruct s as [s|s|s]; simpl.
  - by rewrite elem_of_od_move_to_end, elem_of_od_set.
  - unfold dict_contains. case_bool_decide as Hin; simpl.
    + split; [auto|]. by intros [->|?].
    + rewrite dict_set_keys, bool_decide_eq_false_2 by done.
      rewrite elem_of_app, list_elem_of_singleton. tauto.
  - case_bool_decide as Hin; simpl.
    + split; [auto|]. by intros [->|?].
    + rewrite elem_of_app, list_elem_of_singleton. tauto.
Qed.

Lemma NoDup_shadow_enlist key s :
  NoDup (shadow_keys s) → NoDup (shadow_keys (enlist key s)).
Proof.
  destruct s as [s|s|s]; simpl; intros Hnd.
  - by apply NoDup_od_move_to_end, NoDup_od_set.
  - unfold dict_contains. case_bool_decide as Hin; simpl; [done|].
    rewrite dict_set_keys, bool_decide_eq_false_2 by done.
    apply NoDup_app. split_and!; [done| |apply NoDup_singleton].
    intros x Hx ->%list_elem_of_singleton. done.
  - case_bool_decide as Hin; simpl; [done|].
    apply NoDup_app. split_and!; [done| |apply NoDup_singleton].
    intros x Hx ->%list_elem_of_singleton. done.
Qed.

Lemma length_shadow_enlist key s :
  length (shadow_keys (enlist key s))
  ≤ if bool_decide (key ∈ shadow_keys s) then length (shadow_keys s)
    else S (length (shadow_keys s)).
Proof.
  destruct s as [s|s|s]; simpl.
  - pose proof (length_od_move_to_end key (od_set key (LRUEvictionStrategy._access_order s))).
    rewrite length_od_set in H. done.
  - unfold dict_contains. case_bool_decide as Hin; simpl; [done|].
    rewrite dict_set_keys, bool_decide_eq_false_2 by done.
    rewrite length_app. simpl. lia.
  - case_bool_decide as Hin; simpl; [done|].
    rewrite length_app. simpl. lia.
Qed.

End index_facts.

(** ** Eviction strategies: [get], [delete] and [clear] on an open backend *)
Section step_facts.
Context {V : Type}.
Implicit Types (b : Backend V) (key : CacheKey) (value : option V)
  (s : EvictionStrategy).

Lemma step_get_open now key cb s b :
  _closed b = false →
  step now (SGet key cb) (s, b) =
    match (if BaseBackend._is_expired now key b then None
           else mjoin (_store b !! key)) with
    | Some x =>
        (Return (RValue (Some x)), (touch key s, (BaseBackend.get now key b).2))
    | None => miss_fill now key cb (s, (BaseBackend.get now key b).2)
    end.
Proof.
  intros Ec. destruct (open_get now key b Ec) as (Hr & _).
  destruct s as [s|s|s]; unfold miss_fill; unfold step, as_eviction, call; simpl.
  - unfold LRUEvictionStrategy.get. unfold bind at 1 2. unfold on_snd at 1. simpl.
    destruct (BaseBackend.get now key b) as [r b1]. simpl in *. subst r.
    destruct (if BaseBackend._is_expired now key b then _ else _) as [x|]; simpl.
    + done.
    + destruct cb as [f|]; simpl; [|done].
      unfold bind at 1 2. destruct (f key) as [[x|]|e]; simpl; [|done|done].
      unfold bind, ret. simpl.
      by destruct (LRUEvictionStrategy.set now key (Some x) None (s, b1))
        as [[r|e] [s' b']].
  - unfold LFUEvictionStrategy.get. unfold bind at 1 2. unfold on_snd at 1. simpl.
    destruct (BaseBackend.get now key b) as [r b1]. simpl in *. subst r.
    destruct (if BaseBackend._is_expired now key b then _ else _) as [x|]; simpl.
    + done.
    + destruct cb as [f|]; simpl; [|done].
      unfold bind at 1 2. destruct (f key) as [[x|]|e]; simpl; [|done|done].
      unfold bind, ret. simpl.
      by destruct (LFUEvictionStrategy.set now key (Some x) None (s, b1))
        as [[r|e] [s' b']].
  - unfold FIFOEvictionStrategy.get. unfold bind at 1 2. unfold on_snd at 1. simpl.
    destruct (BaseBackend.get now key b) as [r b1]. simpl in *. subst r.
    destruct (if BaseBackend._is_expired now key b then _ else _) as [x|]; simpl.
    + by destruct cb.
    + destruct cb as [f|]; simpl; [|done].
      unfold bind at 1 2. destruct (f key) as [[x|]|e]; simpl; [|done|done].
      unfold bind, ret. simpl.
      by destruct (FIFOEvictionStrategy.set now key (Some x) None (s, b1))
        as [[r|e] [s' b']].
Qed.

Lemma step_delete_open now key s b :
  _closed b = false →
  step now (SDelete key) (s, b) =
    (Return (RBool (bool_decide (is_Some (_store b !! key)))),
     (if bool_decide (is_Some (_store b !! key)) then drop key s else s,
      (BaseBackend.delete key b).2)).
Proof.
  intros Ec.
  destruct s as [s|s|s]; unfold step, as_eviction, call; simpl.
  - unfold LRUEvictionStrategy.delete, bind, ret, on_snd, on_fst, modify. simpl.
    rewrite (open_delete_eq key b Ec). simpl. by destruct (bool_decide _).
  - unfold LFUEvictionStrategy.delete, bind, ret, on_snd, on_fst, modify. simpl.
    rewrite (open_delete_eq key b Ec). simpl. by destruct (bool_decide _).
  - unfold FIFOEvictionStrategy.delete, bind, ret, on_snd, on_fst, modify. simpl.
    rewrite (open_delete_eq key b Ec). simpl.
    destruct (bool_decide _); simpl; [|done].
    by destruct (deque_remove _ _).
Qed.

Lemma step_clear_open now s b :
  _closed b = false →
  step now SClear (s, b) = (Return (RBool true), (cleared s, (BaseBackend.clear b).2)).
Proof.
  intros Ec.
  destruct s as [s|s|s]; unfold step, as_eviction, call; simpl.
  - unfold LRUEvictionStrategy.clear, bind, ret, on_snd, on_fst, modify. simpl.
    by rewrite (open_clear b Ec).
  - unfold LFUEvictionStrategy.clear, bind, ret, on_snd, on_fst, modify. simpl.
    by rewrite (open_clear b Ec).
  - unfold FIFOEvictionStrategy.clear, bind, ret, on_snd, on_fst, modify. simpl.
    by rewrite (open_clear b Ec).
Qed.

End step_facts.

(** ** The shadow index and the backend's keys *)
Section index_invariant.
Context {V : Type}.
Implicit Types (b : Backend V) (key k : CacheKey) (value : option V)
  (s : EvictionStrategy) (w : EvictionStrategy * Backend V).

Lemma elem_of_shadow_touch k key s :
  k ∈ shadow_keys (touch key s) → k = key ∨ k ∈ shadow_keys s.
Proof.
  destruct s as [s|s|s]; simpl; [| |auto].
  - destruct (od_contains _ _).
    + rewrite elem_of_od_move_to_end. auto.
    + by rewrite elem_of_od_set.
  - rewrite dict_set_keys. case_bool_decide; [auto|].
    rewrite elem_of_app, list_elem_of_singleton. tauto.
Qed.

Lemma NoDup_shadow_touch key s :
  NoDup (shadow_keys s) → NoDup (shadow_keys (touch key s)).
Proof.
  destruct s as [s|s|s]; simpl; intros Hnd; [| |done].
  - destruct (od_contains _ _);
      [by apply NoDup_od_move_to_end|by apply NoDup_od_set].
  - rewrite dict_set_keys. case_bool_decide; [done|].
    apply NoDup_app. split_and!; [done| |apply NoDup_singleton].
    intros x Hx ->%list_elem_of_singleton. done.
Qed.

Lemma shadow_keys_drop key s :
  NoDup (shadow_keys s) → shadow_keys (drop key s) = od_del key (shadow_keys s).
Proof.
  destruct s as [s|s|s]; simpl; intros Hnd; [done|apply dict_del_keys|].
  pose proof (deque_remove_spec key _ Hnd) as Hq.
  destruct (deque_remove _ _) as [q|]; simpl.
  - by destruct Hq as [_ ->].
  - symmetry. by apply od_del_not_in.
Qed.

Lemma shadow_keys_cleared s : shadow_keys (cleared s) = [].
Proof. by destruct s. Qed.

(** [set] keeps the invariant. *)
Lemma index_inv_set now key value ttl w :
  index_inv w → index_inv (step now (SSet key value ttl) w).2.
Proof.
  destruct w as [s b]. intros (Ec & Hnd & Hsub). simpl in *.
  rewrite step_set_open by done.
  destruct (needs_eviction key s).
  - destruct (victim s) as [v|] eqn:Ev; simpl; [|done].
    destruct (open_delete_fields v b Ec) as (Hs1 & Ec1 & _).
    destruct (open_set now key value ttl _ Ec1) as (_ & Hs2 & Ec2 & _).
    split_and!; simpl.
    + done.
    + apply NoDup_shadow_enlist. rewrite shadow_keys_evict by done.
      by apply NoDup_od_del.
    + intros k Hk. simpl in *. rewrite Hs2, Hs1.
      apply elem_of_shadow_enlist in Hk as [->|Hk].
      * rewrite lookup_insert_eq. eauto.
      * rewrite shadow_keys_evict in Hk by done.
        apply elem_of_od_del in Hk as [Hk Hne].
        destruct (decide (key = k)) as [->|]; [rewrite lookup_insert_eq; eauto|].
        rewrite lookup_insert_ne, lookup_delete_ne by done. by apply Hsub.
  - destruct (open_set now key value ttl b Ec) as (_ & Hs2 & Ec2 & _).
    split_and!; simpl.
    + done.
    + by apply NoDup_shadow_enlist.
    + intros k Hk. simpl in *. rewrite Hs2.
      apply elem_of_shadow_enlist in Hk as [->|Hk].
      * rewrite lookup_insert_eq. eauto.
      * destruct (decide (key = k)) as [->|]; [rewrite lookup_insert_eq; eauto|].
        rewrite lookup_insert_ne by done. by apply Hsub.
Qed.

(** Every call but a [get] of an expired key keeps the invariant. *)
Lemma index_inv_step now (op : StrategyOp V) w :
  index_inv w → hits_expired now op w.2 = false →
  index_inv (step now op w).2.
Proof.
  intros Hinv Hexp. destruct op as [key cb|key value ttl|key|].
  - (* get *)
    destruct w as [s b]. pose proof Hinv as (Ec & Hnd & Hsub). simpl in *.
    rewrite step_get_open by done. rewrite Hexp.
    assert ((BaseBackend.get now key b).2 = 
            if mjoin (_store b !! key) is Some _
            then (BaseBackend._update_access_metadata now key b).2 else b) as Hb1.
    { rewrite open_get_eq by done. by rewrite Hexp. }
    destruct (open_get now key b Ec) as (_ & Hs1 & Ec1 & _).
    rewrite Hexp in Hs1.
    destruct (mjoin (_store b !! key)) as [x|] eqn:Ex; simpl.
    + split_and!; simpl; [done|by apply NoDup_shadow_touch|].
      intros k Hk. simpl in *. rewrite Hs1.
      apply elem_of_shadow_touch in Hk as [->|Hk]; [|by apply Hsub].
      destruct (_store b !! key); [eauto|done].
    + rewrite Hb1. unfold miss_fill.
      destruct cb as [f|]; [|done].
      destruct (f key) as [[x|]|e]; [|done..].
      simpl. by apply index_inv_set.
  - by apply index_inv_set.
  - (* delete *)
    destruct w as [s b]. pose proof Hinv as (Ec & Hnd & Hsub). simpl in *.
    rewrite step_delete_open by done.
    destruct (open_delete_fields key b Ec) as (Hs1 & Ec1 & _).
    case_bool_decide as Hin; simpl.
    + split_and!; simpl; [done| |].
      * rewrite shadow_keys_drop by done. by apply NoDup_od_del.
      * intros k Hk. simpl in *. rewrite Hs1.
        rewrite shadow_keys_drop in Hk by done.
        apply elem_of_od_del in Hk as [Hk Hne].
        rewrite lookup_delete_ne by done. by apply Hsub.
    + split_and!; simpl; [done|done|].
      intros k Hk. simpl in *. rewrite Hs1.
      destruct (decide (key = k)) as [->|]; [by apply Hsub in Hk|].
      rewrite lookup_delete_ne by done. by apply Hsub.
  - (* clear *)
    destruct w as [s b]. pose proof Hinv as (Ec & Hnd & Hsub). simpl in *.
    rewrite step_clear_open by done. rewrite open_clear by done.
    split_and!; simpl; [done| |].
    + rewrite shadow_keys_cleared. constructor.
    + intros k. simpl. rewrite shadow_keys_cleared. by intros ?%elem_of_nil.
Qed.

Lemma index_inv_states (ops : list (Z * StrategyOp V)) w :
  index_inv w → expiry_free ops w = true →
  Forall index_inv (states ops w).
Proof.
  revert w. induction ops as [|[now op] ops IH]; intros w Hinv Hfree; simpl.
  - constructor.
  - simpl in Hfree. apply andb_true_iff in Hfree as [Hexp Hfree].
    apply negb_true_iff in Hexp.
    pose proof (index_inv_step now op w Hinv Hexp) as Hinv'.
    constructor; [done|]. by apply IH.
Qed.

End index_invariant.


(** C3, as stated, fails: [get] of LRU adds to the index a key the backend
    holds and the index does not, without looking at [max_size], and [set]
    evicts one key at most. *)
Lemma index_bound_fails_after_adoption :
  let w := exec [(1%Z, SGet "a" None); (2%Z, SGet "b" None)] sample_lru_populated in
  (step 3 (SSet "c" (Some 3%Z) None) w).1 = Return (RBool true)
  ∧ max_size (step 3 (SSet "c" (Some 3%Z) None) w).2.1 = 1%Z
  ∧ shadow_keys (step 3 (SSet "c" (Some 3%Z) None) w).2.1 = ["b"; "c"]
  ∧ ¬ (Z.of_nat (length (shadow_keys (step 3 (SSet "c" (Some 3%Z) None) w).2.1))
       ≤ max_size (step 3 (SSet "c" (Some 3%Z) None) w).2.1)%Z.
Proof.
  assert (shadow_keys
            (step 3 (SSet "c" (Some 3%Z) None)
               (exec [(1%Z, SGet "a" None); (2%Z, SGet "b" None)]
                  sample_lru_populated)).2.1 = ["b"; "c"]) as Hk.
  { vm_compute. reflexivity. }
  intros w. subst w. split_and!.
  - vm_compute. reflexivity.
  - vm_compute. reflexivity.
  - exact Hk.
  - rewrite Hk. vm_compute. intros H. apply H. reflexivity.
Qed.

(** ** LRU: filling the cache, then one key more *)
Section lru_fill.
Context {V : Type}.
Implicit Types (b : Backend V) (key k : CacheKey) (value : option V)
  (entries : list (Z * (CacheKey * option V))).

Lemma exec_app (ops1 ops2 : list (Z * StrategyOp V)) w :
  exec (ops1 ++ ops2) w = exec ops2 (exec ops1 w).
Proof.
  revert w. induction ops1 as [|[now op] ops1 IH]; intros w; simpl; [done|].
  apply IH.
Qed.

Lemma holds_set now key value b :
  _closed b = false → holds key value (BaseBackend.set now key value None b).2.
Proof.
  intros Ec.
  destruct (open_set now key value None b Ec) as (_ & Hs & _ & He & Hm1 & Hm0).
  split; [by rewrite Hs, lookup_insert_eq|].
  intros t. unfold BaseBackend._is_expired. rewrite He.
  destruct (enable_metadata b) eqn:Heb; [|done]. simpl.
  destruct (Hm1 eq_refl) as (m & -> & Hexp).
  rewrite lookup_insert_eq. unfold CacheMetadata.is_expired. by rewrite Hexp.
Qed.

Lemma holds_set_other now key value ttl k v b :
  _closed b = false → k ≠ key → holds k v b →
  holds k v (BaseBackend.set now key value ttl b).2.
Proof.
  intros Ec Hne [Hk Hexp].
  destruct (open_set now key value ttl b Ec) as (_ & Hs & _ & He & Hm1 & Hm0).
  split; [by rewrite Hs, lookup_insert_ne|].
  intros t. specialize (Hexp t). unfold BaseBackend._is_expired in *.
  rewrite He. destruct (enable_metadata b) eqn:Heb; [|done]. simpl in *.
  destruct (Hm1 eq_refl) as (m & -> & _). by rewrite lookup_insert_ne.
Qed.

Lemma holds_delete_other key k v b :
  _closed b = false → k ≠ key → holds k v b →
  holds k v (BaseBackend.delete key b).2.
Proof.
  intros Ec Hne [Hk Hexp]. rewrite open_delete by done.
  destruct (bool_decide _); simpl; [|done].
  split; simpl; [by rewrite lookup_delete_ne|].
  intros t. specialize (Hexp t). unfold BaseBackend._is_expired in *. simpl.
  destruct (enable_metadata b); [|done]. simpl in *.
  by rewrite lookup_delete_ne.
Qed.

Lemma holds_read t key value b :
  _closed b = false → holds key value b →
  (BaseBackend.exists_ t key b).1 = Return true
  ∧ (BaseBackend.get t key b).1 = Return value.
Proof.
  intros Ec [Hk Hexp].
  destruct (open_get t key b Ec) as (-> & _).
  rewrite open_exists_eq by done. rewrite Hexp, Hk. simpl.
  done.
Qed.

(** Admitting new keys while there is room appends them to the recency
    list and stores them. *)
Lemma lru_fill entries (s : LRUEvictionStrategy.t) b :
  _closed b = false →
  NoDup (LRUEvictionStrategy._access_order s ++ entries.*2.*1) →
  (Z.of_nat (length (LRUEvictionStrategy._access_order s) + length entries)
   ≤ LRUEvictionStrategy.max_size s)%Z →
  ∃ b',
    exec (put_all entries) (LRU s, b)
    = (LRU (LRUEvictionStrategy.with_access_order
              (LRUEvictionStrategy._access_order s ++ entries.*2.*1) s), b')
    ∧ _closed b' = false
    ∧ (∀ e, e ∈ entries → holds e.2.1 e.2.2 b')
    ∧ (∀ k v, k ∉ entries.*2.*1 → holds k v b → holds k v b').
Proof.
  revert s b. induction entries as [|[now [key value]] entries IH];
    intros s b Ec Hnd Hlen.
  - exists b. simpl. rewrite app_nil_r. split_and!; [by destruct s|done| |done].
    by intros e ?%elem_of_nil.
  - rewrite !fmap_cons in Hnd. cbn [fst snd] in Hnd.
    assert (key ∉ LRUEvictionStrategy._access_order s) as Hnew.
    { apply NoDup_app in Hnd as (_ & Hdisj & _). intros Hin.
      apply (Hdisj key Hin). apply elem_of_cons. by left. }
    assert (key ∉ entries.*2.*1) as Hnew'.
    { apply NoDup_app in Hnd as (_ & _ & Hnd). by apply NoDup_cons in Hnd as [? _]. }
    simpl. rewrite step_set_open by done.
    unfold needs_eviction. simpl.
    rewrite (bool_decide_eq_false_2 (_ ≤ _)%Z) by (simpl in Hlen; lia).
    rewrite andb_false_r. simpl.
    rewrite od_touch_fresh by done.
    destruct (open_set now key value None b Ec) as (_ & _ & Ec1 & _).
    destruct (IH (LRUEvictionStrategy.with_access_order
                    (LRUEvictionStrategy._access_order s ++ [key]) s)
                 (BaseBackend.set now key value None b).2 Ec1)
      as (b' & Hexec & Ec' & Hin & Hout).
    { simpl. by rewrite <- app_assoc. }
    { simpl in *. rewrite length_app. simpl. lia. }
    exists b'. simpl in Hexec. rewrite <- app_assoc in Hexec. simpl in Hexec.
    split_and!; [done|done| |].
    + intros e [->|He]%elem_of_cons; [|by apply Hin].
      simpl. apply Hout; [done|]. by apply holds_set.
    + intros k v Hk Hh. simpl in Hk.
      apply not_elem_of_cons in Hk as [Hne Hk].
      apply Hout; [done|]. by apply holds_set_other.
Qed.

End lru_fill.

(** C6. A new LRU strategy with [max_size = n], on an open backend: after
    [set] has admitted [n + 1] distinct keys in order, with nothing else
    called in between, the first key is gone from the backend ([exists]
    answers [False]) and from the index, and each of the other [n] keys is
    in the backend with its value ([exists] answers [True] and [get]
    returns the value); the index lists exactly these [n] keys, oldest
    first. *)
Theorem lru_evicts_first_inserted {V : Type} (n : nat) (nm : string)
    (s0 : LRUEvictionStrategy.t) (b : Backend V)
    (first : Z * (CacheKey * option V))
    (others : list (Z * (CacheKey * option V))) :
  LRUEvictionStrategy.__init__ (Z.of_nat n) nm = Return s0 →
  _closed b = false →
  length others = n →
  NoDup (first :: others).*2.*1 →
  _store (exec (put_all (first :: others)) (LRU s0, b)).2 !! first.2.1 = None
  ∧ (∀ t, (BaseBackend.exists_ t first.2.1
             (exec (put_all (first :: others)) (LRU s0, b)).2).1 = Return false)
  ∧ (∀ e, e ∈ others →
       _store (exec (put_all (first :: others)) (LRU s0, b)).2 !! e.2.1
         = Some e.2.2
       ∧ ∀ t, (BaseBackend.exists_ t e.2.1
                 (exec (put_all (first :: others)) (LRU s0, b)).2).1 = Return true
              ∧ (BaseBackend.get t e.2.1
                   (exec (put_all (first :: others)) (LRU s0, b)).2).1
                = Return e.2.2)
  ∧ shadow_keys (exec (put_all (first :: others)) (LRU s0, b)).1 = others.*2.*1.
Proof.
  intros Hinit Ec Hlen Hnd.
  unfold LRUEvictionStrategy.__init__ in Hinit.
  case_bool_decide as Hpos; [done|]. injection Hinit as <-.
  destruct first as [now1 [key1 value1]]. cbn [fst snd].
  destruct others as [|x others' _] using rev_ind.
  { simpl in Hlen. subst n. simpl in Hpos. lia. }
  destruct x as [nowl [keyl valuel]].
  rewrite length_app in Hlen. simpl in Hlen.
  assert (NoDup (key1 :: others'.*2.*1) ∧ keyl ∉ key1 :: others'.*2.*1)
    as [Hnd1 Hnewl].
  { rewrite app_comm_cons, !fmap_app in Hnd.
    apply NoDup_app in Hnd as (H1 & Hd & _). split; [exact H1|].
    intros Hk. apply (Hd keyl Hk). apply elem_of_cons. by left. }
  clear Hnd.
  rewrite app_comm_cons. unfold put_all. rewrite fmap_app, exec_app.
  fold (put_all ((now1, (key1, value1)) :: others')).
  destruct (lru_fill ((now1, (key1, value1)) :: others')
              (LRUEvictionStrategy.mk nm (Z.of_nat n) []) b Ec)
    as (b1 & -> & Ec1 & Hin & _).
  { done. }
  { simpl. lia. }
  simpl. rewrite step_set_open by done.
  unfold needs_eviction. simpl.
  rewrite bool_decide_eq_false_2 by done.
  rewrite bool_decide_eq_true_2 by (rewrite length_fmap, length_fmap; lia).
  simpl.
  apply NoDup_cons in Hnd1 as [Hk1 Hnd1].
  assert (od_move_to_end keyl (od_set keyl (od_del key1 (key1 :: others'.*2.*1)))
          = others'.*2.*1 ++ [keyl]) as Hidx.
  { assert (od_del key1 (key1 :: others'.*2.*1) = others'.*2.*1) as ->.
    { unfold od_del. rewrite filter_cons, decide_False by (by intros ?).
      by apply od_del_not_in. }
    apply od_touch_fresh. intros ?. apply Hnewl, elem_of_cons. by right. }
  destruct (open_delete_fields key1 b1 Ec1) as (Hs1 & Ec2 & _).
  destruct (open_set nowl keyl valuel None _ Ec2) as (_ & Hs2 & Ec3 & _).
  assert (key1 ≠ keyl) as Hne1.
  { intros ->. apply Hnewl, elem_of_cons. by left. }
  assert (_store (BaseBackend.set nowl keyl valuel None
                    (BaseBackend.delete key1 b1).2).2 !! key1 = None) as Hgone.
  { by rewrite Hs2, lookup_insert_ne, Hs1, lookup_delete_eq. }
  assert (∀ e, e ∈ others' ++ [(nowl, (keyl, valuel))] →
            holds e.2.1 e.2.2
              (BaseBackend.set nowl keyl valuel None (BaseBackend.delete key1 b1).2).2)
    as Hholds.
  { intros e [He|He]%elem_of_app; [|apply list_elem_of_singleton in He as ->].
    - assert (e.2.1 ∈ others'.*2.*1) as Hek.
      { apply list_elem_of_fmap. exists e.2. split; [done|].
        apply list_elem_of_fmap. by exists e. }
      apply holds_set_other; [done|..].
      { intros Heq. apply Hnewl. rewrite <- Heq. apply elem_of_cons. by right. }
      apply holds_delete_other; [done|..].
      { intros Heq. apply Hk1. by rewrite <- Heq. }
      apply Hin, elem_of_cons. by right.
    - by apply holds_set. }
  split_and!.
  - done.
  - intros t. rewrite open_exists_eq by done.
    destruct (BaseBackend._is_expired t key1 _); simpl; [done|].
    by rewrite Hgone.
  - intros e He. pose proof (Hholds e He) as Hh. split; [apply Hh|].
    intros t. by apply holds_read.
  - rewrite !fmap_app. exact Hidx.
Qed.

Lemma lru_evicts_first_inserted_witness :
  let w := exec (put_all [(0%Z, ("a", Some 1%Z)); (1%Z, ("b", Some 2%Z));
                            (2%Z, ("c", Some 3%Z))]) sample_lru in
  _store w.2 !! "a" = None
  ∧ (BaseBackend.exists_ 3 "a" w.2).1 = Return false
  ∧ (BaseBackend.exists_ 3 "b" w.2).1 = Return true
  ∧ (BaseBackend.get 3 "c" w.2).1 = Return (Some 3%Z)
  ∧ shadow_keys w.1 = ["b"; "c"].
Proof.
  intros w. subst w.
  assert (NoDup ["a"; "b"; "c"]) as Hnd.
  { apply (bool_decide_unpack _). vm_compute. exact I. }
  destruct (lru_evicts_first_inserted 2 "lru" (LRUEvictionStrategy.mk "lru" 2 [])
              (MemoryBackend.__init__ "memory" true)
              (0%Z, ("a", Some 1%Z))
              [(1%Z, ("b", Some 2%Z)); (2%Z, ("c", Some 3%Z))]
              eq_refl eq_refl eq_refl Hnd)
    as (Hgone & Hex & Hothers & Hidx).
  destruct (Hothers (1%Z, ("b", Some 2%Z))) as (_ & Hb).
  { apply elem_of_cons. by left. }
  destruct (Hothers (2%Z, ("c", Some 3%Z))) as (_ & Hc).
  { apply elem_of_cons. right. apply elem_of_cons. by left. }
  split_and!.
  - exact Hgone.
  - exact (Hex 3%Z).
  - exact (proj1 (Hb 3%Z)).
  - exact (proj2 (Hc 3%Z)).
  - exact Hidx.
Defined.

(** ** FIFO: the queue under [set] and [get] *)
Section fifo_facts.
Context {V : Type}.
Implicit Types (b : Backend V) (key k v : CacheKey) (value : option V)
  (q : list CacheKey) (s : FIFOEvictionStrategy.t).

Lemma filter_none {A} (P : A → Prop) `{!∀ x, Decision (P x)} (l : list A) :
  (∀ x, x ∈ l → ¬ P x) → filter P l = [].
Proof.
  induction l as [|x l IH]; intros Hall; [done|].
  rewrite filter_cons, decide_False by (apply Hall, elem_of_cons; by left).
  apply IH. intros y Hy. apply Hall, elem_of_cons. by right.
Qed.

Lemma filter_all {A} (P : A → Prop) `{!∀ x, Decision (P x)} (l : list A) :
  (∀ x, x ∈ l → P x) → filter P l = l.
Proof.
  induction l as [|x l IH]; intros Hall; [done|].
  rewrite filter_cons, decide_True by (apply Hall, elem_of_cons; by left).
  f_equal. apply IH. intros y Hy. apply Hall, elem_of_cons. by right.
Qed.











End fifo_facts.


(** * Further properties of the code *)

(** ** The backend: [set], [get], [delete], [clear], [size] *)
Section backend_laws.
Context {V : Type}.
Implicit Types (b : Backend V) (key : CacheKey) (value : option V).

(** Whether an entry written at [now] with [ttl] has expired at [now']:
    only when metadata is kept and a ttl was given. *)
Lemma is_expired_after_set now now' key value ttl b :
  _closed b = false →
  BaseBackend._is_expired now' key (BaseBackend.set now key value ttl b).2
  = enable_metadata b
    && match ttl with
       | Some t => bool_decide (now + t ≤ now')%Z
       | None => false
       end.
Proof.
  intros Ec.
  destruct (open_set now key value ttl b Ec) as (_ & _ & _ & He & Hm1 & _).
  unfold BaseBackend._is_expired. rewrite He.
  destruct (enable_metadata b) eqn:Heb; [|done]. simpl.
  destruct (Hm1 eq_refl) as (m & -> & Hexp).
  rewrite lookup_insert_eq. unfold CacheMetadata.is_expired. rewrite Hexp.
  by destruct ttl.
Qed.

Lemma delete_present key b :
  _closed b = false → is_Some (_store b !! key) →
  (BaseBackend.delete key b).1 = Return true
  ∧ _store (BaseBackend.delete key b).2 !! key = None
  ∧ (enable_metadata b = true →
     _metadata (BaseBackend.delete key b).2 !! key = None).
Proof.
  intros Ec Hk. rewrite open_delete by done.
  rewrite bool_decide_eq_true_2 by done. simpl.
  split_and!; [done|by rewrite lookup_delete_eq|].
  intros ->. by rewrite lookup_delete_eq.
Qed.

End backend_laws.

(** X1. [set] then [get] on an open backend: the value comes back at every
    time before [now + ttl], and at every time when no ttl was given or the
    backend keeps no metadata (the ttl is then ignored for good); from
    [now + ttl] on, [get] returns [None], [exists] returns [False], and the
    access removes the entry and its metadata record. *)
Theorem set_then_get {V : Type} (b : Backend V) (now now' : Z)
    (key : CacheKey) (value : option V) (ttl : option Z) :
  _closed b = false →
  (BaseBackend.get now' key (BaseBackend.set now key value ttl b).2).1
    = Return (if enable_metadata b
                 && match ttl with
                    | Some t => bool_decide (now + t ≤ now')%Z
                    | None => false
                    end
              then None else value)
  ∧ (BaseBackend.exists_ now' key (BaseBackend.set now key value ttl b).2).1
    = Return (negb (enable_metadata b
                    && match ttl with
                       | Some t => bool_decide (now + t ≤ now')%Z
                       | None => false
                       end))
  ∧ (enable_metadata b = true →
     ∀ t, ttl = Some t → (now + t ≤ now')%Z →
     _store (BaseBackend.get now' key (BaseBackend.set now key value ttl b).2).2
       !! key = None
     ∧ _metadata (BaseBackend.get now' key (BaseBackend.set now key value ttl b).2).2
       !! key = None).
Proof.
  intros Ec.
  destruct (open_set now key value ttl b Ec) as (_ & Hs & Ec1 & He & _).
  pose proof (is_expired_after_set now now' key value ttl b Ec) as Hx.
  assert (is_Some (_store (BaseBackend.set now key value ttl b).2 !! key)) as Hk.
  { rewrite Hs, lookup_insert_eq. eauto. }
  rewrite open_get_eq, open_exists_eq by done. rewrite Hx.
  split_and!.
  - destruct (_ && _); simpl; [done|]. by rewrite Hs, lookup_insert_eq.
  - destruct (_ && _); simpl; [done|]. by rewrite bool_decide_eq_true_2.
  - intros Heb t -> Hle. rewrite Heb. simpl.
    rewrite bool_decide_eq_true_2 by done. simpl.
    destruct (delete_present key _ Ec1 Hk) as (_ & Hgone & Hmd).
    split; [done|]. apply Hmd. by rewrite He.
Qed.

Lemma set_then_get_witness :
  (BaseBackend.get 4 "a" sample_backend).1 = Return (Some 1%Z)
  ∧ (BaseBackend.get 5 "a" sample_backend).1 = Return None
  ∧ _store (BaseBackend.get 5 "a" sample_backend).2 !! "a" = None.
Proof.
  destruct (set_then_get (MemoryBackend.__init__ "memory" true) 0 4 "a"
              (Some 1%Z) (Some 5%Z) eq_refl) as (H4 & _).
  destruct (set_then_get (MemoryBackend.__init__ "memory" true) 0 5 "a"
              (Some 1%Z) (Some 5%Z) eq_refl) as (H5 & _ & Hgone).
  split_and!; [exact H4|exact H5|].
  exact (proj1 (Hgone eq_refl 5%Z eq_refl ltac:(lia))).
Defined.

(** X2. [delete] on an open backend answers whether the key was in the
    store, expired or not; afterwards the key has no entry and no metadata
    record, [get] returns [None], [exists] returns [False], a second
    [delete] returns [False] and changes nothing, and every other key keeps
    its entry. *)
Theorem delete_removes_once {V : Type} (b : Backend V) (now : Z) (key : CacheKey) :
  reachable b →
  _closed b = false →
  (BaseBackend.delete key b).1 = Return (bool_decide (is_Some (_store b !! key)))
  ∧ _store (BaseBackend.delete key b).2 !! key = None
  ∧ _metadata (BaseBackend.delete key b).2 !! key = None
  ∧ (BaseBackend.get now key (BaseBackend.delete key b).2).1 = Return None
  ∧ (BaseBackend.exists_ now key (BaseBackend.delete key b).2).1 = Return false
  ∧ BaseBackend.delete key (BaseBackend.delete key b).2
    = (Return false, (BaseBackend.delete key b).2)
  ∧ (∀ k, k ≠ key →
       _store (BaseBackend.delete key b).2 !! k = _store b !! k
       ∧ _metadata (BaseBackend.delete key b).2 !! k = _metadata b !! k).
Proof.
  intros Hreach Ec.
  destruct (reachable_inv b Hreach) as (Hen & Hsub & _).
  destruct (open_delete_fields key b Ec) as (Hs & Ec1 & He).
  assert (_metadata (BaseBackend.delete key b).2 !! key = None) as Hmd.
  { rewrite open_delete by done. case_bool_decide as Hk; simpl.
    - destruct (enable_metadata b) eqn:Heb; [by rewrite lookup_delete_eq|].
      rewrite Hen by done. apply lookup_empty.
    - destruct (_metadata b !! key) eqn:Hm; [|done].
      exfalso. apply Hk, Hsub. by rewrite Hm. }
  assert (_store (BaseBackend.delete key b).2 !! key = None) as Hgone.
  { by rewrite Hs, lookup_delete_eq. }
  assert (BaseBackend._is_expired now key (BaseBackend.delete key b).2 = false)
    as Hx.
  { unfold BaseBackend._is_expired. rewrite Hmd. by destruct (negb _). }
  split_and!.
  - by rewrite open_delete.
  - done.
  - done.
  - rewrite open_get_eq by done. by rewrite Hx, Hgone.
  - rewrite open_exists_eq by done. rewrite Hx, Hgone. done.
  - rewrite (open_delete key _ Ec1).
    rewrite bool_decide_eq_false_2; [done|]. rewrite Hgone. by intros [? ?].
  - intros k Hne. rewrite open_delete by done.
    destruct (bool_decide _); simpl; [|done].
    rewrite lookup_delete_ne by done. split; [done|].
    destruct (enable_metadata b); [by rewrite lookup_delete_ne|done].
Qed.

Lemma delete_removes_once_witness :
  (BaseBackend.delete "a" sample_backend).1 = Return true
  ∧ BaseBackend.delete "a" (BaseBackend.delete "a" sample_backend).2
    = (Return false, (BaseBackend.delete "a" sample_backend).2).
Proof.
  assert (reachable sample_backend) as Hr.
  { apply reachable_exec, reachable_init. }
  destruct (delete_removes_once sample_backend 0 "a" Hr eq_refl)
    as (H1 & _ & _ & _ & _ & H2 & _).
  split; [exact H1|exact H2].
Defined.

(** X3. [clear] on an open backend returns [True] and leaves an empty
    store and no metadata; a second [clear] returns [True] again and
    changes nothing; after it [size] is 0 and no key is found. *)
Theorem clear_twice {V : Type} (b : Backend V) (now : Z) (key : CacheKey) :
  reachable b →
  _closed b = false →
  (BaseBackend.clear b).1 = Return true
  ∧ _store (BaseBackend.clear b).2 = ∅
  ∧ _metadata (BaseBackend.clear b).2 = ∅
  ∧ BaseBackend.clear (BaseBackend.clear b).2 = (Return true, (BaseBackend.clear b).2)
  ∧ MemoryBackend.size (BaseBackend.clear b).2 = 0
  ∧ (BaseBackend.get now key (BaseBackend.clear b).2).1 = Return None
  ∧ (BaseBackend.exists_ now key (BaseBackend.clear b).2).1 = Return false.
Proof.
  intros Hreach Ec.
  destruct (reachable_inv b Hreach) as (Hen & _ & _).
  rewrite (open_clear b Ec). simpl.
  assert ((if enable_metadata b then ∅ else _metadata b) = ∅) as Hm.
  { destruct (enable_metadata b); auto. }
  rewrite Hm.
  split_and!; try done.
  - rewrite open_clear by done. simpl. by destruct (enable_metadata b).
  - rewrite open_get_eq by done. unfold BaseBackend._is_expired. simpl.
    rewrite !lookup_empty. by destruct (negb _).
  - rewrite open_exists_eq by done. unfold BaseBackend._is_expired. simpl.
    rewrite !lookup_empty. by destruct (negb _).
Qed.

Lemma clear_twice_witness :
  (BaseBackend.clear sample_backend).1 = Return true
  ∧ BaseBackend.clear (BaseBackend.clear sample_backend).2
    = (Return true, (BaseBackend.clear sample_backend).2)
  ∧ (BaseBackend.get 1 "a" (BaseBackend.clear sample_backend).2).1 = Return None.
Proof.
  assert (reachable sample_backend) as Hr.
  { apply reachable_exec, reachable_init. }
  destruct (clear_twice sample_backend 1 "a" Hr eq_refl)
    as (H1 & _ & _ & H2 & _ & H3 & _).
  split_and!; [exact H1|exact H2|exact H3].
Defined.

(** ** Access statistics *)
Section access_facts.
Context {V : Type}.
Implicit Types (b : Backend V) (key : CacheKey) (value : option V).

(** A hit on an entry that does not expire. *)
Lemma get_hit now key (x : V) m b :
  _closed b = false → enable_metadata b = true →
  _store b !! key = Some (Some x) →
  _metadata b !! key = Some m → expires_at m = None →
  BaseBackend.get now key b
  = (Return (Some x),
     with_metadata (<[key := CacheMetadata.update_access now m]> (_metadata b)) b).
Proof.
  intros Ec He Hk Hm Hexp. rewrite open_get_eq by done.
  unfold BaseBackend._is_expired, CacheMetadata.is_expired.
  rewrite He, Hm, Hexp, Hk. simpl.
  unfold BaseBackend._update_access_metadata, modify. simpl.
  by rewrite He, Hm.
Qed.

Lemma gets_count (times : list Z) key (x : V) m b :
  _closed b = false → enable_metadata b = true →
  _store b !! key = Some (Some x) →
  _metadata b !! key = Some m → expires_at m = None →
  ∃ m', _metadata (backend_exec ((λ t, (t, BGet key)) <$> times) b) !! key = Some m'
    ∧ access_count m' = (access_count m + Z.of_nat (length times))%Z
    ∧ last_accessed m' = default (last_accessed m) (last times)
    ∧ created_at m' = created_at m
    ∧ expires_at m' = None
    ∧ Forall (λ r, r = Return (RValue (Some x)))
        (backend_outcomes ((λ t, (t, BGet key)) <$> times) b).
Proof.
  revert m b. induction times as [|t times IH]; intros m b Ec He Hk Hm Hexp.
  - exists m. simpl. split_and!; try done. lia.
  - simpl. unfold bind, ret. rewrite (get_hit t key x m b) by done. simpl.
    destruct (IH (CacheMetadata.update_access t m)
                 (with_metadata
                    (<[key := CacheMetadata.update_access t m]> (_metadata b)) b))
      as (m' & Hm' & Hcount & Hlast & Hcreated & Hexp' & Hall); try done.
    { simpl. by rewrite lookup_insert_eq. }
    exists m'. split_and!; try done.
    + rewrite Hcount. simpl. lia.
    + rewrite Hlast, last_cons. simpl. by destruct (last times).
    + by constructor.
Qed.

End access_facts.

(** X4. On an open backend that keeps metadata, [n] reads of an entry that
    holds a value other than [None] and has no expiry all return the value
    and add exactly [n] to its [access_count]; [last_accessed] becomes the
    time of the last read and [created_at] stays. *)
Theorem access_count_counts_hits {V : Type} (b : Backend V) (key : CacheKey)
    (x : V) (m : CacheMetadata) (times : list Z) :
  _closed b = false →
  enable_metadata b = true →
  _store b !! key = Some (Some x) →
  _metadata b !! key = Some m →
  expires_at m = None →
  ∃ m', _metadata (backend_exec ((λ t, (t, BGet key)) <$> times) b) !! key = Some m'
    ∧ access_count m' = (access_count m + Z.of_nat (length times))%Z
    ∧ last_accessed m' = default (last_accessed m) (last times)
    ∧ created_at m' = created_at m
    ∧ Forall (λ r, r = Return (RValue (Some x)))
        (backend_outcomes ((λ t, (t, BGet key)) <$> times) b).
Proof.
  intros Ec He Hk Hm Hexp.
  destruct (gets_count times key x m b Ec He Hk Hm Hexp)
    as (m' & ? & ? & ? & ? & _ & ?).
  exists m'. by split_and!.
Qed.

Lemma access_count_counts_hits_witness :
  ∃ m', _metadata
          (backend_exec [(3%Z, BGet "k"); (4%Z, BGet "k"); (9%Z, BGet "k")]
             (BaseBackend.set 1 "k" (Some 7%Z) None
                (MemoryBackend.__init__ "memory" true)).2) !! "k" = Some m'
        ∧ access_count m' = 3%Z ∧ last_accessed m' = 9%Z ∧ created_at m' = 1%Z.
Proof.
  destruct (access_count_counts_hits
              (BaseBackend.set 1 "k" (Some 7%Z) None
                 (MemoryBackend.__init__ "memory" true)).2
              "k" 7%Z (mkCacheMetadata 1 None 0 1 []) [3%Z; 4%Z; 9%Z]
              eq_refl eq_refl eq_refl eq_refl eq_refl)
    as (m' & Hm & Hc & Hl & Hcr & _).
  exists m'. split_and!; [exact Hm|exact Hc|exact Hl|exact Hcr].
Defined.

(** X5. A stored [None] reads as a miss: on an open backend, after
    [set(key, None)], [exists] returns [True] while [get] returns [None],
    and the read is not counted: it leaves the backend, metadata included,
    exactly as it was. *)
Theorem stored_none_reads_as_miss {V : Type} (b : Backend V) (now now' : Z)
    (key : CacheKey) :
  _closed b = false →
  (BaseBackend.exists_ now' key (BaseBackend.set now key (None : option V) None b).2).1
    = Return true
  ∧ BaseBackend.get now' key (BaseBackend.set now key None None b).2
    = (Return None, (BaseBackend.set now key None None b).2).
Proof.
  intros Ec.
  destruct (open_set now key (None : option V) None b Ec) as (_ & Hs & Ec1 & _).
  pose proof (is_expired_after_set now now' key (None : option V) None b Ec) as Hx.
  rewrite andb_false_r in Hx.
  rewrite open_get_eq, open_exists_eq by done. rewrite Hx.
  rewrite Hs, lookup_insert_eq. simpl. done.
Qed.

Lemma stored_none_reads_as_miss_witness :
  (BaseBackend.exists_ 2 "k"
     (BaseBackend.set 1 "k" (None : option Z) None
        (MemoryBackend.__init__ "memory" true)).2).1 = Return true
  ∧ (BaseBackend.get 2 "k"
       (BaseBackend.set 1 "k" (None : option Z) None
          (MemoryBackend.__init__ "memory" true)).2).1 = Return None.
Proof.
  destruct (stored_none_reads_as_miss
              (MemoryBackend.__init__ "memory" true : Backend Z) 1 2 "k" eq_refl)
    as (He & Hg).
  split; [exact He|]. rewrite Hg. reflexivity.
Defined.

(** X6. [size] counts the entries of the store, expired or not: on an open
    backend, writing a new key with a ttl makes [size] one more at any
    later time, until a [get] or [exists] at or after the expiry deletes
    the entry and [size] is what it was. *)
Theorem size_counts_until_access {V : Type} (b : Backend V) (now now' t : Z)
    (key : CacheKey) (value : option V) :
  _closed b = false →
  enable_metadata b = true →
  _store b !! key = None →
  (now + t ≤ now')%Z →
  MemoryBackend.size (BaseBackend.set now key value (Some t) b).2
    = S (MemoryBackend.size b)
  ∧ MemoryBackend.size
      (BaseBackend.get now' key (BaseBackend.set now key value (Some t) b).2).2
    = MemoryBackend.size b
  ∧ MemoryBackend.size
      (BaseBackend.exists_ now' key (BaseBackend.set now key value (Some t) b).2).2
    = MemoryBackend.size b.
Proof.
  intros Ec He Hnew Hle.
  destruct (open_set now key value (Some t) b Ec) as (_ & Hs & Ec1 & _).
  pose proof (is_expired_after_set now now' key value (Some t) b Ec) as Hx.
  rewrite He, bool_decide_eq_true_2 in Hx by done. simpl in Hx.
  destruct (open_delete_fields key _ Ec1) as (Hs1 & _).
  unfold MemoryBackend.size.
  rewrite open_get_eq, open_exists_eq by done. rewrite Hx. simpl.
  rewrite Hs1, Hs. rewrite delete_insert_id by done.
  split_and!; [|done|done]. by apply map_size_insert_None.
Qed.

Lemma size_counts_until_access_witness :
  MemoryBackend.size sample_backend = 1
  ∧ MemoryBackend.size (BaseBackend.get 5 "a" sample_backend).2 = 0.
Proof.
  destruct (size_counts_until_access (MemoryBackend.__init__ "memory" true)
              0 5 5 "a" (Some 1%Z) eq_refl eq_refl eq_refl ltac:(lia))
    as (H1 & H2 & _).
  split; [exact H1|exact H2].
Defined.

(** X7. Whatever sequence of calls a [MemoryBackend] has gone through, at
    whatever times: a metadata record exists only for a key of the store,
    no record exists when metadata is disabled, and none after [close].
    [close] itself leaves every entry in the store. *)
Theorem metadata_follows_store {V : Type} (b : Backend V) :
  reachable b →
  (∀ key, is_Some (_metadata b !! key) → is_Some (_store b !! key))
  ∧ (enable_metadata b = false → _metadata b = ∅)
  ∧ (_closed b = true → _metadata b = ∅)
  ∧ _store (BaseBackend.close b).2 = _store b.
Proof.
  intros Hreach. destruct (reachable_inv b Hreach) as (Hen & Hsub & Hcl).
  split_and!; try done.
  unfold BaseBackend.close, BaseBackend._clear_metadata, bind, modify. simpl.
  by destruct (enable_metadata b).
Qed.

Lemma metadata_follows_store_witness :
  (∀ key, is_Some (_metadata sample_backend !! key) →
          is_Some (_store sample_backend !! key))
  ∧ _store (BaseBackend.close sample_backend).2 = _store sample_backend.
Proof.
  destruct (metadata_follows_store sample_backend) as (H1 & _ & _ & H2).
  { apply reachable_exec, reachable_init. }
  split; [exact H1|exact H2].
Defined.

(** ** Eviction strategies: bound, recency, frequency *)
Section sole_writer_facts.
Context {V : Type}.
Implicit Types (b : Backend V) (key k v : CacheKey) (value : option V)
  (s : EvictionStrategy) (w : EvictionStrategy * Backend V).

Lemma max_size_touch key s : max_size (touch key s) = max_size s.
Proof. by destruct s. Qed.

Lemma max_size_drop key s : max_size (drop key s) = max_size s.
Proof.
  destruct s as [s|s|s]; simpl; [done..|]. by destruct (deque_remove _ _).
Qed.

Lemma max_size_cleared s : max_size (cleared s) = max_size s.
Proof. by destruct s. Qed.

(** A hit on a key of the index reorders at most: same keys, no more of
    them. *)
Lemma shadow_touch_in key s :
  NoDup (shadow_keys s) → key ∈ shadow_keys s →
  (∀ k, k ∈ shadow_keys s → k ∈ shadow_keys (touch key s))
  ∧ length (shadow_keys (touch key s)) ≤ length (shadow_keys s).
Proof.
  destruct s as [s|s|s]; simpl; intros Hnd Hin.
  - unfold od_contains. rewrite bool_decide_eq_true_2 by done. split.
    + intros k Hk. by apply elem_of_od_move_to_end.
    + apply length_od_move_to_end.
  - rewrite dict_set_keys, bool_decide_eq_true_2 by done. done.
  - done.
Qed.

Lemma owns_set now key value ttl w :
  owns w → owns (step now (SSet key value ttl) w).2.
Proof.
  destruct w as [s b]. intros (Ec & Hnd & Hall & Hlen). simpl in *.
  rewrite step_set_open by done.
  destruct (needs_eviction key s) eqn:Hne.
  - destruct (victim s) as [v|] eqn:Ev; [|done].
    unfold needs_eviction in Hne. apply andb_true_iff in Hne as [Hnew _].
    apply negb_true_iff, bool_decide_eq_false in Hnew.
    pose proof (victim_elem_of s v Ev) as Hvin.
    destruct (open_delete_fields v b Ec) as (Hs1 & Ec1 & _).
    destruct (open_set now key value ttl _ Ec1) as (_ & Hs2 & Ec2 & _).
    split_and!; simpl.
    + done.
    + apply NoDup_shadow_enlist. rewrite shadow_keys_evict by done.
      by apply NoDup_od_del.
    + intros k. rewrite Hs2, Hs1. intros Hk.
      apply elem_of_shadow_enlist.
      destruct (decide (k = key)) as [->|Hkk]; [by left|right].
      rewrite lookup_insert_ne in Hk by done.
      rewrite shadow_keys_evict by done. apply elem_of_od_del.
      destruct (decide (k = v)) as [->|Hkv].
      * rewrite lookup_delete_eq in Hk. by destruct Hk.
      * rewrite lookup_delete_ne in Hk by done. auto.
    + rewrite max_size_enlist, max_size_evict.
      pose proof (length_shadow_enlist key (evict v s)) as Hla.
      rewrite shadow_keys_evict in Hla by done.
      rewrite bool_decide_eq_false_2 in Hla by (rewrite elem_of_od_del; tauto).
      pose proof (length_od_del_lt v (shadow_keys s) Hvin). lia.
  - destruct (open_set now key value ttl b Ec) as (_ & Hs2 & Ec2 & _).
    unfold needs_eviction in Hne. apply andb_false_iff in Hne.
    split_and!; simpl.
    + done.
    + by apply NoDup_shadow_enlist.
    + intros k. rewrite Hs2. intros Hk. apply elem_of_shadow_enlist.
      destruct (decide (k = key)) as [->|Hkk]; [by left|right].
      rewrite lookup_insert_ne in Hk by done. auto.
    + rewrite max_size_enlist.
      pose proof (length_shadow_enlist key s) as Hla.
      destruct Hne as [Hin|Hroom].
      * apply negb_false_iff in Hin. rewrite Hin in Hla. lia.
      * apply bool_decide_eq_false in Hroom.
        destruct (bool_decide (key ∈ shadow_keys s)); lia.
Qed.

Lemma owns_step now (op : StrategyOp V) w : owns w → owns (step now op w).2.
Proof.
  intros Hown. destruct op as [key cb|key value ttl|key|].
  - (* get *)
    destruct w as [s b]. pose proof Hown as (Ec & Hnd & Hall & Hlen).
    simpl in *. rewrite step_get_open by done.
    destruct (open_get now key b Ec) as (_ & Hs1 & Ec1 & _).
    assert (∀ k, is_Some (_store (BaseBackend.get now key b).2 !! k) →
                 is_Some (_store b !! k)) as Hless.
    { intros k. rewrite Hs1. destruct (BaseBackend._is_expired now key b); [|done].
      destruct (decide (k = key)) as [->|Hkk].
      - rewrite lookup_delete_eq. by intros [? ?].
      - by rewrite lookup_delete_ne. }
    assert (owns (s, (BaseBackend.get now key b).2)) as Hown1.
    { split_and!; simpl; auto. }
    destruct (BaseBackend._is_expired now key b) eqn:Hx.
    + unfold miss_fill. destruct cb as [f|]; [|done].
      destruct (f key) as [[x|]|e]; [|done..].
      simpl. by apply owns_set.
    + destruct (mjoin (_store b !! key)) as [x|] eqn:Ex.
      * assert (key ∈ shadow_keys s) as Hin.
        { apply Hall. destruct (_store b !! key); [eauto|done]. }
        destruct (shadow_touch_in key s Hnd Hin) as (Hsup & Hle).
        split_and!; simpl.
        -- done.
        -- by apply NoDup_shadow_touch.
        -- intros k Hk. apply Hsup, Hall, Hless, Hk.
        -- rewrite max_size_touch. lia.
      * unfold miss_fill. destruct cb as [f|]; [|done].
        destruct (f key) as [[x|]|e]; [|done..].
        simpl. by apply owns_set.
  - by apply owns_set.
  - (* delete *)
    destruct w as [s b]. pose proof Hown as (Ec & Hnd & Hall & Hlen).
    simpl in *. rewrite step_delete_open by done.
    destruct (open_delete_fields key b Ec) as (Hs1 & Ec1 & _).
    case_bool_decide as Hin; simpl.
    + split_and!; simpl.
      * done.
      * rewrite shadow_keys_drop by done. by apply NoDup_od_del.
      * intros k. rewrite Hs1, shadow_keys_drop by done. intros Hk.
        apply elem_of_od_del.
        destruct (decide (k = key)) as [->|Hkk].
        -- rewrite lookup_delete_eq in Hk. by destruct Hk.
        -- rewrite lookup_delete_ne in Hk by done. auto.
      * rewrite max_size_drop, shadow_keys_drop by done.
        pose proof (length_od_del_le key (shadow_keys s)). lia.
    + split_and!; simpl; [done|done| |done].
      intros k. rewrite Hs1. intros Hk.
      destruct (decide (k = key)) as [->|Hkk].
      * rewrite lookup_delete_eq in Hk. by destruct Hk.
      * rewrite lookup_delete_ne in Hk by done. auto.
  - (* clear *)
    destruct w as [s b]. pose proof Hown as (Ec & Hnd & Hall & Hlen).
    simpl in *. rewrite step_clear_open by done. rewrite open_clear by done.
    split_and!; simpl.
    + done.
    + rewrite shadow_keys_cleared. constructor.
    + intros k. rewrite lookup_empty. by intros [? ?].
    + rewrite max_size_cleared, shadow_keys_cleared. simpl. lia.
Qed.

End sole_writer_facts.

(** X8. A strategy that is the only writer of its backend never exceeds
    [max_size]. For each of LRU, LFU and FIFO: starting from an open backend
    all of whose keys are in the shadow index (a new strategy on an empty
    backend), after every call of every sequence of [get], [set], [delete]
    and [clear], at any times and with any callbacks, the index still holds
    every key of the backend, repeats none and has at most [max_size]
    keys, so the backend holds at most [max_size] entries. *)
Theorem sole_writer_stays_bounded {V : Type} (ops : list (Z * StrategyOp V))
    (w : EvictionStrategy * Backend V) :
  owns w →
  Forall (λ w', owns w'
                ∧ (Z.of_nat (MemoryBackend.size w'.2) ≤ max_size w'.1)%Z)
    (states ops w).
Proof.
  intros Hown. revert w Hown.
  induction ops as [|[now op] ops IH]; intros w Hown; simpl; [constructor|].
  pose proof (owns_step now op w Hown) as Hown'.
  constructor; [|by apply IH].
  split; [done|].
  destruct Hown' as (_ & Hnd & Hall & Hlen).
  unfold MemoryBackend.size.
  assert (base.size (_store (step now op w).2.2)
          ≤ length (shadow_keys (step now op w).2.1)); [|lia].
  rewrite <- size_dom, <- (size_list_to_set (C:=gset string)) by done.
  apply subseteq_size. intros k Hk.
  apply elem_of_list_to_set, Hall. by apply elem_of_dom.
Qed.

Lemma sole_writer_stays_bounded_witness :
  Forall (λ w' : EvictionStrategy * Backend Z,
            owns w' ∧ (Z.of_nat (MemoryBackend.size w'.2) ≤ max_size w'.1)%Z)
    (states
       [(0%Z, SSet "a" (Some 1%Z) (Some 5%Z)); (1%Z, SSet "b" (Some 2%Z) None);
        (7%Z, SGet "a" None); (8%Z, SSet "c" (Some 3%Z) None);
        (9%Z, SGet "d" (Some (λ _, Return (Some 4%Z))))]
       sample_lru).
Proof.
  apply sole_writer_stays_bounded.
  split_and!; simpl; [reflexivity|constructor| |lia].
  intros k. rewrite lookup_empty. by intros [? ?].
Defined.

Section policy_facts.
Context {V : Type}.
Implicit Types (b : Backend V) (key k v : CacheKey) (value : option V).

Lemma od_del_head k l : k ∉ l → od_del k (k :: l) = l.
Proof.
  intros Hk. unfold od_del. rewrite filter_cons, decide_False by (by intros ?).
  by apply od_del_not_in.
Qed.

Lemma od_move_to_end_head k l :
  k ∉ l → od_move_to_end k (k :: l) = l ++ [k].
Proof.
  intros Hk. unfold od_move_to_end, od_contains.
  rewrite bool_decide_eq_true_2 by (apply elem_of_cons; by left).
  by rewrite od_del_head.
Qed.

Lemma not_elem_of_snoc k k' l : k ∉ l → k ≠ k' → k ∉ l ++ [k'].
Proof.
  intros Hl Hne [Hin|Hin]%elem_of_app; [done|].
  by apply list_elem_of_singleton in Hin.
Qed.

(** [min] returns the first item whose count is minimal. *)
Lemma min_item_spec (d : list (CacheKey * Z)) k c :
  min_item d = Some (k, c) →
  ∃ pre post, d = pre ++ (k, c) :: post
    ∧ Forall (λ x, (c < x.2)%Z) pre
    ∧ Forall (λ x, (c ≤ x.2)%Z) post.
Proof.
  revert k c. induction d as [|[kx cx] d IH]; intros k c; simpl; [done|].
  destruct (min_item d) as [[k' c']|] eqn:Em.
  - destruct (IH k' c' eq_refl) as (pre & post & Hd & Hpre & Hpost).
    simpl. case_bool_decide as Hlt; intros Heq; injection Heq as -> ->.
    + exists ((kx, cx) :: pre), post. rewrite Hd. split_and!; [done| |done].
      by constructor.
    + exists [], d. split_and!; [done|constructor|].
      rewrite Hd. apply Forall_app. split.
      * eapply Forall_impl; [exact Hpre|]. simpl. intros; lia.
      * constructor; [simpl; lia|].
        eapply Forall_impl; [exact Hpost|]. simpl. intros; lia.
  - intros Heq. injection Heq as -> ->. destruct d as [|y d].
    + exists [], []. by split_and!.
    + simpl in Em. destruct (min_item d); [case_bool_decide|]; done.
Qed.

Lemma dict_del_middle {A} (pre post : list (CacheKey * A)) k (x : A) :
  NoDup (pre ++ (k, x) :: post).*1 →
  dict_del k (pre ++ (k, x) :: post) = pre ++ post.
Proof.
  rewrite fmap_app, fmap_cons. simpl.
  intros (Hpre & Hdisj & [Hk Hpost]%NoDup_cons)%NoDup_app.
  unfold dict_del. rewrite filter_app, filter_cons. simpl.
  rewrite decide_False by (by intros ?).
  rewrite !filter_all; [done| |].
  - intros [k' y] Hin. simpl. intros ->. apply Hk.
    apply list_elem_of_fmap. by exists (k, y).
  - intros [k' y] Hin. simpl. intros ->. apply (Hdisj k).
    + apply list_elem_of_fmap. by exists (k, y).
    + apply elem_of_cons. by left.
Qed.

Lemma dict_set_fresh {A} (d : list (CacheKey * A)) k (x : A) :
  k ∉ d.*1 → dict_set k x d = d ++ [(k, x)].
Proof.
  induction d as [|[k' y] d IH]; intros Hk; [done|].
  rewrite fmap_cons in Hk. simpl in Hk.
  apply not_elem_of_cons in Hk as [Hne Hk].
  cbn [dict_set]. rewrite decide_False by done. by rewrite IH.
Qed.

End policy_facts.

(** X9. LRU, reading protects: with a full recency list [k1, k2, ...] on an
    open backend, a [get] that hits [k1] makes [k1] the most recently used
    key, so the next [set] of a new key evicts [k2] and keeps [k1]; without
    the read, the same [set] evicts [k1]. *)
Theorem lru_read_protects {V : Type} (s : LRUEvictionStrategy.t) (b : Backend V)
    (now1 now2 : Z) (k1 k2 : CacheKey) (others : list CacheKey) (x : V)
    (new : CacheKey) (value : option V) (ttl : option Z) :
  _closed b = false →
  LRUEvictionStrategy._access_order s = k1 :: k2 :: others →
  NoDup (new :: k1 :: k2 :: others) →
  LRUEvictionStrategy.max_size s = Z.of_nat (length (k1 :: k2 :: others)) →
  _store b !! k1 = Some (Some x) →
  BaseBackend._is_expired now1 k1 b = false →
  (shadow_keys (exec [(now1, SGet k1 None); (now2, SSet new value ttl)] (LRU s, b)).1
     = others ++ [k1; new]
   ∧ _store (exec [(now1, SGet k1 None); (now2, SSet new value ttl)] (LRU s, b)).2
       !! k1 = Some (Some x)
   ∧ _store (exec [(now1, SGet k1 None); (now2, SSet new value ttl)] (LRU s, b)).2
       !! k2 = None)
  ∧ (shadow_keys (exec [(now2, SSet new value ttl)] (LRU s, b)).1
       = k2 :: others ++ [new]
     ∧ _store (exec [(now2, SSet new value ttl)] (LRU s, b)).2 !! k1 = None).
Proof.
  intros Ec Hod Hnd Hfull Hk1 Hx.
  apply NoDup_cons in Hnd as [Hnew Hnd].
  pose proof Hnd as [Hk1' Hnd']%NoDup_cons.
  pose proof Hnd' as [Hk2' Hnd'']%NoDup_cons.
  assert (new ≠ k1) as Hn1 by (intros ->; apply Hnew, elem_of_cons; by left).
  assert (new ≠ k2) as Hn2.
  { intros ->. apply Hnew, elem_of_cons. right. apply elem_of_cons. by left. }
  assert (k1 ≠ k2) as H12 by (intros ->; apply Hk1', elem_of_cons; by left).
  assert (new ∉ others) as Hno.
  { intros ?. apply Hnew. by do 2 (apply elem_of_cons; right). }
  assert (k1 ∉ others) as H1o.
  { intros ?. apply Hk1'. by apply elem_of_cons; right. }
  split.
  - (* with the read *)
    simpl. rewrite (step_get_open now1 k1 None (LRU s) b Ec).
    rewrite Hx, Hk1. simpl.
    destruct (open_get now1 k1 b Ec) as (_ & Hs1 & Ec1 & _). rewrite Hx in Hs1.
    rewrite step_set_open by done.
    unfold needs_eviction. simpl. rewrite Hod.
    assert ((if od_contains k1 (k1 :: k2 :: others)
             then od_move_to_end k1 (k1 :: k2 :: others)
             else od_set k1 (k1 :: k2 :: others)) = k2 :: others ++ [k1]) as ->.
    { unfold od_contains.
      rewrite bool_decide_eq_true_2 by (apply elem_of_cons; by left).
      by apply (od_move_to_end_head k1 (k2 :: others)). }
    rewrite (bool_decide_eq_false_2 (new ∈ _))
      by (apply not_elem_of_cons; split; [done|by apply not_elem_of_snoc]).
    rewrite bool_decide_eq_true_2.
    2:{ rewrite Hfull. simpl. rewrite length_app. simpl. lia. }
    simpl.
    destruct (open_delete_fields k2 _ Ec1) as (Hs2 & Ec2 & _).
    destruct (open_set now2 new value ttl _ Ec2) as (_ & Hs3 & _).
    rewrite Hs3, Hs2, Hs1.
    assert (od_del k2 (k2 :: others ++ [k1]) = others ++ [k1]) as ->.
    { apply od_del_head. apply not_elem_of_snoc; [done|]. by intros ->. }
    rewrite od_touch_fresh by (by apply not_elem_of_snoc).
    split_and!.
    + by rewrite <- app_assoc.
    + by rewrite lookup_insert_ne, lookup_delete_ne.
    + by rewrite lookup_insert_ne, lookup_delete_eq.
  - (* without it *)
    simpl. rewrite step_set_open by done.
    unfold needs_eviction. simpl. rewrite Hod.
    rewrite (bool_decide_eq_false_2 (new ∈ _)) by done.
    rewrite bool_decide_eq_true_2 by (rewrite Hfull; lia).
    simpl.
    destruct (open_delete_fields k1 b Ec) as (Hs2 & Ec2 & _).
    destruct (open_set now2 new value ttl _ Ec2) as (_ & Hs3 & _).
    rewrite Hs3, Hs2.
    rewrite (od_del_head k1 (k2 :: others)) by done.
    rewrite od_touch_fresh by (by apply not_elem_of_cons).
    split; [done|]. by rewrite lookup_insert_ne, lookup_delete_eq.
Qed.

Lemma lru_read_protects_witness :
  shadow_keys (exec [(2%Z, SGet "a" None); (3%Z, SSet "c" (Some 3%Z) None)]
                 sample_lru_full).1 = ["a"; "c"]
  ∧ _store (exec [(2%Z, SGet "a" None); (3%Z, SSet "c" (Some 3%Z) None)]
              sample_lru_full).2 !! "b" = None
  ∧ _store (exec [(3%Z, SSet "c" (Some 3%Z) None)] sample_lru_full).2 !! "a" = None.
Proof.
  assert (NoDup ["c"; "a"; "b"]) as Hnd.
  { apply (bool_decide_unpack _). vm_compute. exact I. }
  destruct (lru_read_protects
              (LRUEvictionStrategy.mk "lru" 2 ["a"; "b"]) sample_lru_full.2
              2 3 "a" "b" [] 1%Z "c" (Some 3%Z) None
              eq_refl eq_refl Hnd eq_refl eq_refl eq_refl)
    as ((Hidx & _ & Hb) & (_ & Ha)).
  split_and!; [exact Hidx|exact Hb|exact Ha].
Defined.

(** X10. LFU evicts the least frequently used key, the earliest inserted
    among equals: when [set] admits a new key to a full index on an open
    backend, the key it deletes from the backend has a count that is
    strictly below the count of every key inserted before it and at most
    the count of every key inserted after it; the counters of the other
    keys stay as they are and the new key starts at 0. *)
Theorem lfu_evicts_least_frequent {V : Type} (s : LFUEvictionStrategy.t)
    (b : Backend V) (now : Z) (key : CacheKey) (value : option V) (ttl : option Z) :
  _closed b = false →
  NoDup (LFUEvictionStrategy._access_counts s).*1 →
  key ∉ (LFUEvictionStrategy._access_counts s).*1 →
  LFUEvictionStrategy._access_counts s ≠ [] →
  (LFUEvictionStrategy.max_size s
   ≤ Z.of_nat (length (LFUEvictionStrategy._access_counts s)))%Z →
  ∃ v c pre post,
    LFUEvictionStrategy._access_counts s = pre ++ (v, c) :: post
    ∧ Forall (λ x, (c < x.2)%Z) pre
    ∧ Forall (λ x, (c ≤ x.2)%Z) post
    ∧ (step now (SSet key value ttl) (LFU s, b)).1 = Return (RBool true)
    ∧ (step now (SSet key value ttl) (LFU s, b)).2.1
      = LFU (LFUEvictionStrategy.with_access_counts (pre ++ post ++ [(key, 0%Z)]) s)
    ∧ _store (step now (SSet key value ttl) (LFU s, b)).2.2 !! v = None
    ∧ _store (step now (SSet key value ttl) (LFU s, b)).2.2 !! key = Some value.
Proof.
  intros Ec Hnd Hnew Hne Hfull.
  destruct (min_item_is_Some _ Hne) as [[v c] Hmin].
  destruct (min_item_spec _ v c Hmin) as (pre & post & Hd & Hpre & Hpost).
  exists v, c, pre, post.
  assert (v ≠ key) as Hvk.
  { intros ->. apply Hnew. rewrite Hd, fmap_app, fmap_cons.
    apply elem_of_app. right. apply elem_of_cons. by left. }
  rewrite step_set_open by done. unfold needs_eviction. simpl.
  rewrite length_fmap.
  rewrite bool_decide_eq_false_2, bool_decide_eq_true_2 by done. simpl.
  rewrite Hmin. simpl.
  destruct (open_delete_fields v b Ec) as (Hs1 & Ec1 & _).
  destruct (open_set now key value ttl _ Ec1) as (_ & Hs2 & _).
  assert (dict_del v (LFUEvictionStrategy._access_counts s) = pre ++ post) as Hdel.
  { rewrite Hd. apply dict_del_middle. by rewrite <- Hd. }
  assert (key ∉ (pre ++ post).*1) as Hnew'.
  { rewrite <- Hdel, dict_del_keys, elem_of_od_del. tauto. }
  rewrite Hdel. unfold dict_contains.
  rewrite bool_decide_eq_false_2 by done. simpl.
  rewrite dict_set_fresh by done.
  split_and!; try done.
  - by rewrite <- app_assoc.
  - by rewrite Hs2, lookup_insert_ne, Hs1, lookup_delete_eq.
  - by rewrite Hs2, lookup_insert_eq.
Qed.

Lemma lfu_evicts_least_frequent_witness :
  ∃ v c pre post,
    [("a", 2%Z); ("b", 1%Z); ("c", 1%Z)] = pre ++ (v, c) :: post
    ∧ Forall (λ x : CacheKey * Z, (c < x.2)%Z) pre
    ∧ (step 9 (SSet "d" (Some 4%Z) None)
         (LFU (LFUEvictionStrategy.mk "lfu" 3 [("a", 2%Z); ("b", 1%Z); ("c", 1%Z)]),
          MemoryBackend.__init__ "memory" true : Backend Z)).2.1
      = LFU (LFUEvictionStrategy.mk "lfu" 3 (pre ++ post ++ [("d", 0%Z)])).
Proof.
  assert (NoDup ["a"; "b"; "c"]) as Hnd.
  { apply (bool_decide_unpack _). vm_compute. exact I. }
  assert ("d" ∉ ["a"; "b"; "c"]) as Hnew.
  { apply (bool_decide_unpack _). vm_compute. exact I. }
  destruct (lfu_evicts_least_frequent
              (LFUEvictionStrategy.mk "lfu" 3 [("a", 2%Z); ("b", 1%Z); ("c", 1%Z)])
              (MemoryBackend.__init__ "memory" true : Backend Z)
              9 "d" (Some 4%Z) None eq_refl Hnd Hnew ltac:(discriminate)
              ltac:(simpl; lia))
    as (v & c & pre & post & Hd & Hpre & _ & _ & Hs & _).
  exists v, c, pre, post. split_and!; [exact Hd|exact Hpre|exact Hs].
Defined.

(** X11. Writing a key that is already in the shadow index never evicts:
    for each of the three strategies on an open backend, whatever the fill
    level, [set] returns [True], stores the value and removes no key from
    the index. FIFO leaves its queue as it is (the key keeps its place in
    the eviction order), LFU leaves its counters as they are, and LRU moves
    the key to the most recently used end. *)
Theorem update_never_evicts {V : Type} (s : EvictionStrategy) (b : Backend V)
    (now : Z) (key : CacheKey) (value : option V) (ttl : option Z) :
  _closed b = false →
  key ∈ shadow_keys s →
  step now (SSet key value ttl) (s, b)
    = (Return (RBool true), (enlist key s, (BaseBackend.set now key value ttl b).2))
  ∧ _store (step now (SSet key value ttl) (s, b)).2.2 = <[key := value]> (_store b)
  ∧ evicted_by now (SSet key value ttl) (s, b) = []
  ∧ (∀ k, k ∈ shadow_keys (step now (SSet key value ttl) (s, b)).2.1
          ↔ k ∈ shadow_keys s)
  ∧ match s with
    | FIFO _ | LFU _ => (step now (SSet key value ttl) (s, b)).2.1 = s
    | LRU _ =>
        shadow_keys (step now (SSet key value ttl) (s, b)).2.1
        = od_del key (shadow_keys s) ++ [key]
    end.
Proof.
  intros Ec Hin.
  assert (step now (SSet key value ttl) (s, b)
          = (Return (RBool true),
             (enlist key s, (BaseBackend.set now key value ttl b).2))) as Hstep.
  { rewrite step_set_open by done. unfold needs_eviction.
    by rewrite bool_decide_eq_true_2. }
  destruct (open_set now key value ttl b Ec) as (_ & Hs & _).
  assert (∀ k, k ∈ shadow_keys (enlist key s) ↔ k ∈ shadow_keys s) as Hkeys.
  { intros k. rewrite elem_of_shadow_enlist. split; [|auto]. by intros [->|?]. }
  unfold evicted_by. rewrite Hstep. simpl.
  split_and!; try done.
  - apply filter_none. intros k Hk Hn. apply Hn. by apply Hkeys.
  - destruct s as [s|s|s]; simpl in *.
    + unfold od_set, od_contains. rewrite (bool_decide_eq_true_2 _ Hin).
      unfold od_move_to_end, od_contains.
      by rewrite (bool_decide_eq_true_2 _ Hin).
    + unfold dict_contains. by rewrite bool_decide_eq_true_2.
    + by rewrite bool_decide_eq_true_2.
Qed.

Lemma update_never_evicts_witness :
  evicted_by 5 (SSet "a" (Some 9%Z) None) sample_lru_full = []
  ∧ shadow_keys (step 5 (SSet "a" (Some 9%Z) None) sample_lru_full).2.1 = ["b"; "a"].
Proof.
  assert ("a" ∈ shadow_keys sample_lru_full.1) as Hin.
  { apply (bool_decide_unpack _). vm_compute. exact I. }
  destruct (update_never_evicts sample_lru_full.1 sample_lru_full.2 5 "a"
              (Some 9%Z) None eq_refl Hin) as (_ & _ & Hev & _ & Hidx).
  split; [exact Hev|exact Hidx].
Defined.

(** ** Write-back: the queue and its flushes *)
Section write_back_queue.
Context {V D : Type}.
Implicit Types (self : WriteBackStrategy.t V D) (d : D) (b : Backend V)
  (cb : WriteCallback V D) (q items : list (CacheKey * option V)).

Lemma dict_set_set {A} (q : list (CacheKey * A)) k (x y : A) :
  dict_set k y (dict_set k x q) = dict_set k y q.
Proof.
  induction q as [|[k' z] q IH]; simpl.
  - by rewrite decide_True.
  - destruct (decide (k' = k)) as [->|Hne]; simpl.
    + by rewrite decide_True.
    + by rewrite decide_False, IH.
Qed.

Lemma dict_get_set {A} (q : list (CacheKey * A)) k (x : A) :
  dict_get k (dict_set k x q) = Some x.
Proof.
  induction q as [|[k' z] q IH]; simpl.
  - by rewrite decide_True.
  - destruct (decide (k' = k)) as [->|Hne]; simpl.
    + by rewrite decide_True.
    + by rewrite decide_False.
Qed.

Lemma NoDup_dict_set {A} (q : list (CacheKey * A)) k (x : A) :
  NoDup q.*1 → NoDup (dict_set k x q).*1.
Proof.
  intros Hnd. rewrite dict_set_keys. case_bool_decide; [done|].
  apply NoDup_app. split_and!; [done| |apply NoDup_singleton].
  intros y Hy ->%list_elem_of_singleton. done.
Qed.

(** The data store after the callback has been called on each item in
    turn, whether the calls return or raise. *)
Lemma flush_items_ok cb items self d :
  (∀ k v d', (cb k v d').1 = Return tt) →
  WriteBackStrategy.flush_items cb items (self, d)
  = (Return tt, (self, foldl (λ d' kv, (cb kv.1 kv.2 d').2) d items)).
Proof.
  intros Hok. revert d. induction items as [|[k v] items IH]; intros d; [done|].
  cbn [WriteBackStrategy.flush_items foldl].
  unfold bind at 1. unfold try_except, on_snd. simpl.
  pose proof (Hok k v d) as Hr.
  destruct (cb k v d) as [r d1]. simpl in *. subst r. apply IH.
Qed.

Lemma flush_items_fail cb items q0 self d :
  (∀ k v d', ∃ e, (cb k v d').1 = Raise e) →
  NoDup (q0 ++ items).*1 →
  WriteBackStrategy.flush_items cb items (WriteBackStrategy.with_queue q0 self, d)
  = (Return tt,
     (WriteBackStrategy.with_queue (q0 ++ items) self,
      foldl (λ d' kv, (cb kv.1 kv.2 d').2) d items)).
Proof.
  intros Hfail. revert q0 d.
  induction items as [|[k v] items IH]; intros q0 d Hnd.
  - simpl. by rewrite app_nil_r.
  - cbn [WriteBackStrategy.flush_items foldl].
    unfold bind at 1. unfold try_except, on_snd, on_fst, modify. simpl.
    destruct (Hfail k v d) as [e Hr].
    destruct (cb k v d) as [r d1]. simpl in *. subst r. simpl.
    assert (k ∉ q0.*1) as Hk.
    { rewrite fmap_app, fmap_cons in Hnd.
      apply NoDup_app in Hnd as (_ & Hdisj & _). intros Hin.
      apply (Hdisj k Hin). apply elem_of_cons. by left. }
    rewrite dict_set_fresh by done.
    replace (WriteBackStrategy.with_queue (q0 ++ [(k, v)])
               (WriteBackStrategy.with_queue q0 self))
      with (WriteBackStrategy.with_queue (q0 ++ [(k, v)]) self) by done.
    rewrite IH by (by rewrite <- app_assoc).
    by rewrite <- app_assoc.
Qed.

(** [set] on an open backend with a callback, when no flush is due. *)
Lemma write_back_set_queued now key (value : option V) ttl self d b :
  _closed b = false →
  is_Some (WriteBackStrategy.write_callback self) →
  WriteBackStrategy.should_flush now
    (WriteBackStrategy.with_queue
       (dict_set key value (WriteBackStrategy._write_queue self)) self) = false →
  WriteBackStrategy.set now key value ttl ((self, d), b)
  = (Return true,
     ((WriteBackStrategy.with_queue
         (dict_set key value (WriteBackStrategy._write_queue self)) self, d),
      (BaseBackend.set now key value ttl b).2)).
Proof.
  intros Ec Hcb Hnf.
  unfold WriteBackStrategy.set, bind, gets, ret, on_snd. simpl.
  rewrite (open_set_eq now key value ttl b Ec).
  cbn [fst snd]. rewrite bool_decide_eq_true_2 by done.
  unfold on_fst, modify, WriteBackStrategy._maybe_flush, bind, gets, ret.
  cbn [fst snd andb]. rewrite Hnf. reflexivity.
Qed.

End write_back_queue.

(** X12. A write-back flush with a callback that always returns writes
    every queued pair to the data store, in the order of the queue, empties
    the queue and records the time; with a callback that always raises,
    every pair is back in the queue afterwards, in the same order, and the
    flush itself does not raise. A flush of an empty queue changes nothing,
    not even the time of the last flush. *)
Theorem flush_drains_or_requeues {V D : Type} (self : WriteBackStrategy.t V D)
    (cb : WriteCallback V D) (d : D) (now : Z) :
  WriteBackStrategy.write_callback self = Some cb →
  NoDup (WriteBackStrategy._write_queue self).*1 →
  (WriteBackStrategy._write_queue self = [] →
   WriteBackStrategy.flush now (self, d) = (Return tt, (self, d)))
  ∧ (WriteBackStrategy._write_queue self ≠ [] →
     (∀ k v d', (cb k v d').1 = Return tt) →
     WriteBackStrategy.flush now (self, d)
     = (Return tt,
        (WriteBackStrategy.with_last_flush now
           (WriteBackStrategy.with_queue [] self),
         foldl (λ d' kv, (cb kv.1 kv.2 d').2) d
           (WriteBackStrategy._write_queue self))))
  ∧ (WriteBackStrategy._write_queue self ≠ [] →
     (∀ k v d', ∃ e, (cb k v d').1 = Raise e) →
     WriteBackStrategy.flush now (self, d)
     = (Return tt,
        (WriteBackStrategy.with_last_flush now self,
         foldl (λ d' kv, (cb kv.1 kv.2 d').2) d
           (WriteBackStrategy._write_queue self)))).
Proof.
  intros Hcb Hnd.
  unfold WriteBackStrategy.flush, WriteBackStrategy._flush.
  unfold bind, gets, on_fst, modify, ret. cbn [fst snd]. rewrite Hcb.
  destruct (WriteBackStrategy._write_queue self) as [|kv q] eqn:Eq.
  { split_and!; done. }
  split_and!; [done| |]; intros _ Hall.
  - exact (flush_items_ok cb (kv :: q) _ d Hall).
  - etrans; [exact (flush_items_fail cb (kv :: q) []
                      (WriteBackStrategy.with_last_flush now self) d Hall Hnd)|].
    destruct self. simpl in *. by subst.
Qed.

Lemma flush_drains_or_requeues_witness :
  let self :=
    WriteBackStrategy.mk "write_back" (Some recording_store) 10 5
      [("a", Some 1%Z); ("b", Some 2%Z)] 0 in
  WriteBackStrategy.flush 3 (self, [])
  = (Return tt,
     (WriteBackStrategy.with_last_flush 3 (WriteBackStrategy.with_queue [] self),
      [("a", Some 1%Z); ("b", Some 2%Z)]))
  ∧ WriteBackStrategy.flush 3
      (WriteBackStrategy.mk "write_back" (Some failing_store) 10 5
         [("a", Some 1%Z); ("b", Some 2%Z)] 0, [])
    = (Return tt,
       (WriteBackStrategy.mk "write_back" (Some failing_store) 10 5
          [("a", Some 1%Z); ("b", Some 2%Z)] 3, [])).
Proof.
  intros self.
  assert (NoDup ["a"; "b"]) as Hnd.
  { apply (bool_decide_unpack _). vm_compute. exact I. }
  destruct (flush_drains_or_requeues self recording_store [] 3 eq_refl Hnd)
    as (_ & Hok & _).
  destruct (flush_drains_or_requeues
              (WriteBackStrategy.mk "write_back" (Some failing_store) 10 5
                 [("a", Some 1%Z); ("b", Some 2%Z)] 0)
              failing_store [] 3 eq_refl Hnd) as (_ & _ & Hfail).
  split.
  - apply Hok; [discriminate|reflexivity].
  - apply Hfail; [discriminate|]. intros k v d'. by exists CallbackError.
Defined.

(** X13. Write-back coalesces: two [set]s of the same key on an open
    backend, with a callback configured and no flush due at either, leave
    one queue entry for the key, holding the second value, at the place a
    single [set] of that value would have put it; the data store has not
    been touched, so the first value never reaches it. The backend holds
    the second value. *)
Theorem write_back_coalesces {V D : Type} (self : WriteBackStrategy.t V D)
    (d : D) (b : Backend V) (now1 now2 : Z) (key : CacheKey)
    (v1 v2 : option V) (ttl1 ttl2 : option Z) :
  _closed b = false →
  is_Some (WriteBackStrategy.write_callback self) →
  WriteBackStrategy.should_flush now1
    (WriteBackStrategy.with_queue
       (dict_set key v1 (WriteBackStrategy._write_queue self)) self) = false →
  WriteBackStrategy.should_flush now2
    (WriteBackStrategy.with_queue
       (dict_set key v2 (WriteBackStrategy._write_queue self)) self) = false →
  (WriteBackStrategy.set now2 key v2 ttl2
     (WriteBackStrategy.set now1 key v1 ttl1 ((self, d), b)).2).2.1
    = (WriteBackStrategy.with_queue
         (dict_set key v2 (WriteBackStrategy._write_queue self)) self, d)
  ∧ dict_get key (dict_set key v2 (WriteBackStrategy._write_queue self)) = Some v2
  ∧ _store (WriteBackStrategy.set now2 key v2 ttl2
              (WriteBackStrategy.set now1 key v1 ttl1 ((self, d), b)).2).2.2
      !! key = Some v2.
Proof.
  intros Ec Hcb Hnf1 Hnf2.
  rewrite (write_back_set_queued now1 key v1 ttl1 self d b) by done.
  destruct (open_set now1 key v1 ttl1 b Ec) as (_ & _ & Ec1 & _).
  cbn [snd].
  rewrite write_back_set_queued.
  - cbn [fst snd]. destruct (open_set now2 key v2 ttl2 _ Ec1) as (_ & Hs & _).
    rewrite Hs, lookup_insert_eq. simpl. rewrite dict_set_set.
    split_and!; [done|apply dict_get_set|done].
  - done.
  - done.
  - simpl. rewrite dict_set_set. exact Hnf2.
Qed.

Lemma write_back_coalesces_witness :
  let self := WriteBackStrategy.__init__ 0 (Some recording_store) 10 5 "write_back" in
  (WriteBackStrategy.set 2 "k" (Some 8%Z) None
     (WriteBackStrategy.set 1 "k" (Some 7%Z) None
        ((self, []), MemoryBackend.__init__ "memory" true)).2).2.1
  = (WriteBackStrategy.with_queue [("k", Some 8%Z)] self, []).
Proof.
  intros self.
  destruct (write_back_coalesces self [] (MemoryBackend.__init__ "memory" true)
              1 2 "k" (Some 7%Z) (Some 8%Z) None None eq_refl)
    as (Hq & _); [by eexists|reflexivity|reflexivity|].
  exact Hq.
Defined.

(** X14. A write-back [set] that fills the batch, or that comes when the
    flush interval has passed, flushes at once: on an open backend, with a
    callback that always returns, the queue is empty when [set] returns,
    the data store has received every pair that was waiting and the new
    one, in queue order, and the time of the last flush is the time of the
    call. *)
Theorem write_back_flushes_when_due {V D : Type} (self : WriteBackStrategy.t V D)
    (cb : WriteCallback V D) (d : D) (b : Backend V) (now : Z) (key : CacheKey)
    (value : option V) (ttl : option Z) :
  _closed b = false →
  WriteBackStrategy.write_callback self = Some cb →
  (∀ k v d', (cb k v d').1 = Return tt) →
  (WriteBackStrategy.batch_size self
   ≤ Z.of_nat (length (dict_set key value (WriteBackStrategy._write_queue self)))
   ∨ WriteBackStrategy.flush_interval self
     ≤ now - WriteBackStrategy._last_flush self)%Z →
  WriteBackStrategy.set now key value ttl ((self, d), b)
  = (Return true,
     ((WriteBackStrategy.with_last_flush now (WriteBackStrategy.with_queue [] self),
       foldl (λ d' kv, (cb kv.1 kv.2 d').2) d
         (dict_set key value (WriteBackStrategy._write_queue self))),
      (BaseBackend.set now key value ttl b).2)).
Proof.
  intros Ec Hcb Hok Hdue.
  assert (is_Some (WriteBackStrategy.write_callback self)) as Hsome
    by (rewrite Hcb; eauto).
  unfold WriteBackStrategy.set, bind, gets, ret, on_snd. simpl.
  rewrite (open_set_eq now key value ttl b Ec).
  cbn [fst snd]. rewrite bool_decide_eq_true_2 by done.
  unfold on_fst, modify, WriteBackStrategy._maybe_flush, bind, gets, ret.
  cbn [fst snd andb].
  assert (WriteBackStrategy.should_flush now
            (WriteBackStrategy.with_queue
               (dict_set key value (WriteBackStrategy._write_queue self)) self)
          = true) as ->.
  { unfold WriteBackStrategy.should_flush. simpl.
    apply orb_true_iff. destruct Hdue; [left|right]; by apply bool_decide_eq_true_2. }
  replace (bool_decide (is_Some (WriteBackStrategy.write_callback
             (WriteBackStrategy.with_queue
                (dict_set key value (WriteBackStrategy._write_queue self)) self))))
    with true by (symmetry; by apply bool_decide_eq_true_2).
  cbn [andb].
  unfold WriteBackStrategy._flush, bind, gets, on_fst, modify, ret. cbn [fst snd].
  change (WriteBackStrategy._write_queue
            (WriteBackStrategy.with_queue
               (dict_set key value (WriteBackStrategy._write_queue self)) self))
    with (dict_set key value (WriteBackStrategy._write_queue self)).
  change (WriteBackStrategy.write_callback
            (WriteBackStrategy.with_queue
               (dict_set key value (WriteBackStrategy._write_queue self)) self))
    with (WriteBackStrategy.write_callback self).
  rewrite Hcb.
  destruct (dict_set key value (WriteBackStrategy._write_queue self))
    as [|kv q] eqn:Eq.
  { destruct (WriteBackStrategy._write_queue self) as [|[k' v'] q'];
      simpl in Eq; [done|]. by destruct (decide (k' = key)). }
  match goal with
  | |- context [WriteBackStrategy.flush_items cb (kv :: q) (?s0, ?d0)] =>
      rewrite (flush_items_ok cb (kv :: q) s0 d0 Hok)
  end.
  reflexivity.
Qed.

Lemma write_back_flushes_when_due_witness :
  let self :=
    WriteBackStrategy.mk "write_back" (Some recording_store) 2 100
      [("a", Some 1%Z)] 0 in
  WriteBackStrategy.set 1 "b" (Some 2%Z) None
    ((self, []), MemoryBackend.__init__ "memory" true)
  = (Return true,
     ((WriteBackStrategy.with_last_flush 1 (WriteBackStrategy.with_queue [] self),
       [("a", Some 1%Z); ("b", Some 2%Z)]),
      (BaseBackend.set 1 "b" (Some 2%Z) None (MemoryBackend.__init__ "memory" true)).2)).
Proof.
  intros self.
  apply (write_back_flushes_when_due self recording_store []
           (MemoryBackend.__init__ "memory" true) 1 "b" (Some 2%Z) None);
    [reflexivity|reflexivity|reflexivity|].
  left. simpl. lia.
Defined.

(** ** The strategies' miss paths *)
Section miss_paths.
Context {V : Type}.
Implicit Types (b : Backend V) (key : CacheKey) (value : option V).

(** An entry written without ttl is read back at any later time. *)
Lemma get_after_plain_set now now' key value b :
  _closed b = false →
  (BaseBackend.get now' key (BaseBackend.set now key value None b).2).1
  = Return value.
Proof.
  intros Ec.
  destruct (open_set now key value None b Ec) as (_ & Hs & Ec1 & _).
  pose proof (is_expired_after_set now now' key value None b Ec) as Hx.
  rewrite andb_false_r in Hx.
  destruct (open_get now' key _ Ec1) as (-> & _).
  by rewrite Hx, Hs, lookup_insert_eq.
Qed.

(** The backend's answer on an open backend. *)
Lemma open_get_pair now key b :
  _closed b = false →
  BaseBackend.get now key b
  = (Return (if BaseBackend._is_expired now key b then None
             else mjoin (_store b !! key)),
     (BaseBackend.get now key b).2).
Proof.
  intros Ec. destruct (open_get now key b Ec) as (Hr & _).
  destruct (BaseBackend.get now key b) as [r b1]. simpl in *. by subst.
Qed.

Lemma cache_aside_get_open now key cb (self : CacheAsideStrategy.t) b :
  _closed b = false →
  CacheAsideStrategy.get now key cb (self, b)
  = match (if BaseBackend._is_expired now key b then None
           else mjoin (_store b !! key)), cb with
    | None, Some f =>
        match f key with
        | Return (Some x) =>
            (Return (Some x),
             (self, (BaseBackend.set now key (Some x) None
                       (BaseBackend.get now key b).2).2))
        | Return None => (Return None, (self, (BaseBackend.get now key b).2))
        | Raise e => (Raise e, (self, (BaseBackend.get now key b).2))
        end
    | v, _ => (Return v, (self, (BaseBackend.get now key b).2))
    end.
Proof.
  intros Ec. destruct (open_get now key b Ec) as (_ & _ & Ec1 & _).
  unfold CacheAsideStrategy.get, bind, on_snd, ret. cbn [fst snd].
  rewrite (open_get_pair now key b Ec).
  destruct (if BaseBackend._is_expired now key b then _ else _) as [x|];
    cbn [fst snd].
  - by destruct cb.
  - destruct cb as [f|]; [|done].
    destruct (f key) as [[x|]|e]; [|done..].
    cbn [fst snd]. by rewrite (open_set_eq now key (Some x) None _ Ec1).
Qed.

End miss_paths.

(** X15. Cache-aside [get] on an open backend. A hit returns the stored
    value and never asks the callback. On a miss with a callback that
    returns a value, the value is returned and stored without ttl, so every
    later [get], with or without callback and at any time, returns it. A
    callback that returns [None] or raises leaves nothing stored: the
    backend is as the read left it. *)
Theorem cache_aside_fills_on_miss {V : Type} (self : CacheAsideStrategy.t)
    (b : Backend V) (now now' : Z) (key : CacheKey)
    (cb cb' : option (CacheMissCallback V)) :
  _closed b = false →
  (∀ x, (BaseBackend.get now key b).1 = Return (Some x) →
     CacheAsideStrategy.get now key cb (self, b)
     = (Return (Some x), (self, (BaseBackend.get now key b).2)))
  ∧ ((BaseBackend.get now key b).1 = Return None →
     ∀ f, cb = Some f →
       match f key with
       | Return (Some x) =>
           CacheAsideStrategy.get now key cb (self, b)
           = (Return (Some x),
              (self, (BaseBackend.set now key (Some x) None
                        (BaseBackend.get now key b).2).2))
           ∧ (CacheAsideStrategy.get now' key cb'
                (CacheAsideStrategy.get now key cb (self, b)).2).1
             = Return (Some x)
       | Return None =>
           CacheAsideStrategy.get now key cb (self, b)
           = (Return None, (self, (BaseBackend.get now key b).2))
       | Raise e =>
           CacheAsideStrategy.get now key cb (self, b)
           = (Raise e, (self, (BaseBackend.get now key b).2))
       end).
Proof.
  intros Ec. destruct (open_get now key b Ec) as (Hr & _ & Ec1 & _).
  rewrite (cache_aside_get_open now key cb self b Ec). rewrite Hr.
  split.
  - intros x [= ->]. by destruct cb.
  - intros [= ->] f ->.
    destruct (f key) as [[x|]|e] eqn:Ef; [|done..].
    split; [done|]. cbn [snd].
    destruct (open_set now key (Some x) None _ Ec1) as (_ & _ & Ec2 & _).
    rewrite (cache_aside_get_open now' key cb' self _ Ec2).
    pose proof (get_after_plain_set now now' key (Some x) _ Ec1) as Hg.
    destruct (open_get now' key _ Ec2) as (Hr2 & _).
    rewrite Hr2 in Hg. injection Hg as ->. by destruct cb'.
Qed.

Lemma cache_aside_fills_on_miss_witness :
  let w := (CacheAsideStrategy.mk "cache_aside",
            MemoryBackend.__init__ "memory" true : Backend Z) in
  CacheAsideStrategy.get 0 "u:1" (Some (λ _, Return (Some 7%Z))) w
  = (Return (Some 7%Z),
     (w.1, (BaseBackend.set 0 "u:1" (Some 7%Z) None (BaseBackend.get 0 "u:1" w.2).2).2))
  ∧ (CacheAsideStrategy.get 99 "u:1" None
       (CacheAsideStrategy.get 0 "u:1" (Some (λ _, Return (Some 7%Z))) w).2).1
    = Return (Some 7%Z).
Proof.
  intros w.
  destruct (cache_aside_fills_on_miss (CacheAsideStrategy.mk "cache_aside")
              (MemoryBackend.__init__ "memory" true : Backend Z) 0 99 "u:1"
              (Some (λ _, Return (Some 7%Z))) None eq_refl) as (_ & Hmiss).
  exact (Hmiss eq_refl _ eq_refl).
Defined.

Section base_get.
Context {V St : Type}.
Implicit Types (b : Backend V) (key : CacheKey) (st : St).

(** [BaseStrategy.get] on an open backend: a miss with a callback goes
    through the subclass's [set], without ttl. *)
Lemma base_get_open
    (self_set : Z → CacheKey → option V → option Z → M (St * Backend V) bool)
    now key cb st b :
  _closed b = false →
  BaseStrategy.get self_set now key cb (st, b)
  = match (if BaseBackend._is_expired now key b then None
           else mjoin (_store b !! key)), cb with
    | None, Some f =>
        match f key with
        | Return (Some x) =>
            (match (self_set now key (Some x) None
                      (st, (BaseBackend.get now key b).2)).1 with
             | Return _ => Return (Some x)
             | Raise e => Raise e
             end,
             (self_set now key (Some x) None (st, (BaseBackend.get now key b).2)).2)
        | Return None => (Return None, (st, (BaseBackend.get now key b).2))
        | Raise e => (Raise e, (st, (BaseBackend.get now key b).2))
        end
    | v, _ => (Return v, (st, (BaseBackend.get now key b).2))
    end.
Proof.
  intros Ec.
  unfold BaseStrategy.get, bind, on_snd, ret. cbn [fst snd].
  rewrite (open_get_pair now key b Ec).
  destruct (if BaseBackend._is_expired now key b then _ else _) as [x|];
    cbn [fst snd].
  - by destruct cb.
  - destruct cb as [f|]; [|done].
    destruct (f key) as [[x|]|e]; [|done..].
    by destruct (self_set now key (Some x) None _) as [[r|e] w'].
Qed.

End base_get.

(** X16. Read-through [get] on an open backend, on a miss. The callback of
    the call, when there is one, is used instead of the configured
    [read_callback]. A value it returns is returned and stored without
    ttl; [None] is returned as it is and nothing is stored; whatever the
    callback raises comes out as [RuntimeError], with nothing stored. With
    neither callback the miss is returned. *)
Theorem read_through_miss {V : Type} (self : ReadThroughStrategy.t V)
    (b : Backend V) (now : Z) (key : CacheKey)
    (miss_callback : option (CacheMissCallback V)) :
  _closed b = false →
  (BaseBackend.get now key b).1 = Return None →
  ReadThroughStrategy.get now key miss_callback (self, b)
  = match (match miss_callback with
           | Some f => Some f
           | None => ReadThroughStrategy.read_callback self
           end) with
    | Some f =>
        match f key with
        | Return (Some x) =>
            (Return (Some x),
             (self, (BaseBackend.set now key (Some x) None
                       (BaseBackend.get now key b).2).2))
        | Return None => (Return None, (self, (BaseBackend.get now key b).2))
        | Raise e => (Raise RuntimeError, (self, (BaseBackend.get now key b).2))
        end
    | None => (Return None, (self, (BaseBackend.get now key b).2))
    end.
Proof.
  intros Ec Hmiss. destruct (open_get now key b Ec) as (_ & _ & Ec1 & _).
  unfold ReadThroughStrategy.get, ReadThroughStrategy.callback.
  unfold bind at 1 2. unfold gets, on_snd at 1. cbn [fst snd].
  destruct (BaseBackend.get now key b) as [r b1]. cbn [fst snd] in *. subst r.
  destruct (match miss_callback with Some f => Some f | None => _ end) as [f|];
    [|done].
  unfold try_except, bind, ret, raise, on_snd. cbn [fst snd].
  destruct (f key) as [[x|]|e]; try reflexivity.
  cbn [fst snd]. by rewrite (open_set_eq now key (Some x) None b1 Ec1).
Qed.

Lemma read_through_miss_witness :
  let self := ReadThroughStrategy.mk "read_through" (Some (λ _, Return (Some 1%Z))) in
  let b := MemoryBackend.__init__ "memory" true : Backend Z in
  (ReadThroughStrategy.get 0 "k" (Some (λ _, Raise ValueError)) (self, b)).1
    = Raise RuntimeError
  ∧ (ReadThroughStrategy.get 0 "k" None (self, b)).1 = Return (Some 1%Z).
Proof.
  intros self b. split.
  - exact (f_equal fst
             (read_through_miss self b 0 "k" (Some (λ _, Raise ValueError))
                eq_refl eq_refl)).
  - exact (f_equal fst (read_through_miss self b 0 "k" None eq_refl eq_refl)).
Defined.

(** X17. The TTL strategy's [get] fills a miss through its own [set], with
    no ttl of the call. So on an open backend, when the key misses and the
    callback returns a value: a strategy without [default_ttl] raises
    [StrategyError] and stores nothing; a strategy with a positive
    [default_ttl] returns the value and stores it with that ttl, and on a
    backend that keeps metadata a later [get] without callback returns it
    before [now + default_ttl] and [None] from then on. *)
Theorem ttl_get_fills_with_default {V : Type} (self : TTLStrategy.t)
    (b : Backend V) (now now' : Z) (key : CacheKey) (f : CacheMissCallback V)
    (x : V) :
  _closed b = false →
  (BaseBackend.get now key b).1 = Return None →
  f key = Return (Some x) →
  (TTLStrategy.default_ttl self = None →
   TTLStrategy.get now key (Some f) (self, b)
   = (Raise StrategyError, (self, (BaseBackend.get now key b).2)))
  ∧ (∀ d, TTLStrategy.default_ttl self = Some d → (0 < d)%Z →
     TTLStrategy.get now key (Some f) (self, b)
     = (Return (Some x),
        (self, (BaseBackend.set now key (Some x) (Some d)
                  (BaseBackend.get now key b).2).2))
     ∧ (enable_metadata b = true →
        (TTLStrategy.get now' key None
           (TTLStrategy.get now key (Some f) (self, b)).2).1
        = Return (if bool_decide (now + d ≤ now')%Z then None else Some x))).
Proof.
  intros Ec Hmiss Hf.
  destruct (open_get now key b Ec) as (Hr & _ & Ec1 & He1).
  rewrite Hr in Hmiss. injection Hmiss as Hv.
  assert (Hfill : TTLStrategy.get now key (Some f) (self, b)
            = match TTLStrategy.default_ttl self with
              | Some d =>
                  if bool_decide (d ≤ 0)%Z
                  then (Raise StrategyError, (self, (BaseBackend.get now key b).2))
                  else (Return (Some x),
                        (self, (BaseBackend.set now key (Some x) (Some d)
                                  (BaseBackend.get now key b).2).2))
              | None => (Raise StrategyError, (self, (BaseBackend.get now key b).2))
              end).
  { unfold TTLStrategy.get.
    rewrite (base_get_open TTLStrategy.set now key (Some f) self b Ec).
    rewrite Hv, Hf.
    unfold TTLStrategy.set, bind, gets, raise, TTLStrategy.effective_ttl.
    cbn [fst snd].
    destruct (TTLStrategy.default_ttl self) as [d|]; [|done].
    case_bool_decide; [done|].
    unfold on_snd. cbn [fst snd].
    by rewrite (open_set_eq now key (Some x) (Some d) _ Ec1). }
  rewrite Hfill. split.
  - by intros ->.
  - intros d -> Hd. rewrite bool_decide_eq_false_2 by lia.
    split; [done|]. intros Heb. cbn [snd].
    destruct (open_set now key (Some x) (Some d) _ Ec1) as (_ & Hs & Ec2 & _).
    unfold TTLStrategy.get.
    rewrite (base_get_open TTLStrategy.set now' key None self _ Ec2).
    rewrite (is_expired_after_set now now' key (Some x) (Some d) _ Ec1).
    rewrite He1, Heb. cbn [andb].
    case_bool_decide; [done|]. by rewrite Hs, lookup_insert_eq.
Qed.

Lemma ttl_get_fills_with_default_witness :
  let b := MemoryBackend.__init__ "memory" true : Backend Z in
  (TTLStrategy.get 0 "k" (Some (λ _, Return (Some 1%Z)))
     (TTLStrategy.mk "ttl" None, b)).1 = Raise StrategyError
  ∧ (TTLStrategy.get 10 "k" None
       (TTLStrategy.get 0 "k" (Some (λ _, Return (Some 1%Z)))
          (TTLStrategy.mk "ttl" (Some 10%Z), b)).2).1 = Return None.
Proof.
  intros b.
  destruct (ttl_get_fills_with_default (TTLStrategy.mk "ttl" None) b 0 10 "k"
              (λ _, Return (Some 1%Z)) 1%Z eq_refl eq_refl eq_refl) as (Hnone & _).
  destruct (ttl_get_fills_with_default (TTLStrategy.mk "ttl" (Some 10%Z)) b 0 10 "k"
              (λ _, Return (Some 1%Z)) 1%Z eq_refl eq_refl eq_refl) as (_ & Hsome).
  split.
  - exact (f_equal fst (Hnone eq_refl)).
  - destruct (Hsome 10%Z eq_refl ltac:(lia)) as (_ & Hlater).
    exact (Hlater eq_refl).
Defined.

(** X18. Write-through [get] fills a miss through its own [set], so the
    value the miss callback has loaded is handed to the write callback
    before it is cached: on an open backend, when the key misses and the
    miss callback returns a value, a write callback that returns lets the
    value into the backend (without ttl), and one that raises makes [get]
    raise [RuntimeError] with nothing cached. *)
Theorem write_through_get_writes_back {V D : Type}
    (self : WriteThroughStrategy.t V D) (wcb : WriteCallback V D) (d : D)
    (b : Backend V) (now : Z) (key : CacheKey) (f : CacheMissCallback V) (x : V) :
  _closed b = false →
  (BaseBackend.get now key b).1 = Return None →
  f key = Return (Some x) →
  WriteThroughStrategy.write_callback self = Some wcb →
  WriteThroughStrategy.get now key (Some f) ((self, d), b)
  = match (wcb key (Some x) d).1 with
    | Return _ =>
        (Return (Some x),
         ((self, (wcb key (Some x) d).2),
          (BaseBackend.set now key (Some x) None (BaseBackend.get now key b).2).2))
    | Raise _ =>
        (Raise RuntimeError,
         ((self, (wcb key (Some x) d).2), (BaseBackend.get now key b).2))
    end.
Proof.
  intros Ec Hmiss Hf Hw.
  destruct (open_get now key b Ec) as (Hr & _ & Ec1 & _).
  unfold WriteThroughStrategy.get.
  rewrite (base_get_open WriteThroughStrategy.set now key (Some f) (self, d) b Ec).
  rewrite Hr in Hmiss. injection Hmiss as ->. rewrite Hf.
  unfold WriteThroughStrategy.set.
  unfold bind, gets, try_except, on_fst, on_snd, raise, ret. cbn [fst snd].
  rewrite Hw. cbn [fst snd].
  destruct (wcb key (Some x) d) as [[[]|e] d']; cbn [fst snd]; [|done].
  by rewrite (open_set_eq now key (Some x) None _ Ec1).
Qed.

Lemma write_through_get_writes_back_witness :
  let b := MemoryBackend.__init__ "memory" true : Backend Z in
  WriteThroughStrategy.get 0 "k" (Some (λ _, Return (Some 1%Z)))
    ((WriteThroughStrategy.mk "write_through" (Some recording_store), []), b)
  = (Return (Some 1%Z),
     ((WriteThroughStrategy.mk "write_through" (Some recording_store),
       [("k", Some 1%Z)]),
      (BaseBackend.set 0 "k" (Some 1%Z) None (BaseBackend.get 0 "k" b).2).2))
  ∧ (WriteThroughStrategy.get 0 "k" (Some (λ _, Return (Some 1%Z)))
       ((WriteThroughStrategy.mk "write_through" (Some failing_store), []), b)).1
    = Raise RuntimeError.
Proof.
  intros b. split.
  - exact (write_through_get_writes_back
             (WriteThroughStrategy.mk "write_through" (Some recording_store))
             recording_store [] b 0 "k" (λ _, Return (Some 1%Z)) 1%Z
             eq_refl eq_refl eq_refl eq_refl).
  - exact (f_equal fst
             (write_through_get_writes_back
                (WriteThroughStrategy.mk "write_through" (Some failing_store))
                failing_store [] b 0 "k" (λ _, Return (Some 1%Z)) 1%Z
                eq_refl eq_refl eq_refl eq_refl)).
Defined.

(** ** Keys do not interfere *)
Section per_key_facts.
Context {V : Type}.
Implicit Types (b : Backend V) (key : CacheKey) (value : option V).

Lemma agree_at_refl key b : agree_at key b b.
Proof. by repeat split. Qed.

Lemma agree_at_trans key b1 b2 b3 :
  agree_at key b1 b2 → agree_at key b2 b3 → agree_at key b1 b3.
Proof.
  intros (? & ? & ? & ?) (? & ? & ? & ?). repeat split; by etrans.
Qed.

Lemma agree_delete key key' b :
  _closed b = false → key ≠ key' → agree_at key' b (BaseBackend.delete key b).2.
Proof.
  intros Ec Hne. rewrite (open_delete key b Ec).
  destruct (bool_decide _); simpl; [|apply agree_at_refl].
  repeat split; simpl; [done| |].
  - by rewrite lookup_delete_ne.
  - destruct (enable_metadata b); [|done]. by rewrite lookup_delete_ne.
Qed.

Lemma agree_update_access now key key' b :
  key ≠ key' → agree_at key' b (BaseBackend._update_access_metadata now key b).2.
Proof.
  intros Hne. unfold BaseBackend._update_access_metadata, modify. simpl.
  destruct (enable_metadata b); [|apply agree_at_refl].
  destruct (_metadata b !! key); [|apply agree_at_refl].
  repeat split; simpl. by rewrite lookup_insert_ne.
Qed.

Lemma agree_get now key key' b :
  _closed b = false → key ≠ key' → agree_at key' b (BaseBackend.get now key b).2.
Proof.
  intros Ec Hne. rewrite (open_get_eq now key b Ec).
  destruct (BaseBackend._is_expired now key b); simpl.
  - by apply agree_delete.
  - destruct (mjoin (_store b !! key)); [|apply agree_at_refl].
    by apply agree_update_access.
Qed.

Lemma agree_exists now key key' b :
  _closed b = false → key ≠ key' → agree_at key' b (BaseBackend.exists_ now key b).2.
Proof.
  intros Ec Hne. rewrite (open_exists_eq now key b Ec).
  destruct (BaseBackend._is_expired now key b); simpl.
  - by apply agree_delete.
  - apply agree_at_refl.
Qed.

Lemma agree_set now key key' value ttl b :
  _closed b = false → key ≠ key' →
  agree_at key' b (BaseBackend.set now key value ttl b).2.
Proof.
  intros Ec Hne.
  destruct (open_set now key value ttl b Ec) as (_ & Hs & Ec1 & He & Hm1 & Hm0).
  repeat split.
  - by rewrite Ec1.
  - done.
  - by rewrite Hs, lookup_insert_ne.
  - destruct (enable_metadata b) eqn:Heb.
    + destruct (Hm1 eq_refl) as (m & -> & _). by rewrite lookup_insert_ne.
    + by rewrite (Hm0 eq_refl).
Qed.

Lemma agree_call now (op : BackendOp V) key key' b :
  _closed b = false → op_key op = Some key → key ≠ key' →
  agree_at key' b (backend_call now op b).2.
Proof.
  intros Ec Hop Hne. destruct op as [k|k v ttl|k|k| |]; simplify_eq/=.
  - pose proof (agree_get now key key' b Ec Hne) as H.
    unfold bind, ret. by destruct (BaseBackend.get now key b) as [[]].
  - pose proof (agree_set now key key' v ttl b Ec Hne) as H.
    unfold bind, ret. by destruct (BaseBackend.set now key v ttl b) as [[]].
  - pose proof (agree_delete key key' b Ec Hne) as H.
    unfold bind, ret. by destruct (BaseBackend.delete key b) as [[]].
  - pose proof (agree_exists now key key' b Ec Hne) as H.
    unfold bind, ret. by destruct (BaseBackend.exists_ now key b) as [[]].
Qed.

Lemma agree_is_expired now key b b' :
  agree_at key b b' →
  BaseBackend._is_expired now key b' = BaseBackend._is_expired now key b.
Proof.
  intros (_ & He & _ & Hm). unfold BaseBackend._is_expired. by rewrite He, Hm.
Qed.

(** Backends that agree at a key answer reads of it alike. *)
Lemma agree_reads now key b b' :
  agree_at key b b' →
  (BaseBackend.get now key b').1 = (BaseBackend.get now key b).1
  ∧ (BaseBackend.exists_ now key b').1 = (BaseBackend.exists_ now key b).1.
Proof.
  intros Ha. pose proof (agree_is_expired now key b b' Ha) as Hx.
  destruct Ha as (Hc & He & Hs & Hm).
  destruct (_closed b) eqn:Ec.
  - by rewrite !closed_get, !closed_exists.
  - rewrite (open_get_eq now key b' Hc), (open_get_eq now key b Ec).
    rewrite (open_exists_eq now key b' Hc), (open_exists_eq now key b Ec).
    rewrite Hx, Hs. by destruct (BaseBackend._is_expired now key b).
Qed.

Lemma agree_exec (ops : list (Z * BackendOp V)) key' b :
  _closed b = false →
  Forall (λ c, ∃ key, op_key c.2 = Some key ∧ key ≠ key') ops →
  agree_at key' b (backend_exec ops b).
Proof.
  intros Ec Hops. revert b Ec.
  induction Hops as [|[now op] ops (key & Hop & Hne) _ IH]; intros b Ec; simpl.
  - apply agree_at_refl.
  - pose proof (agree_call now op key key' b Ec Hop Hne) as Ha.
    eapply agree_at_trans; [exact Ha|].
    apply IH. destruct Ha as (-> & _). done.
Qed.

End per_key_facts.

(** X19. Calls of an open backend about other keys are not seen at a key:
    after any sequence of [get], [set], [delete] and [exists] calls on keys
    other than [key'], at any times, the backend holds for [key'] the
    stored value and the metadata it held before, and [get] and [exists]
    of [key'] answer as they would have before the calls. *)
Theorem other_keys_are_not_seen {V : Type} (ops : list (Z * BackendOp V))
    (key' : CacheKey) (b : Backend V) (now : Z) :
  _closed b = false →
  Forall (λ c, ∃ key, op_key c.2 = Some key ∧ key ≠ key') ops →
  agree_at key' b (backend_exec ops b)
  ∧ (BaseBackend.get now key' (backend_exec ops b)).1
    = (BaseBackend.get now key' b).1
  ∧ (BaseBackend.exists_ now key' (backend_exec ops b)).1
    = (BaseBackend.exists_ now key' b).1.
Proof.
  intros Ec Hops. pose proof (agree_exec ops key' b Ec Hops) as Ha.
  split; [done|]. by apply agree_reads.
Qed.

Lemma other_keys_are_not_seen_witness :
  (BaseBackend.get 3 "a"
     (backend_exec [(1%Z, BSet "b" (Some 2%Z) (Some 1%Z)); (2%Z, BGet "b");
                    (2%Z, BDelete "c")] sample_backend)).1
  = (BaseBackend.get 3 "a" sample_backend).1.
Proof.
  apply (other_keys_are_not_seen
           [(1%Z, BSet "b" (Some 2%Z) (Some 1%Z)); (2%Z, BGet "b");
            (2%Z, BDelete "c")] "a" sample_backend 3).
  - reflexivity.
  - repeat constructor; simpl; eexists; (split; [reflexivity|done]).
Defined.

(** ** The manager over the cache-aside strategy *)
Section manager_facts.
Context {V : Type}.
Implicit Types (self : CacheManager.t V CacheAsideStrategy.t).

(** Within one manager, different keys have different full keys. *)
Lemma make_key_inj {St : Type} (m : CacheManager.t V St) :
  Inj (=) (=) (CacheManager._make_key m).
Proof.
  intros k1 k2. unfold CacheManager._make_key.
  destruct (decide _), (decide _); simpl; intros H.
  - done.
  - by do 2 apply (inj (String.app _)) in H.
  - by do 2 apply (inj (String.app _)) in H.
  - by do 4 apply (inj (String.app _)) in H.
Qed.

Lemma delegate_eq {St A : Type} (m : M (St * Backend V) A) (c : CacheManager.t V St) :
  CacheManager.delegate m c
  = ((m (CacheManager.strategy c, CacheManager.backend c)).1,
     CacheManager.mk
       (m (CacheManager.strategy c, CacheManager.backend c)).2.2
       (m (CacheManager.strategy c, CacheManager.backend c)).2.1
       (CacheManager.config c)).
Proof.
  unfold CacheManager.delegate.
  by destruct (m (CacheManager.strategy c, CacheManager.backend c)) as [r [s' b']].
Qed.

Lemma manager_set_cache_aside self now key value ttl :
  _closed (CacheManager.backend self) = false →
  CacheManager.set CacheAsideStrategy.as_strategy now key value ttl self
  = (Return true,
     CacheManager.mk
       (BaseBackend.set now (CacheManager._make_key self key) value
          (CacheManager.ttl_or ttl (default_ttl (CacheManager.config self)))
          (CacheManager.backend self)).2
       (CacheManager.strategy self) (CacheManager.config self)).
Proof.
  intros Ec. unfold CacheManager.set. rewrite delegate_eq.
  cbn [strategy_set CacheAsideStrategy.as_strategy].
  unfold CacheAsideStrategy.set, on_snd. cbn [fst snd].
  by rewrite (open_set_eq _ _ _ _ _ Ec).
Qed.

Lemma manager_get_cache_aside self now key cb :
  _closed (CacheManager.backend self) = false →
  CacheManager.get CacheAsideStrategy.as_strategy now key cb self
  = ((CacheAsideStrategy.get now (CacheManager._make_key self key) cb
        (CacheManager.strategy self, CacheManager.backend self)).1,
     CacheManager.mk
       (CacheAsideStrategy.get now (CacheManager._make_key self key) cb
          (CacheManager.strategy self, CacheManager.backend self)).2.2
       (CacheManager.strategy self) (CacheManager.config self)).
Proof.
  intros Ec. unfold CacheManager.get. rewrite delegate_eq.
  cbn [strategy_get CacheAsideStrategy.as_strategy].
  rewrite (cache_aside_get_open _ _ cb _ _ Ec).
  destruct (if BaseBackend._is_expired _ _ _ then _ else _) as [v|]; [done|].
  destruct cb as [f|]; [|done]. by destruct (f _) as [[x|]|e].
Qed.

End manager_facts.

(** X20. A manager over the cache-aside strategy, with a positive
    [default_ttl] in its configuration, on an open backend that keeps
    metadata. An entry written by [set] without ttl, or with a ttl of 0,
    expires [default_ttl] after the write. An entry filled in by [get] from
    the miss callback does not: the callback is asked for the full key
    (namespace and prefix included), and the value it returns is stored
    without ttl, so it is read back at any later time. *)
Theorem manager_default_ttl_not_on_fill {V : Type}
    (self : CacheManager.t V CacheAsideStrategy.t) (now now' : Z)
    (key : CacheKey) (x : V) (d : Z) :
  _closed (CacheManager.backend self) = false →
  enable_metadata (CacheManager.backend self) = true →
  default_ttl (CacheManager.config self) = Some d →
  (0 < d)%Z →
  (∀ ttl, ttl = None ∨ ttl = Some 0%Z →
     (CacheManager.get CacheAsideStrategy.as_strategy now' key None
        (CacheManager.set CacheAsideStrategy.as_strategy now key (Some x) ttl
           self).2).1
     = Return (if bool_decide (now + d ≤ now')%Z then None else Some x))
  ∧ (∀ f,
       (CacheManager.get CacheAsideStrategy.as_strategy now key None self).1
         = Return None →
       f (CacheManager._make_key self key) = Return (Some x) →
       (CacheManager.get CacheAsideStrategy.as_strategy now key (Some f) self).1
         = Return (Some x)
       ∧ (CacheManager.get CacheAsideStrategy.as_strategy now' key None
            (CacheManager.get CacheAsideStrategy.as_strategy now key (Some f)
               self).2).1
         = Return (Some x)).
Proof.
  intros Ec Heb Hd Hpos. split.
  - intros ttl Httl.
    assert (CacheManager.ttl_or ttl (default_ttl (CacheManager.config self))
            = Some d) as Ht.
    { rewrite Hd. by destruct Httl as [-> | ->]. }
    rewrite (manager_set_cache_aside self now key (Some x) ttl Ec), Ht.
    cbn [snd].
    destruct (open_set now (CacheManager._make_key self key) (Some x) (Some d)
                _ Ec) as (_ & Hs & Ec1 & _).
    rewrite manager_get_cache_aside by done. cbn [fst].
    unfold CacheManager._make_key at 1. cbn [CacheManager.config].
    fold (CacheManager._make_key self key).
    cbn [CacheManager.strategy CacheManager.backend].
    rewrite (cache_aside_get_open _ _ None _ _ Ec1).
    rewrite (is_expired_after_set now now' _ (Some x) (Some d) _ Ec), Heb.
    cbn [andb]. case_bool_decide; [done|].
    by rewrite Hs, lookup_insert_eq.
  - intros f Hmiss Hf.
    rewrite (manager_get_cache_aside self now key None Ec) in Hmiss.
    rewrite (manager_get_cache_aside self now key (Some f) Ec).
    cbn [fst snd] in *.
    rewrite (cache_aside_get_open _ _ None _ _ Ec) in Hmiss.
    rewrite (cache_aside_get_open _ _ (Some f) _ _ Ec).
    destruct (if BaseBackend._is_expired _ _ _ then _ else _) as [v|] eqn:Ev.
    { simpl in Hmiss. done. }
    rewrite Hf. cbn [fst snd]. split; [done|].
    destruct (open_get now (CacheManager._make_key self key) _ Ec)
      as (_ & _ & Ec1 & _).
    destruct (open_set now (CacheManager._make_key self key) (Some x) None
                _ Ec1) as (_ & _ & Ec2 & _).
    rewrite manager_get_cache_aside by done. cbn [fst].
    unfold CacheManager._make_key at 1. cbn [CacheManager.config].
    fold (CacheManager._make_key self key).
    cbn [CacheManager.strategy CacheManager.backend].
    rewrite (cache_aside_get_open _ _ None _ _ Ec2).
    pose proof (get_after_plain_set now now' (CacheManager._make_key self key)
                  (Some x) _ Ec1) as Hg.
    destruct (open_get now' (CacheManager._make_key self key) _ Ec2) as (Hr2 & _).
    rewrite Hr2 in Hg. injection Hg as ->. done.
Qed.

Lemma manager_default_ttl_not_on_fill_witness :
  let self : CacheManager.t Z CacheAsideStrategy.t :=
    CacheManager.mk (MemoryBackend.__init__ "memory" true)
      (CacheAsideStrategy.mk "cache_aside")
      (mkCacheConfig (Some 5%Z) "" "default") in
  (CacheManager.get CacheAsideStrategy.as_strategy 5 "k" None
     (CacheManager.set CacheAsideStrategy.as_strategy 0 "k" (Some 1%Z) None
        self).2).1 = Return None
  ∧ (CacheManager.get CacheAsideStrategy.as_strategy 100 "k" None
       (CacheManager.get CacheAsideStrategy.as_strategy 0 "k"
          (Some (λ _, Return (Some 1%Z))) self).2).1 = Return (Some 1%Z).
Proof.
  intros self.
  destruct (manager_default_ttl_not_on_fill self 0 5 "k" 1%Z 5%Z
              eq_refl eq_refl eq_refl ltac:(lia)) as (Hset & _).
  destruct (manager_default_ttl_not_on_fill self 0 100 "k" 1%Z 5%Z
              eq_refl eq_refl eq_refl ltac:(lia)) as (_ & Hfill).
  split.
  - exact (Hset None (or_introl eq_refl)).
  - exact (proj2 (Hfill (λ _, Return (Some 1%Z)) eq_refl eq_refl)).
Defined.

(** ** The convenience methods of [api/manager.py] *)
Section api_facts.
Context {V : Type}.
Implicit Types (self : CacheManager.t V CacheAsideStrategy.t).

(** The full key depends on the configuration only. *)
Lemma make_key_config {St St' : Type} (m : CacheManager.t V St)
    (m' : CacheManager.t V St') key :
  CacheManager.config m' = CacheManager.config m →
  CacheManager._make_key m' key = CacheManager._make_key m key.
Proof. intros H. unfold CacheManager._make_key. by rewrite H. Qed.

(** The manager's [get] without callback, on an open backend. *)
Lemma manager_get_plain self now key :
  _closed (CacheManager.backend self) = false →
  CacheManager.get CacheAsideStrategy.as_strategy now key None self
  = ((BaseBackend.get now (CacheManager._make_key self key)
        (CacheManager.backend self)).1,
     CacheManager.mk
       (BaseBackend.get now (CacheManager._make_key self key)
          (CacheManager.backend self)).2
       (CacheManager.strategy self) (CacheManager.config self)).
Proof.
  intros Ec. rewrite (manager_get_cache_aside self now key None Ec).
  rewrite (cache_aside_get_open _ _ None _ _ Ec).
  destruct (open_get now (CacheManager._make_key self key) _ Ec) as (-> & _).
  by destruct (if BaseBackend._is_expired _ _ _ then _ else _).
Qed.

Lemma manager_delete_cache_aside self key :
  _closed (CacheManager.backend self) = false →
  CacheManager.delete CacheAsideStrategy.as_strategy key self
  = (Return (bool_decide
               (is_Some (_store (CacheManager.backend self)
                           !! CacheManager._make_key self key))),
     CacheManager.mk
       (BaseBackend.delete (CacheManager._make_key self key)
          (CacheManager.backend self)).2
       (CacheManager.strategy self) (CacheManager.config self)).
Proof.
  intros Ec. unfold CacheManager.delete. rewrite delegate_eq.
  cbn [strategy_delete CacheAsideStrategy.as_strategy].
  unfold BaseStrategy.delete, on_snd. cbn [fst snd].
  by rewrite (open_delete_eq _ _ Ec).
Qed.

End api_facts.

(** ** [get_or_compute] and its callable *)
Section compute_facts.
Context {V D : Type}.
Implicit Types (self : CacheManager.t V CacheAsideStrategy.t)
  (f : Callables.Callable V D) (d : D).

(** [CacheAsideStrategy.get] with a callable, on an open backend. *)
Lemma callable_get_open now key f d (s : CacheAsideStrategy.t) (b : Backend V) :
  _closed b = false →
  Callables.CacheAsideStrategy_get now key (Some f) (d, (s, b))
  = match (BaseBackend.get now key b).1 with
    | Return None =>
        match (f key d).1 with
        | Return (Some x) =>
            (Return (Some x),
             ((f key d).2,
              (s, (BaseBackend.set now key (Some x) None
                     (BaseBackend.get now key b).2).2)))
        | Return None =>
            (Return None, ((f key d).2, (s, (BaseBackend.get now key b).2)))
        | Raise e =>
            (Raise e, ((f key d).2, (s, (BaseBackend.get now key b).2)))
        end
    | r => (r, (d, (s, (BaseBackend.get now key b).2)))
    end.
Proof.
  intros Ec. destruct (open_get now key b Ec) as (_ & _ & Ec1 & _).
  unfold Callables.CacheAsideStrategy_get, bind, on_snd, on_fst, ret.
  cbn [fst snd].
  rewrite (open_get_pair now key b Ec). cbn [fst snd].
  destruct (if BaseBackend._is_expired now key b then _ else _) as [x|];
    [done|].
  cbn [fst snd].
  destruct (f key d) as [[[y|]|e] d1]; cbn [fst snd]; [|done..].
  rewrite (open_set_eq _ _ _ _ _ Ec1). cbn [fst snd]. reflexivity.
Qed.

(** A callable without state: the methods over callables are the methods
    over functions of the key. *)
Lemma stateless_strategy_get now key (g : option (CacheMissCallback V)) d
    (w : CacheAsideStrategy.t * Backend V) :
  Callables.CacheAsideStrategy_get now key (Callables.stateless <$> g) (d, w)
  = ((CacheAsideStrategy.get now key g w).1,
     (d, (CacheAsideStrategy.get now key g w).2)).
Proof.
  unfold Callables.CacheAsideStrategy_get, CacheAsideStrategy.get,
    Callables.stateless, bind, on_snd, on_fst, ret. cbn [fst snd].
  destruct (BaseBackend.get now key w.2) as [[[x|]|e] b1]; cbn [fst snd];
    [done| |done].
  destruct g as [g|]; cbn [fmap option_fmap option_map]; [|done].
  destruct (g key) as [[y|]|e]; cbn [fst snd]; [|done..].
  by destruct (BaseBackend.set now key (Some y) None b1) as [[r|e] b2].
Qed.

Lemma stateless_manager_get now key (g : option (CacheMissCallback V)) d self :
  Callables.CacheManager_get now key (Callables.stateless <$> g) (d, self)
  = ((CacheManager.get CacheAsideStrategy.as_strategy now key g self).1,
     (d, (CacheManager.get CacheAsideStrategy.as_strategy now key g self).2)).
Proof.
  unfold Callables.CacheManager_get, Callables.delegate, CacheManager.get,
    CacheManager.delegate. cbn [fst snd].
  rewrite stateless_strategy_get.
  cbn [strategy_get CacheAsideStrategy.as_strategy].
  by destruct (CacheAsideStrategy.get now (CacheManager._make_key self key) g
                 (CacheManager.strategy self, CacheManager.backend self))
    as [r [s' b']].
Qed.

End compute_facts.

(** X21. [get_or_compute] of a manager over the cache-aside strategy, on an
    open backend, when the key misses; the compute function is any
    callable, with a state of its own. It is first called by the strategy,
    with the full key (namespace and prefix included); a value it returns
    there is returned and cached without ttl, whatever [ttl] was passed and
    whatever [default_ttl] is configured. Only when that answer is [None]
    is it called a second time, with the key as given and in the state the
    first call left; a value it returns then is cached by the manager's
    [set], under the full key, with [ttl] or the configured default. What
    it raises, at either call, comes out of [get_or_compute]. So [ttl] has
    no effect when the first call returns a value; nor has it where the
    full key is the key itself (no namespace and no prefix) and the
    callable answers the second call as it answered the first. *)
Theorem get_or_compute_asks_full_key_first {V D : Type}
    (self : CacheManager.t V CacheAsideStrategy.t) (now : Z) (key : CacheKey)
    (f : Callables.Callable V D) (d : D) (ttl : option Z) :
  _closed (CacheManager.backend self) = false →
  (BaseBackend.get now (CacheManager._make_key self key)
     (CacheManager.backend self)).1 = Return None →
  ApiCacheManager.get_or_compute now key f ttl (d, self)
  = match (f (CacheManager._make_key self key) d).1 with
    | Return (Some x) =>
        (Return (Some x),
         ((f (CacheManager._make_key self key) d).2,
          CacheManager.mk
            (BaseBackend.set now (CacheManager._make_key self key) (Some x) None
               (BaseBackend.get now (CacheManager._make_key self key)
                  (CacheManager.backend self)).2).2
            (CacheManager.strategy self) (CacheManager.config self)))
    | Return None =>
        match (f key (f (CacheManager._make_key self key) d).2).1 with
        | Return (Some y) =>
            (Return (Some y),
             ((f key (f (CacheManager._make_key self key) d).2).2,
              CacheManager.mk
                (BaseBackend.set now (CacheManager._make_key self key) (Some y)
                   (CacheManager.ttl_or ttl
                      (default_ttl (CacheManager.config self)))
                   (BaseBackend.get now (CacheManager._make_key self key)
                      (CacheManager.backend self)).2).2
                (CacheManager.strategy self) (CacheManager.config self)))
        | Return None =>
            (Return None,
             ((f key (f (CacheManager._make_key self key) d).2).2,
              CacheManager.mk
                (BaseBackend.get now (CacheManager._make_key self key)
                   (CacheManager.backend self)).2
                (CacheManager.strategy self) (CacheManager.config self)))
        | Raise e =>
            (Raise e,
             ((f key (f (CacheManager._make_key self key) d).2).2,
              CacheManager.mk
                (BaseBackend.get now (CacheManager._make_key self key)
                   (CacheManager.backend self)).2
                (CacheManager.strategy self) (CacheManager.config self)))
        end
    | Raise e =>
        (Raise e,
         ((f (CacheManager._make_key self key) d).2,
          CacheManager.mk
            (BaseBackend.get now (CacheManager._make_key self key)
               (CacheManager.backend self)).2
            (CacheManager.strategy self) (CacheManager.config self)))
    end
  ∧ (∀ x ttl',
       (f (CacheManager._make_key self key) d).1 = Return (Some x) →
       ApiCacheManager.get_or_compute now key f ttl (d, self)
       = ApiCacheManager.get_or_compute now key f ttl' (d, self))
  ∧ (∀ ttl',
       CacheManager._make_key self key = key →
       (f key (f key d).2).1 = (f key d).1 →
       ApiCacheManager.get_or_compute now key f ttl (d, self)
       = ApiCacheManager.get_or_compute now key f ttl' (d, self)).
Proof.
  intros Ec Hmiss.
  destruct (open_get now (CacheManager._make_key self key) _ Ec)
    as (_ & _ & Ec1 & _).
  assert (∀ t,
    ApiCacheManager.get_or_compute now key f t (d, self)
    = match (f (CacheManager._make_key self key) d).1 with
      | Return (Some x) =>
          (Return (Some x),
           ((f (CacheManager._make_key self key) d).2,
            CacheManager.mk
              (BaseBackend.set now (CacheManager._make_key self key) (Some x) None
                 (BaseBackend.get now (CacheManager._make_key self key)
                    (CacheManager.backend self)).2).2
              (CacheManager.strategy self) (CacheManager.config self)))
      | Return None =>
          match (f key (f (CacheManager._make_key self key) d).2).1 with
          | Return (Some y) =>
              (Return (Some y),
               ((f key (f (CacheManager._make_key self key) d).2).2,
                CacheManager.mk
                  (BaseBackend.set now (CacheManager._make_key self key) (Some y)
                     (CacheManager.ttl_or t
                        (default_ttl (CacheManager.config self)))
                     (BaseBackend.get now (CacheManager._make_key self key)
                        (CacheManager.backend self)).2).2
                  (CacheManager.strategy self) (CacheManager.config self)))
          | Return None =>
              (Return None,
               ((f key (f (CacheManager._make_key self key) d).2).2,
                CacheManager.mk
                  (BaseBackend.get now (CacheManager._make_key self key)
                     (CacheManager.backend self)).2
                  (CacheManager.strategy self) (CacheManager.config self)))
          | Raise e =>
              (Raise e,
               ((f key (f (CacheManager._make_key self key) d).2).2,
                CacheManager.mk
                  (BaseBackend.get now (CacheManager._make_key self key)
                     (CacheManager.backend self)).2
                  (CacheManager.strategy self) (CacheManager.config self)))
          end
      | Raise e =>
          (Raise e,
           ((f (CacheManager._make_key self key) d).2,
            CacheManager.mk
              (BaseBackend.get now (CacheManager._make_key self key)
                 (CacheManager.backend self)).2
              (CacheManager.strategy self) (CacheManager.config self)))
      end) as Hshape.
  { intros t. unfold ApiCacheManager.get_or_compute. unfold bind at 1.
    unfold Callables.CacheManager_get, Callables.delegate. cbn [fst snd].
    rewrite (callable_get_open now _ f d _ _ Ec), Hmiss.
    destruct (f (CacheManager._make_key self key) d) as [[[x|]|e] d1];
      cbn [fst snd]; [done| |done].
    unfold bind, on_fst, on_snd, ret. cbn [fst snd].
    destruct (f key d1) as [[[y|]|e] d2]; cbn [fst snd]; [|done..].
    rewrite manager_set_cache_aside by exact Ec1.
    cbn [CacheManager.backend CacheManager.strategy CacheManager.config].
    reflexivity. }
  split_and!; [apply Hshape| |].
  - intros x ttl' Hx. rewrite !Hshape. by rewrite Hx.
  - intros ttl' Hfk Hsame. rewrite !Hshape, Hfk.
    destruct (f key d).1 as [[x|]|e] eqn:E1; [done| |done].
    rewrite Hsame. done.
Qed.

Lemma get_or_compute_asks_full_key_first_witness :
  let self : CacheManager.t Z CacheAsideStrategy.t :=
    CacheManager.mk (MemoryBackend.__init__ "memory" true)
      (CacheAsideStrategy.mk "cache_aside")
      (mkCacheConfig (Some 5%Z) "" "default") in
  let by_key : Callables.Callable Z nat :=
    λ k n, (Return (if decide (k = "default:k") then Some 1%Z else Some 2%Z),
            S n) in
  let second_time : Callables.Callable Z nat :=
    λ k n, (Return (if n is O then None else Some 7%Z), S n) in
  ApiCacheManager.get_or_compute 0 "k" by_key (Some 3%Z) (O, self)
  = (Return (Some 1%Z),
     (1%nat,
      CacheManager.mk
        (BaseBackend.set 0 "default:k" (Some 1%Z) None
           (MemoryBackend.__init__ "memory" true)).2
        (CacheAsideStrategy.mk "cache_aside")
        (mkCacheConfig (Some 5%Z) "" "default")))
  ∧ ApiCacheManager.get_or_compute 0 "k" second_time (Some 3%Z) (O, self)
    = (Return (Some 7%Z),
       (2%nat,
        CacheManager.mk
          (BaseBackend.set 0 "default:k" (Some 7%Z) (Some 3%Z)
             (MemoryBackend.__init__ "memory" true)).2
          (CacheAsideStrategy.mk "cache_aside")
          (mkCacheConfig (Some 5%Z) "" "default"))).
Proof.
  intros self by_key second_time. split.
  - exact (proj1 (get_or_compute_asks_full_key_first self 0 "k" by_key O
                    (Some 3%Z) eq_refl eq_refl)).
  - exact (proj1 (get_or_compute_asks_full_key_first self 0 "k" second_time O
                    (Some 3%Z) eq_refl eq_refl)).
Defined.

(** X22. [get_or_set] of a manager over the cache-aside strategy, on an
    open backend, when the key misses: the default is stored and returned,
    and the first default wins. A later [get_or_set] of the key, with
    whatever default and ttl, returns the first default as long as the
    entry has not expired; once it has (the backend keeps metadata and the
    ttl of the first call, or the configured default, has run out), the
    later call returns its own default. *)
Theorem get_or_set_first_default_wins {V : Type}
    (self : CacheManager.t V CacheAsideStrategy.t) (now now' : Z)
    (key : CacheKey) (x : V) (default' : option V) (ttl ttl' : option Z) :
  _closed (CacheManager.backend self) = false →
  (BaseBackend.get now (CacheManager._make_key self key)
     (CacheManager.backend self)).1 = Return None →
  (ApiCacheManager.get_or_set CacheAsideStrategy.as_strategy now key (Some x)
     ttl self).1 = Return (Some x)
  ∧ (ApiCacheManager.get_or_set CacheAsideStrategy.as_strategy now' key
       default' ttl'
       (ApiCacheManager.get_or_set CacheAsideStrategy.as_strategy now key
          (Some x) ttl self).2).1
    = Return
        (if enable_metadata (CacheManager.backend self)
            && match CacheManager.ttl_or ttl
                       (default_ttl (CacheManager.config self)) with
               | Some t => bool_decide (now + t ≤ now')%Z
               | None => false
               end
         then default' else Some x).
Proof.
  intros Ec Hmiss.
  destruct (open_get now (CacheManager._make_key self key) _ Ec)
    as (_ & _ & Ec1 & He1).
  assert (ApiCacheManager.get_or_set CacheAsideStrategy.as_strategy now key
            (Some x) ttl self
          = (Return (Some x),
             CacheManager.mk
               (BaseBackend.set now (CacheManager._make_key self key) (Some x)
                  (CacheManager.ttl_or ttl (default_ttl (CacheManager.config self)))
                  (BaseBackend.get now (CacheManager._make_key self key)
                     (CacheManager.backend self)).2).2
               (CacheManager.strategy self) (CacheManager.config self))) as ->.
  { unfold ApiCacheManager.get_or_set. unfold bind at 1.
    rewrite (manager_get_plain self now key Ec), Hmiss.
    unfold bind, ret. by rewrite manager_set_cache_aside. }
  split; [done|]. cbn [snd].
  destruct (open_set now (CacheManager._make_key self key) (Some x)
              (CacheManager.ttl_or ttl (default_ttl (CacheManager.config self)))
              _ Ec1) as (_ & Hs & Ec2 & _).
  unfold ApiCacheManager.get_or_set. unfold bind at 1.
  rewrite manager_get_plain by done.
  cbn [CacheManager.backend CacheManager.strategy CacheManager.config].
  change (CacheManager._make_key (CacheManager.mk _ _ (CacheManager.config self)) key)
    with (CacheManager._make_key self key).
  destruct (open_get now' (CacheManager._make_key self key) _ Ec2)
    as (-> & _ & Ec3 & _).
  rewrite (is_expired_after_set now now' _ (Some x) _ _ Ec1), He1.
  destruct (enable_metadata (CacheManager.backend self)
            && match CacheManager.ttl_or ttl _ with
               | Some t => bool_decide (now + t ≤ now')%Z
               | None => false
               end) eqn:Ex.
  - unfold bind, ret. by rewrite manager_set_cache_aside by exact Ec3.
  - by rewrite Hs, lookup_insert_eq.
Qed.

Lemma get_or_set_first_default_wins_witness :
  let self : CacheManager.t Z CacheAsideStrategy.t :=
    CacheManager.mk (MemoryBackend.__init__ "memory" true)
      (CacheAsideStrategy.mk "cache_aside")
      (mkCacheConfig (Some 5%Z) "" "default") in
  (ApiCacheManager.get_or_set CacheAsideStrategy.as_strategy 4 "k" (Some 2%Z)
     None
     (ApiCacheManager.get_or_set CacheAsideStrategy.as_strategy 0 "k"
        (Some 1%Z) None self).2).1 = Return (Some 1%Z)
  ∧ (ApiCacheManager.get_or_set CacheAsideStrategy.as_strategy 5 "k" (Some 2%Z)
       None
       (ApiCacheManager.get_or_set CacheAsideStrategy.as_strategy 0 "k"
          (Some 1%Z) None self).2).1 = Return (Some 2%Z).
Proof.
  intros self. split.
  - exact (proj2 (get_or_set_first_default_wins self 0 4 "k" 1%Z (Some 2%Z)
                    None None eq_refl eq_refl)).
  - exact (proj2 (get_or_set_first_default_wins self 0 5 "k" 1%Z (Some 2%Z)
                    None None eq_refl eq_refl)).
Defined.

Section many_facts.
Context {V : Type}.
Implicit Types (self : CacheManager.t V CacheAsideStrategy.t).

(** Counting the members of [{k} ∪ L] in [D], one key at a time. *)
Lemma size_inter_cons (D L : gset string) (k : string) :
  size (D ∩ ({[k]} ∪ L))
  = ((if bool_decide (k ∈ D) then 1 else 0) + size ((D ∖ {[k]}) ∩ L))%nat.
Proof.
  case_bool_decide as Hk.
  - assert (D ∩ ({[k]} ∪ L) = {[k]} ∪ (D ∖ {[k]}) ∩ L) as ->.
    { apply set_eq. intros y.
      rewrite !elem_of_intersection, !elem_of_union, !elem_of_intersection,
        !elem_of_difference, !elem_of_singleton.
      destruct (decide (y = k)) as [->|]; intuition congruence. }
    rewrite size_union, size_singleton; [done|].
    intros y. rewrite elem_of_singleton, elem_of_intersection, elem_of_difference,
      elem_of_singleton. intuition congruence.
  - simpl. f_equal. apply set_eq. intros y.
    rewrite !elem_of_intersection, !elem_of_union, !elem_of_difference,
      !elem_of_singleton.
    destruct (decide (y = k)) as [->|]; intuition congruence.
Qed.

Lemma delete_many_from_spec (keys : list CacheKey) self (c : Z) :
  _closed (CacheManager.backend self) = false →
  ∃ b',
    ApiCacheManager.delete_many_from CacheAsideStrategy.as_strategy keys c self
    = (Return
         (c + Z.of_nat
                (size (dom (_store (CacheManager.backend self))
                       ∩ list_to_set (CacheManager._make_key self <$> keys))))%Z,
       CacheManager.mk b' (CacheManager.strategy self) (CacheManager.config self))
    ∧ _closed b' = false
    ∧ ∀ k, _store b' !! k
           = if bool_decide (k ∈ CacheManager._make_key self <$> keys) then None
             else _store (CacheManager.backend self) !! k.
Proof.
  revert self c. induction keys as [|key keys IH]; intros self c Ec.
  - exists (CacheManager.backend self). simpl. split_and!; [|done|done].
    unfold ret. destruct self. simpl.
    rewrite intersection_empty_r_L, size_empty. f_equal. f_equal. lia.
  - destruct (open_delete_fields (CacheManager._make_key self key) _ Ec)
      as (Hs & Ec1 & _).
    destruct (IH (CacheManager.mk
                    (BaseBackend.delete (CacheManager._make_key self key)
                       (CacheManager.backend self)).2
                    (CacheManager.strategy self) (CacheManager.config self))
                (if bool_decide (is_Some (_store (CacheManager.backend self)
                                            !! CacheManager._make_key self key))
                 then c + 1 else c)%Z Ec1) as (b' & Heq & Ec' & Hst).
    exists b'. split_and!; [|done|].
    + cbn [ApiCacheManager.delete_many_from]. unfold bind at 1.
      rewrite (manager_delete_cache_aside self key Ec).
      etrans; [exact Heq|].
      cbn [CacheManager.backend CacheManager.strategy CacheManager.config].
      change (CacheManager._make_key (CacheManager.mk _ _ (CacheManager.config self)))
        with (CacheManager._make_key self).
      f_equal. f_equal.
      rewrite Hs, fmap_cons, list_to_set_cons, dom_delete_L, size_inter_cons.
      rewrite (bool_decide_ext (CacheManager._make_key self key
                                  ∈ dom (_store (CacheManager.backend self)))
                 (is_Some (_store (CacheManager.backend self)
                             !! CacheManager._make_key self key)))
        by apply elem_of_dom.
      destruct (bool_decide _); lia.
    + intros k. rewrite Hst.
      cbn [CacheManager.backend CacheManager.strategy CacheManager.config].
      change (CacheManager._make_key (CacheManager.mk _ _ (CacheManager.config self)))
        with (CacheManager._make_key self).
      rewrite Hs, fmap_cons.
      destruct (decide (k = CacheManager._make_key self key)) as [->|Hne].
      * rewrite lookup_delete_eq.
        rewrite (bool_decide_eq_true_2 (_ ∈ _ :: _)) by (apply elem_of_cons; left; reflexivity).
        by destruct (bool_decide (CacheManager._make_key self key ∈ _)).
      * rewrite lookup_delete_ne by done.
        rewrite (bool_decide_ext (k ∈ CacheManager._make_key self key
                                       :: (CacheManager._make_key self <$> keys))
                   (k ∈ CacheManager._make_key self <$> keys)); [done|].
        rewrite elem_of_cons. intuition congruence.
Qed.

End many_facts.

(** X23. [delete_many] of a manager over the cache-aside strategy, on an
    open backend, returns the number of different full keys among [keys]
    that the store holds: a key listed twice counts once, a key holding
    [None] counts, an absent key does not. Afterwards the store holds none
    of the keys and every other key as before, so a second [delete_many]
    of the same keys returns 0. *)
Theorem delete_many_counts_present {V : Type}
    (self : CacheManager.t V CacheAsideStrategy.t) (keys : list CacheKey) :
  _closed (CacheManager.backend self) = false →
  (ApiCacheManager.delete_many CacheAsideStrategy.as_strategy keys self).1
  = Return
      (Z.of_nat
         (size (dom (_store (CacheManager.backend self))
                ∩ list_to_set (CacheManager._make_key self <$> keys))))
  ∧ (∀ k,
       _store (CacheManager.backend
                 (ApiCacheManager.delete_many CacheAsideStrategy.as_strategy
                    keys self).2) !! k
       = if bool_decide (k ∈ CacheManager._make_key self <$> keys) then None
         else _store (CacheManager.backend self) !! k)
  ∧ (ApiCacheManager.delete_many CacheAsideStrategy.as_strategy keys
       (ApiCacheManager.delete_many CacheAsideStrategy.as_strategy keys self).2).1
    = Return 0%Z.
Proof.
  intros Ec. unfold ApiCacheManager.delete_many.
  destruct (delete_many_from_spec keys self 0 Ec) as (b' & -> & Ec' & Hst).
  cbn [fst snd CacheManager.backend]. split_and!; [done|done|].
  destruct (delete_many_from_spec keys
              (CacheManager.mk b' (CacheManager.strategy self)
                 (CacheManager.config self)) 0 Ec') as (b'' & -> & _ & _).
  cbn [fst CacheManager.backend].
  change (CacheManager._make_key (CacheManager.mk _ _ (CacheManager.config self)))
    with (CacheManager._make_key self).
  assert (size (dom (_store b')
                ∩ list_to_set (C:=gset string)
                    (CacheManager._make_key self <$> keys)) = 0%nat)
    as ->; [|done].
  apply size_empty_iff, elem_of_equiv_empty. intros y.
  rewrite elem_of_intersection, elem_of_dom, elem_of_list_to_set, Hst.
  intros [Hy Hin]. rewrite bool_decide_eq_true_2 in Hy by done.
  by destruct Hy.
Qed.

Lemma delete_many_counts_present_witness :
  let self : CacheManager.t Z CacheAsideStrategy.t :=
    CacheManager.mk
      (backend_exec [(0%Z, BSet "default:a" (Some 1%Z) None)]
         (MemoryBackend.__init__ "memory" true))
      (CacheAsideStrategy.mk "cache_aside")
      (mkCacheConfig None "" "default") in
  (ApiCacheManager.delete_many CacheAsideStrategy.as_strategy ["a"; "a"; "b"]
     self).1 = Return 1%Z.
Proof.
  intros self.
  destruct (delete_many_counts_present self ["a"; "a"; "b"] eq_refl) as (H & _).
  etrans; [exact H|]. vm_compute. reflexivity.
Defined.

Section round_trip.
Context {V K : Type} (key_eq : K → K → bool) (str : K → string).
Implicit Types (self : CacheManager.t V CacheAsideStrategy.t)
  (items mapping : list (K * option V)) (b : Backend V).

Lemma call_set_state now key value ttl b :
  (backend_call now (BSet key value ttl) b).2
  = (BaseBackend.set now key value ttl b).2.
Proof.
  simpl. unfold bind, ret. by destruct (BaseBackend.set now key value ttl b) as [[]].
Qed.

Lemma set_calls_open now ttl (full : K → CacheKey) items b :
  _closed b = false →
  _closed (backend_exec (set_calls now ttl full items) b) = false
  ∧ enable_metadata (backend_exec (set_calls now ttl full items) b)
    = enable_metadata b.
Proof.
  revert b. induction items as [|[k v] items IH]; intros b Ec; [done|].
  unfold set_calls. rewrite fmap_cons. cbn [backend_exec fst snd].
  rewrite call_set_state.
  destruct (open_set now (full k) v ttl b Ec) as (_ & _ & Ec1 & He & _).
  destruct (IH _ Ec1) as (? & ?). split; [done|]. by etrans.
Qed.

Lemma set_many_from_spec now items ttl self (c : Z) :
  _closed (CacheManager.backend self) = false →
  ApiCacheManager.set_many_from str CacheAsideStrategy.as_strategy now items
    ttl c self
  = (Return (c + Z.of_nat (length items))%Z,
     CacheManager.mk
       (backend_exec
          (set_calls now
             (CacheManager.ttl_or ttl (default_ttl (CacheManager.config self)))
             (λ k, CacheManager._make_key self (str k)) items)
          (CacheManager.backend self))
       (CacheManager.strategy self) (CacheManager.config self)).
Proof.
  revert self c. induction items as [|[k v] items IH]; intros self c Ec.
  - simpl. unfold ret. destruct self. simpl. do 2 f_equal. lia.
  - cbn [ApiCacheManager.set_many_from]. unfold bind at 1.
    rewrite (manager_set_cache_aside self now (str k) v ttl Ec).
    destruct (open_set now (CacheManager._make_key self (str k)) v
                (CacheManager.ttl_or ttl (default_ttl (CacheManager.config self)))
                _ Ec) as (_ & _ & Ec1 & _).
    rewrite IH by exact Ec1.
    cbn [CacheManager.backend CacheManager.strategy CacheManager.config].
    unfold set_calls. rewrite fmap_cons. cbn [backend_exec fst snd].
    rewrite call_set_state.
    do 2 f_equal. cbn [length]. lia.
Qed.

(** Nothing is written under a string that no key of the items has. *)
Lemma written_None s items :
  written str s items = None ↔ s ∉ str <$> items.*1.
Proof.
  induction items as [|[k v] items IH]; simpl.
  - split; [intros _ H; by apply elem_of_nil in H|done].
  - destruct (written str s items) as [x|].
    + split; [done|]. intros Hout. exfalso.
      assert (s ∉ str <$> items.*1) as Hout'.
      { intros Hin. apply Hout. apply elem_of_cons. by right. }
      apply IH in Hout'. done.
    + destruct (decide (str k = s)) as [Hk|Hk].
      * split; [done|]. intros Hout. exfalso. apply Hout.
        apply elem_of_cons. by left.
      * split; [|done]. intros _ [Heq|Hin]%elem_of_cons; [done|].
        by apply (proj1 IH).
Qed.

(** With keys of different strings, an item holds what was written last
    under the string of its key. *)
Lemma written_NoDup items k v :
  NoDup (str <$> items.*1) → (k, v) ∈ items →
  written str (str k) items = Some v.
Proof.
  induction items as [|[k0 v0] items IH]; intros Hnd Hin.
  { by apply elem_of_nil in Hin. }
  simpl in Hnd. apply NoDup_cons in Hnd as [Hk0 Hnd].
  simpl. apply elem_of_cons in Hin as [[= -> ->]|Hin].
  - apply written_None in Hk0. rewrite Hk0. by rewrite decide_True.
  - by rewrite (IH Hnd Hin).
Qed.

Lemma written_is_Some items k v :
  (k, v) ∈ items → is_Some (written str (str k) items).
Proof.
  intros Hin. destruct (written str (str k) items) eqn:Hw; [done|].
  apply written_None in Hw. exfalso. apply Hw.
  apply list_elem_of_fmap. exists k. split; [done|].
  apply list_elem_of_fmap. by exists (k, v).
Qed.

(** What a read finds after the writes of [set_many]: the value written
    last under the key. *)
Lemma get_after_set_calls now now' ttl (full : string → CacheKey) items b s v :
  Inj (=) (=) full →
  _closed b = false →
  written str s items = Some v →
  (BaseBackend.get now' (full s)
     (backend_exec (set_calls now ttl (λ k, full (str k)) items) b)).1
  = Return (if enable_metadata b
               && match ttl with
                  | Some t => bool_decide (now + t ≤ now')%Z
                  | None => false
                  end
            then None else v).
Proof.
  intros Hinj. revert b.
  induction items as [|[k0 v0] items IH]; intros b Ec Hw; [done|].
  unfold set_calls. rewrite fmap_cons. cbn [backend_exec fst snd].
  rewrite call_set_state.
  fold (set_calls now ttl (λ k, full (str k)) items).
  destruct (open_set now (full (str k0)) v0 ttl b Ec) as (_ & Hs & Ec1 & He & _).
  simpl in Hw. destruct (written str s items) as [x|] eqn:Hrest.
  - injection Hw as ->. rewrite (IH _ Ec1 eq_refl). by rewrite He.
  - destruct (decide (str k0 = s)) as [<-|]; [|done]. injection Hw as <-.
    apply written_None in Hrest.
    assert (Forall (λ c : Z * BackendOp V,
                      ∃ key, op_key c.2 = Some key ∧ key ≠ full (str k0))
              (set_calls now ttl (λ k, full (str k)) items)) as Hother.
    { unfold set_calls. apply Forall_fmap, Forall_forall. intros [k' v'] Hin'.
      simpl. eexists. split; [done|]. intros Heq. apply Hinj in Heq.
      apply Hrest. rewrite <- Heq. apply list_elem_of_fmap. exists k'.
      split; [done|]. apply list_elem_of_fmap. by exists (k', v'). }
    pose proof (agree_exec _ (full (str k0)) _ Ec1 Hother) as Ha.
    destruct (agree_reads now' (full (str k0)) _ _ Ha) as (-> & _).
    destruct (open_get now' (full (str k0)) _ Ec1) as (-> & _).
    rewrite (is_expired_after_set now now' (full (str k0)) v0 ttl b Ec).
    rewrite Hs, lookup_insert_eq. simpl.
    by destruct (enable_metadata b && _).
Qed.

(** A [get] leaves what a [get] at the same time finds, for its own key
    and for any other. *)
Lemma get_again now key key' b :
  _closed b = false →
  (BaseBackend.get now key' (BaseBackend.get now key b).2).1
  = (BaseBackend.get now key' b).1.
Proof.
  intros Ec. destruct (decide (key = key')) as [<-|Hne].
  - destruct (open_get now key b Ec) as (_ & _ & Ec1 & _).
    destruct (open_get now key _ Ec1) as (-> & _).
    destruct (open_get now key b Ec) as (-> & _). f_equal.
    rewrite (open_get_eq now key b Ec).
    destruct (BaseBackend._is_expired now key b) eqn:Hx; cbn [fst snd].
    + destruct (open_delete_fields key b Ec) as (-> & _).
      rewrite lookup_delete_eq. simpl.
      by destruct (BaseBackend._is_expired now key (BaseBackend.delete key b).2).
    + destruct (mjoin (_store b !! key)) as [x|] eqn:Hv; [|by rewrite Hx, Hv].
      unfold BaseBackend._update_access_metadata, modify. cbn [fst snd].
      unfold BaseBackend._is_expired in *.
      destruct (enable_metadata b) eqn:He; simpl in *; [|by rewrite He, Hv].
      destruct (_metadata b !! key) as [m|] eqn:Hm; simpl.
      * rewrite He. simpl. rewrite lookup_insert_eq.
        unfold CacheMetadata.is_expired in *. simpl. by rewrite Hx, Hv.
      * by rewrite He, Hm, Hv.
  - by destruct (agree_reads now key' _ _ (agree_get now key key' b Ec Hne))
      as (-> & _).
Qed.

Lemma reads_get now key key' b :
  _closed b = false →
  reads now (BaseBackend.get now key b).2 key' = reads now b key'.
Proof.
  intros Ec. destruct (open_get now key b Ec) as (_ & _ & Ec1 & _).
  pose proof (get_again now key key' b Ec) as H.
  destruct (open_get now key' _ Ec1) as (Hl & _).
  destruct (open_get now key' b Ec) as (Hr & _).
  rewrite Hl, Hr in H. by injection H.
Qed.

Lemma get_many_from_spec now' (keys : list K) self (g : K → option V)
    (result : list (K * option V)) :
  _closed (CacheManager.backend self) = false →
  (∀ k, reads now' (CacheManager.backend self)
          (CacheManager._make_key self (str k)) = g k) →
  (ApiCacheManager.get_many_from key_eq str CacheAsideStrategy.as_strategy now'
     keys result self).1
  = Return (foldl (λ r k, ApiCacheManager.dict_put key_eq k (g k) r) result keys).
Proof.
  revert self result.
  induction keys as [|k keys IH]; intros self result Ec Hg; [done|].
  cbn [ApiCacheManager.get_many_from foldl].
  unfold bind at 1. rewrite (manager_get_plain self now' (str k) Ec).
  destruct (open_get now' (CacheManager._make_key self (str k)) _ Ec)
    as (-> & _ & Ec1 & _).
  fold (reads now' (CacheManager.backend self)
          (CacheManager._make_key self (str k))).
  rewrite Hg. apply IH; [exact Ec1|].
  intros k'.
  cbn [CacheManager.backend CacheManager.strategy CacheManager.config].
  change (CacheManager._make_key (CacheManager.mk _ _ (CacheManager.config self)))
    with (CacheManager._make_key self).
  by rewrite reads_get.
Qed.

(** Filling a [dict] key by key, with keys no two of which are equal. *)
Lemma dict_put_fresh {A} (k : K) (x : A) (d : list (K * A)) :
  Forall (λ kv, key_eq kv.1 k = false) d →
  ApiCacheManager.dict_put key_eq k x d = d ++ [(k, x)].
Proof.
  induction 1 as [|[k0 x0] d Hk _ IH]; [done|].
  simpl in *. by rewrite Hk, IH.
Qed.

Lemma foldl_dict_put {A} (g : K → A) (items : list (K * option V))
    (result : list (K * A)) :
  is_dict key_eq items = true →
  Forall (λ kv, Forall (λ kv', key_eq kv.1 kv'.1 = false) items) result →
  foldl (λ r k, ApiCacheManager.dict_put key_eq k (g k) r) result items.*1
  = result ++ ((λ kv, (kv.1, g kv.1)) <$> items).
Proof.
  revert result. induction items as [|[k v] items IH]; intros result Hd Hres.
  - by rewrite app_nil_r.
  - simpl in Hd. apply andb_true_iff in Hd as [Hk Hd].
    rewrite fmap_cons. cbn [foldl fst snd fmap list_fmap].
    rewrite dict_put_fresh.
    + rewrite IH; [by rewrite <- app_assoc|done|].
      apply Forall_app. split.
      * eapply Forall_impl; [exact Hres|]. simpl.
        by intros kv [_ ?]%Forall_cons.
      * constructor; [|constructor]. simpl.
        apply Forall_forall. intros kv' Hin.
        rewrite forallb_forall in Hk. apply negb_true_iff.
        apply (Hk kv'). by apply list_elem_of_In.
    + eapply Forall_impl; [exact Hres|]. simpl.
      by intros kv [? _]%Forall_cons.
Qed.

End round_trip.

(** X24. [set_many] and [get_many] of a manager over the cache-aside
    strategy, on an open backend; the keys are of any type, seen by the
    manager through [str] only. [set_many] returns the number of items. A
    [get_many] of the same keys afterwards, before the entries expire (the
    backend keeps no metadata, or there is no ttl and no configured
    default, or the time is before the write plus that ttl), returns the
    keys in their order, each with the value that was written last under
    the string of the key. So where no two keys have the same string,
    [get_many] returns the mapping itself, [None] for a key that was
    written with [None]; and where two items have keys of the same string
    and different values, it does not. *)
Theorem set_many_then_get_many {V K : Type} (key_eq : K → K → bool)
    (str : K → string)
    (self : CacheManager.t V CacheAsideStrategy.t) (now now' : Z)
    (mapping : list (K * option V)) (ttl : option Z) :
  _closed (CacheManager.backend self) = false →
  is_dict key_eq mapping = true →
  enable_metadata (CacheManager.backend self)
  && match CacheManager.ttl_or ttl (default_ttl (CacheManager.config self)) with
     | Some t => bool_decide (now + t ≤ now')%Z
     | None => false
     end = false →
  (ApiCacheManager.set_many str CacheAsideStrategy.as_strategy now mapping ttl
     self).1
  = Return (Z.of_nat (length mapping))
  ∧ (ApiCacheManager.get_many key_eq str CacheAsideStrategy.as_strategy now'
       mapping.*1
       (ApiCacheManager.set_many str CacheAsideStrategy.as_strategy now mapping
          ttl self).2).1
    = Return ((λ kv, (kv.1, default None (written str (str kv.1) mapping)))
                <$> mapping)
  ∧ (NoDup (str <$> mapping.*1) →
     (ApiCacheManager.get_many key_eq str CacheAsideStrategy.as_strategy now'
        mapping.*1
        (ApiCacheManager.set_many str CacheAsideStrategy.as_strategy now mapping
           ttl self).2).1
     = Return mapping)
  ∧ (∀ k1 v1 k2 v2,
       (k1, v1) ∈ mapping → (k2, v2) ∈ mapping →
       str k1 = str k2 → v1 ≠ v2 →
       (ApiCacheManager.get_many key_eq str CacheAsideStrategy.as_strategy now'
          mapping.*1
          (ApiCacheManager.set_many str CacheAsideStrategy.as_strategy now
             mapping ttl self).2).1
       ≠ Return mapping).
Proof.
  intros Ec Hd Hlive.
  assert ((ApiCacheManager.get_many key_eq str CacheAsideStrategy.as_strategy now'
             mapping.*1
             (ApiCacheManager.set_many str CacheAsideStrategy.as_strategy now
                mapping ttl self).2).1
          = Return ((λ kv, (kv.1, default None (written str (str kv.1) mapping)))
                      <$> mapping)) as Hget.
  { unfold ApiCacheManager.set_many, ApiCacheManager.get_many.
    rewrite (set_many_from_spec str now mapping ttl self 0 Ec). cbn [fst snd].
    destruct (set_calls_open now
                (CacheManager.ttl_or ttl (default_ttl (CacheManager.config self)))
                (λ k, CacheManager._make_key self (str k)) mapping _ Ec)
      as (Ec1 & _).
    erewrite get_many_from_spec; [|exact Ec1|intros k; reflexivity].
    rewrite (foldl_dict_put key_eq _ mapping [] Hd) by constructor.
    rewrite app_nil_l. f_equal. apply list_fmap_ext. intros i [k v] Hi.
    cbn [fst snd]. f_equal.
    cbn [CacheManager.backend CacheManager.strategy CacheManager.config].
    change (CacheManager._make_key (CacheManager.mk _ _ (CacheManager.config self)))
      with (CacheManager._make_key self).
    apply list_elem_of_lookup_2 in Hi. unfold reads.
    destruct (written_is_Some str mapping k v Hi) as [x Hx]. rewrite Hx. simpl.
    pose proof (get_after_set_calls str now now'
                  (CacheManager.ttl_or ttl (default_ttl (CacheManager.config self)))
                  (CacheManager._make_key self)
                  mapping _ (str k) x (make_key_inj self) Ec Hx) as Hread.
    rewrite Hlive in Hread.
    match type of Hread with
    | (BaseBackend.get _ _ ?b1).1 = _ =>
        destruct (open_get now' (CacheManager._make_key self (str k)) b1)
          as (Hr & _)
    end.
    { by destruct (set_calls_open now
                     (CacheManager.ttl_or ttl
                        (default_ttl (CacheManager.config self)))
                     (λ k, CacheManager._make_key self (str k)) mapping _ Ec). }
    rewrite Hr in Hread. by injection Hread. }
  split_and!.
  - unfold ApiCacheManager.set_many.
    by rewrite (set_many_from_spec str now mapping ttl self 0 Ec).
  - exact Hget.
  - intros Hnd. rewrite Hget. f_equal.
    rewrite <- (list_fmap_id mapping) at 2.
    apply list_fmap_ext. intros i [k v] Hi. cbn [fst snd].
    apply list_elem_of_lookup_2 in Hi.
    by rewrite (written_NoDup str mapping k v Hnd Hi).
  - intros k1 v1 k2 v2 H1 H2 Hstr Hne. rewrite Hget. intros [= Heq].
    assert (∀ k v, (k, v) ∈ mapping →
              default None (written str (str k) mapping) = v) as Hval.
    { intros k v Hin. apply list_elem_of_lookup_1 in Hin as [i Hi].
      pose proof (f_equal (λ l, l !! i) Heq) as Hi'. simpl in Hi'.
      rewrite list_lookup_fmap, Hi in Hi'. simpl in Hi'. congruence. }
    apply Hne. rewrite <- (Hval k1 v1 H1), <- (Hval k2 v2 H2). by rewrite Hstr.
Qed.

Lemma set_many_then_get_many_witness :
  let self : CacheManager.t Z CacheAsideStrategy.t :=
    CacheManager.mk (MemoryBackend.__init__ "memory" true)
      (CacheAsideStrategy.mk "cache_aside")
      (mkCacheConfig (Some 5%Z) "" "default") in
  (ApiCacheManager.get_many py_eq py_str CacheAsideStrategy.as_strategy 4
     [KStr "a"; KInt 2]
     (ApiCacheManager.set_many py_str CacheAsideStrategy.as_strategy 0
        [(KStr "a", Some 1%Z); (KInt 2, None)] None self).2).1
  = Return [(KStr "a", Some 1%Z); (KInt 2, None)]
  ∧ (ApiCacheManager.get_many py_eq py_str CacheAsideStrategy.as_strategy 4
       [KInt 1; KStr "1"]
       (ApiCacheManager.set_many py_str CacheAsideStrategy.as_strategy 0
          [(KInt 1, Some 10%Z); (KStr "1", Some 20%Z)] None self).2).1
    = Return [(KInt 1, Some 20%Z); (KStr "1", Some 20%Z)].
Proof.
  intros self. split.
  - refine (proj1 (proj2 (proj2
      (set_many_then_get_many py_eq py_str self 0 4
         [(KStr "a", Some 1%Z); (KInt 2, None)] None eq_refl eq_refl eq_refl)))
      _).
    apply (bool_decide_unpack _). vm_compute. exact I.
  - exact (proj1 (proj2
      (set_many_then_get_many py_eq py_str self 0 4
         [(KInt 1, Some 10%Z); (KStr "1", Some 20%Z)] None eq_refl eq_refl
         eq_refl))).
Defined.

(** ** Write-back: what [delete] and [clear] do to the queue *)
Section write_back_more.
Context {V D : Type}.
Implicit Types (self : WriteBackStrategy.t V D) (b : Backend V).

(** A flush of a queue that is not empty, with a callback that returns. *)
Lemma flush_all_ok self (cb : WriteCallback V D) (d : D) now :
  WriteBackStrategy.write_callback self = Some cb →
  (∀ k v d', (cb k v d').1 = Return tt) →
  WriteBackStrategy._write_queue self ≠ [] →
  WriteBackStrategy._flush now (self, d)
  = (Return tt,
     (WriteBackStrategy.with_last_flush now (WriteBackStrategy.with_queue [] self),
      foldl (λ d' kv, (cb kv.1 kv.2 d').2) d (WriteBackStrategy._write_queue self))).
Proof.
  intros Hcb Hok Hq.
  unfold WriteBackStrategy._flush.
  unfold bind, gets, on_fst, modify, ret. cbn [fst snd]. rewrite Hcb.
  destruct (WriteBackStrategy._write_queue self) as [|kv q] eqn:Eq; [done|].
  exact (flush_items_ok cb (kv :: q) _ d Hok).
Qed.

Lemma dict_set_not_nil {A} (q : list (CacheKey * A)) k (x : A) :
  dict_set k x q ≠ [].
Proof.
  destruct q as [|[k' y] q]; simpl; [done|]. by destruct (decide (k' = k)).
Qed.

End write_back_more.

(** X25. The write-back strategy has no [delete] of its own, so deleting a
    key does not take its write off the queue. On an open backend, after a
    [set] that only queues (no flush is due) and a [delete] of the same
    key, the cache no longer holds the key, the queue still holds the key
    with the value of the [set], and the next flush, with a callback that
    returns, hands the data store that write along with the others. *)
Theorem write_back_delete_keeps_queued_write {V D : Type}
    (self : WriteBackStrategy.t V D) (cb : WriteCallback V D) (d : D)
    (b : Backend V) (now now' : Z) (key : CacheKey) (value : option V)
    (ttl : option Z) :
  _closed b = false →
  WriteBackStrategy.write_callback self = Some cb →
  (∀ k v d', (cb k v d').1 = Return tt) →
  WriteBackStrategy.should_flush now
    (WriteBackStrategy.with_queue
       (dict_set key value (WriteBackStrategy._write_queue self)) self) = false →
  (BaseStrategy.delete key
     (WriteBackStrategy.set now key value ttl ((self, d), b)).2).1 = Return true
  ∧ _store (BaseStrategy.delete key
              (WriteBackStrategy.set now key value ttl ((self, d), b)).2).2.2
      !! key = None
  ∧ dict_get key
      (WriteBackStrategy._write_queue
         (BaseStrategy.delete key
            (WriteBackStrategy.set now key value ttl ((self, d), b)).2).2.1.1)
    = Some value
  ∧ WriteBackStrategy.flush now'
      (BaseStrategy.delete key
         (WriteBackStrategy.set now key value ttl ((self, d), b)).2).2.1
    = (Return tt,
       (WriteBackStrategy.with_last_flush now' (WriteBackStrategy.with_queue [] self),
        foldl (λ d' kv, (cb kv.1 kv.2 d').2) d
          (dict_set key value (WriteBackStrategy._write_queue self)))).
Proof.
  intros Ec Hcb Hok Hnf.
  assert (is_Some (WriteBackStrategy.write_callback self)) as Hsome
    by (rewrite Hcb; eauto).
  rewrite (write_back_set_queued now key value ttl self d b Ec Hsome Hnf).
  destruct (open_set now key value ttl b Ec) as (_ & Hs & Ec1 & _).
  unfold BaseStrategy.delete, on_snd. cbn [fst snd].
  rewrite (open_delete_eq key _ Ec1). cbn [fst snd].
  destruct (open_delete_fields key _ Ec1) as (Hs' & _).
  split_and!.
  - rewrite bool_decide_eq_true_2; [done|]. rewrite Hs, lookup_insert_eq. eauto.
  - by rewrite Hs', lookup_delete_eq.
  - apply dict_get_set.
  - unfold WriteBackStrategy.flush.
    cbn [fst snd].
    rewrite (flush_all_ok
               (WriteBackStrategy.with_queue
                  (dict_set key value (WriteBackStrategy._write_queue self)) self)
               cb d now' Hcb Hok (dict_set_not_nil _ _ _)).
    by destruct self.
Qed.

Lemma write_back_delete_keeps_queued_write_witness :
  let self := WriteBackStrategy.__init__ 0 (Some recording_store) 10 5 "write_back" in
  (WriteBackStrategy.flush 3
     (BaseStrategy.delete "k"
        (WriteBackStrategy.set 1 "k" (Some 7%Z) None
           ((self, []), MemoryBackend.__init__ "memory" true)).2).2.1).2.2
  = [("k", Some 7%Z)].
Proof.
  intros self.
  destruct (write_back_delete_keeps_queued_write self recording_store []
              (MemoryBackend.__init__ "memory" true) 1 3 "k" (Some 7%Z) None
              eq_refl eq_refl (λ _ _ _, eq_refl) eq_refl) as (_ & _ & _ & H).
  exact (f_equal (λ r, r.2.2) H).
Defined.

(** X26. Write-back [clear] flushes before it clears, and it flushes even
    when the clearing fails. With a queue that is not empty and a callback
    that returns, every queued pair is handed to the data store and the
    queue is empty afterwards; then an open backend is emptied and [clear]
    returns [True], while a closed backend makes [clear] raise
    [BackendError], after the data store has been written. *)
Theorem write_back_clear_flushes_first {V D : Type}
    (self : WriteBackStrategy.t V D) (cb : WriteCallback V D) (d : D)
    (b : Backend V) (now : Z) :
  WriteBackStrategy.write_callback self = Some cb →
  (∀ k v d', (cb k v d').1 = Return tt) →
  WriteBackStrategy._write_queue self ≠ [] →
  WriteBackStrategy.clear now ((self, d), b)
  = (if _closed b then Raise BackendError else Return true,
     ((WriteBackStrategy.with_last_flush now (WriteBackStrategy.with_queue [] self),
       foldl (λ d' kv, (cb kv.1 kv.2 d').2) d (WriteBackStrategy._write_queue self)),
      if _closed b then b
      else mkBackend (name b) false (enable_metadata b)
             (if enable_metadata b then ∅ else _metadata b) ∅)).
Proof.
  intros Hcb Hok Hq.
  unfold WriteBackStrategy.clear, bind, on_fst, on_snd. cbn [fst snd].
  rewrite (flush_all_ok self cb d now Hcb Hok Hq). cbn [fst snd].
  destruct (_closed b) eqn:Ec.
  - by rewrite (closed_clear b Ec).
  - by rewrite (open_clear b Ec).
Qed.

Lemma write_back_clear_flushes_first_witness :
  let self :=
    WriteBackStrategy.mk "write_back" (Some recording_store) 10 5
      [("a", Some 1%Z)] 0 in
  let closed := (BaseBackend.close (MemoryBackend.__init__ "memory" true)).2 in
  WriteBackStrategy.clear 1 ((self, []), closed)
  = (Raise BackendError,
     ((WriteBackStrategy.with_last_flush 1 (WriteBackStrategy.with_queue [] self),
       [("a", Some 1%Z)]), closed)).
Proof.
  intros self closed.
  exact (write_back_clear_flushes_first self recording_store [] closed 1
           eq_refl (λ _ _ _, eq_refl) ltac:(discriminate)).
Defined.

(** ** Refresh-ahead: one pass of the worker *)
Section refresh_facts.
Context {V : Type}.
Implicit Types (self : RefreshAheadStrategy.t V) (b : Backend V).

(** One key of the pass: nothing is raised, the closed flag stays, other
    keys are not touched, and a key that exists and for which the callback
    has a value is written without ttl. *)
Lemma refresh_key_spec now (cb : CacheMissCallback V) key self b :
  (RefreshAheadStrategy.refresh_key now cb key (self, b)).1 = Return tt
  ∧ _closed (RefreshAheadStrategy.refresh_key now cb key (self, b)).2.2
    = _closed b
  ∧ (∀ k, key ≠ k →
       agree_at k b (RefreshAheadStrategy.refresh_key now cb key (self, b)).2.2)
  ∧ (∀ x, _closed b = false →
       (BaseBackend.exists_ now key b).1 = Return true →
       cb key = Return (Some x) →
       (RefreshAheadStrategy.refresh_key now cb key (self, b)).2.2
       = (BaseBackend.set now key (Some x) None b).2).
Proof.
  unfold RefreshAheadStrategy.refresh_key, try_except, bind, on_snd, on_fst,
    modify, ret. cbn [fst snd].
  destruct (_closed b) eqn:Ec.
  { rewrite (closed_exists now key b Ec). cbn [fst snd].
    split_and!; [done|done| |done]. intros. apply agree_at_refl. }
  pose proof (λ k, agree_exists now key k b Ec) as Hax.
  rewrite (open_exists_eq now key b Ec) in Hax |- *.
  destruct (BaseBackend._is_expired now key b) eqn:Ex; cbn [fst snd] in *.
  { destruct (open_delete_fields key b Ec) as (_ & Ec1 & _).
    split_and!; [done|done| |done]. intros k Hne. by apply Hax. }
  destruct (bool_decide (is_Some (_store b !! key))) eqn:Ep; cbn [fst snd].
  2: { split_and!; [done|done| |done]. intros. apply agree_at_refl. }
  destruct (cb key) as [[y|]|e]; cbn [fst snd].
  - destruct (open_set now key (Some y) None b Ec) as (Hr & _ & Ec1 & _).
    pose proof (λ k, agree_set now key k (Some y) None b Ec) as Has.
    destruct (BaseBackend.set now key (Some y) None b) as [r b1] eqn:Eset.
    cbn [fst snd] in *. subst r. cbn [fst snd].
    split_and!; [done|done| |].
    + intros k Hne. by apply Has.
    + intros x _ _ [= <-]. by rewrite Eset.
  - split_and!; [done|done| |done]. intros. apply agree_at_refl.
  - split_and!; [done|done| |done]. intros. apply agree_at_refl.
Qed.

Lemma refresh_keys_cons now (cb : CacheMissCallback V) key keys self b :
  RefreshAheadStrategy.refresh_keys now cb (key :: keys) (self, b)
  = RefreshAheadStrategy.refresh_keys now cb keys
      (RefreshAheadStrategy.refresh_key now cb key (self, b)).2.
Proof.
  cbn [RefreshAheadStrategy.refresh_keys]. unfold bind.
  destruct (refresh_key_spec now cb key self b) as (Hr & _).
  destruct (RefreshAheadStrategy.refresh_key now cb key (self, b)) as [r w].
  simpl in Hr. by subst r.
Qed.

(** The pass never raises, and keys it does not visit are not touched. *)
Lemma refresh_keys_frame now (cb : CacheMissCallback V) keys k self b :
  k ∉ keys →
  (RefreshAheadStrategy.refresh_keys now cb keys (self, b)).1 = Return tt
  ∧ agree_at k b (RefreshAheadStrategy.refresh_keys now cb keys (self, b)).2.2.
Proof.
  revert self b. induction keys as [|key keys IH]; intros self b Hk.
  { split; [done|apply agree_at_refl]. }
  apply not_elem_of_cons in Hk as [Hne Hk].
  rewrite refresh_keys_cons.
  destruct (refresh_key_spec now cb key self b) as (_ & _ & Ha & _).
  destruct (RefreshAheadStrategy.refresh_key now cb key (self, b)) as [r [s1 b1]].
  cbn [fst snd] in *.
  destruct (IH s1 b1 Hk) as (Hr & Ha'). split; [done|].
  eapply agree_at_trans; [apply Ha; congruence|exact Ha'].
Qed.

Lemma refresh_keys_returns now (cb : CacheMissCallback V) keys self b :
  (RefreshAheadStrategy.refresh_keys now cb keys (self, b)).1 = Return tt.
Proof.
  revert self b. induction keys as [|key keys IH]; intros self b; [done|].
  rewrite refresh_keys_cons.
  destruct (RefreshAheadStrategy.refresh_key now cb key (self, b)) as [r [s1 b1]].
  apply IH.
Qed.

Lemma refresh_keys_hit now now' (cb : CacheMissCallback V) keys key x self b :
  NoDup keys → key ∈ keys →
  _closed b = false →
  (BaseBackend.exists_ now key b).1 = Return true →
  cb key = Return (Some x) →
  (BaseBackend.get now' key
     (RefreshAheadStrategy.refresh_keys now cb keys (self, b)).2.2).1
  = Return (Some x).
Proof.
  intros Hnd Hin Ec Hex Hcb. revert self b Ec Hex.
  induction keys as [|k keys IH]; intros self b Ec Hex.
  { by apply elem_of_nil in Hin. }
  apply NoDup_cons in Hnd as [Hk Hnd].
  rewrite refresh_keys_cons.
  destruct (refresh_key_spec now cb k self b) as (_ & Hc & Ha & Hset).
  destruct (RefreshAheadStrategy.refresh_key now cb k (self, b)) as [r [s1 b1]].
  cbn [fst snd] in *.
  apply elem_of_cons in Hin as [->|Hin].
  - destruct (refresh_keys_frame now cb keys k s1 b1 Hk) as (_ & Hfr).
    destruct (agree_reads now' k _ _ Hfr) as (-> & _).
    rewrite (Hset x Ec Hex Hcb). by apply get_after_plain_set.
  - assert (k ≠ key) as Hne by (intros ->; done).
    apply (IH Hnd Hin); [congruence|].
    destruct (agree_reads now key _ _ (Ha key Hne)) as (_ & ->). done.
Qed.

End refresh_facts.

(** X27. One pass of the refresh worker, [_refresh_expiring_keys], never
    raises: what the backend or the callback raises for a key is dropped.
    With a refresh callback, for a tracked key that exists in an open
    backend at the time of the pass and for which the callback returns a
    value, the pass stores that value without ttl: whatever ttl the entry
    had, after the pass a [get] of the key returns the refreshed value at
    any later time. *)
Theorem refresh_pass_drops_ttl {V : Type} (self : RefreshAheadStrategy.t V)
    (b : Backend V) (now now' : Z) (key : CacheKey)
    (cb : CacheMissCallback V) (x : V) :
  (RefreshAheadStrategy._refresh_expiring_keys now (self, b)).1 = Return tt
  ∧ (_closed b = false →
     RefreshAheadStrategy.refresh_callback self = Some cb →
     NoDup (RefreshAheadStrategy._refresh_times self).*1 →
     key ∈ (RefreshAheadStrategy._refresh_times self).*1 →
     (BaseBackend.exists_ now key b).1 = Return true →
     cb key = Return (Some x) →
     (BaseBackend.get now' key
        (RefreshAheadStrategy._refresh_expiring_keys now (self, b)).2.2).1
     = Return (Some x)).
Proof.
  unfold RefreshAheadStrategy._refresh_expiring_keys, bind, gets. cbn [fst snd].
  split.
  - destruct (RefreshAheadStrategy.refresh_callback self) as [f|]; [|done].
    apply refresh_keys_returns.
  - intros Ec -> Hnd Hin Hex Hcb. by apply refresh_keys_hit.
Qed.

Lemma refresh_pass_drops_ttl_witness :
  let w := (RefreshAheadStrategy.set 0 "a" (Some 1%Z) (Some 5%Z)
              (RefreshAheadStrategy.mk "refresh_ahead"
                 (Some (λ _, Return (Some 2%Z))) [],
               MemoryBackend.__init__ "memory" true)).2 in
  (BaseBackend.get 100 "a" w.2).1 = Return None
  ∧ (BaseBackend.get 100 "a"
       (RefreshAheadStrategy._refresh_expiring_keys 4 w).2.2).1
    = Return (Some 2%Z).
Proof.
  intros w. split; [reflexivity|].
  apply (proj2 (refresh_pass_drops_ttl w.1 w.2 4 100 "a"
                  (λ _, Return (Some 2%Z)) 2%Z));
    try reflexivity.
  - apply (bool_decide_unpack _). vm_compute. exact I.
  - apply (bool_decide_unpack _). vm_compute. exact I.
Defined.

(** ** The shadow index and the backend's keys, over a run *)
Section index_subset.
Context {V : Type}.
Implicit Types (b : Backend V) (key k v : CacheKey) (value : option V)
  (s : EvictionStrategy) (w : EvictionStrategy * Backend V).







End index_subset.



(** ** The size of the shadow index over a run *)
Section index_bound.
Context {V : Type}.
Implicit Types (b : Backend V) (key k v : CacheKey) (value : option V)
  (s : EvictionStrategy) (n : nat).

Lemma adopts_get now key cb s b :
  adopts now (SGet key cb) (s, b)
  = match s with
    | FIFO _ => false
    | _ => bool_decide (key ∉ shadow_keys s)
           && negb (BaseBackend._is_expired now key b)
           && bool_decide (is_Some (mjoin (_store b !! key)))
    end.
Proof. by destruct s. Qed.

(** A hit adds its key to the index of LRU and LFU when it is not there,
    at the end; FIFO's queue stays. *)
Lemma shadow_touch_out key s :
  key ∉ shadow_keys s →
  shadow_keys (touch key s)
  = match s with FIFO _ => shadow_keys s | _ => shadow_keys s ++ [key] end.
Proof.
  destruct s as [s|s|s]; simpl; intros Hout; [| |done].
  - unfold od_contains, od_set, od_contains.
    by rewrite !bool_decide_eq_false_2.
  - by rewrite dict_set_keys, bool_decide_eq_false_2.
Qed.

(** [set] never lets the index grow beyond [max_size], nor beyond what it
    was. *)
Lemma bound_set now key value ttl s b n :
  _closed b = false → NoDup (shadow_keys s) →
  (Z.of_nat (length (shadow_keys s)) ≤ max_size s + Z.of_nat n)%Z →
  _closed (step now (SSet key value ttl) (s, b)).2.2 = false
  ∧ NoDup (shadow_keys (step now (SSet key value ttl) (s, b)).2.1)
  ∧ max_size (step now (SSet key value ttl) (s, b)).2.1 = max_size s
  ∧ (Z.of_nat (length (shadow_keys (step now (SSet key value ttl) (s, b)).2.1))
     ≤ max_size s + Z.of_nat n)%Z.
Proof.
  intros Ec Hnd Hlen. rewrite step_set_open by done.
  destruct (needs_eviction key s) eqn:Hne.
  - destruct (victim s) as [v|] eqn:Ev; cbn [fst snd]; [|done].
    unfold needs_eviction in Hne. apply andb_true_iff in Hne as [Hnew _].
    apply negb_true_iff, bool_decide_eq_false in Hnew.
    pose proof (victim_elem_of s v Ev) as Hvin.
    destruct (open_delete_fields v b Ec) as (_ & Ec1 & _).
    destruct (open_set now key value ttl _ Ec1) as (_ & _ & Ec2 & _).
    split_and!.
    + done.
    + apply NoDup_shadow_enlist. rewrite shadow_keys_evict by done.
      by apply NoDup_od_del.
    + by rewrite max_size_enlist, max_size_evict.
    + pose proof (length_shadow_enlist key (evict v s)) as Hla.
      rewrite shadow_keys_evict in Hla by done.
      rewrite bool_decide_eq_false_2 in Hla by (rewrite elem_of_od_del; tauto).
      pose proof (length_od_del_lt v (shadow_keys s) Hvin). lia.
  - destruct (open_set now key value ttl b Ec) as (_ & _ & Ec2 & _).
    unfold needs_eviction in Hne. apply andb_false_iff in Hne.
    cbn [fst snd]. split_and!.
    + done.
    + by apply NoDup_shadow_enlist.
    + by rewrite max_size_enlist.
    + pose proof (length_shadow_enlist key s) as Hla.
      destruct Hne as [Hin|Hroom].
      * apply negb_false_iff in Hin. rewrite Hin in Hla. lia.
      * apply bool_decide_eq_false in Hroom.
        destruct (bool_decide (key ∈ shadow_keys s)); lia.
Qed.

(** Every call keeps the bound, but for a [get] that adopts, which adds
    one key. *)
Lemma bound_step now (op : StrategyOp V) s b n :
  _closed b = false → NoDup (shadow_keys s) →
  (Z.of_nat (length (shadow_keys s)) ≤ max_size s + Z.of_nat n)%Z →
  _closed (step now op (s, b)).2.2 = false
  ∧ NoDup (shadow_keys (step now op (s, b)).2.1)
  ∧ max_size (step now op (s, b)).2.1 = max_size s
  ∧ (Z.of_nat (length (shadow_keys (step now op (s, b)).2.1))
     ≤ max_size s
       + Z.of_nat (n + if adopts now op (s, b) then 1 else 0))%Z.
Proof.
  intros Ec Hnd Hlen. destruct op as [key cb|key value ttl|key|].
  - (* get *)
    rewrite adopts_get, step_get_open by done.
    destruct (open_get now key b Ec) as (_ & _ & Ec1 & _).
    assert (∀ a : nat,
      _closed (miss_fill now key cb (s, (BaseBackend.get now key b).2)).2.2 = false
      ∧ NoDup (shadow_keys
                 (miss_fill now key cb (s, (BaseBackend.get now key b).2)).2.1)
      ∧ max_size (miss_fill now key cb (s, (BaseBackend.get now key b).2)).2.1
        = max_size s
      ∧ (Z.of_nat (length (shadow_keys
            (miss_fill now key cb (s, (BaseBackend.get now key b).2)).2.1))
         ≤ max_size s + Z.of_nat (n + a))%Z) as Hmiss.
    { intros a. unfold miss_fill. destruct cb as [f|].
      - destruct (f key) as [[x|]|e]; cbn [fst snd].
        + destruct (bound_set now key (Some x) None s _ n Ec1 Hnd Hlen)
            as (? & ? & ? & ?). split_and!; [done..|lia].
        + split_and!; [done..|lia].
        + split_and!; [done..|lia].
      - cbn [fst snd]. split_and!; [done..|lia]. }
    destruct (BaseBackend._is_expired now key b) eqn:Hx.
    { replace (match s with FIFO _ => false | _ => _ end) with false
        by (destruct s; by rewrite ?andb_false_r).
      apply Hmiss. }
    destruct (mjoin (_store b !! key)) as [x|] eqn:Ex.
    2: { replace (match s with FIFO _ => false | _ => _ end) with false.
         - apply Hmiss.
         - rewrite (bool_decide_eq_false_2 (is_Some None))
             by (by intros [? ?]).
           destruct s; by rewrite ?andb_false_r. }
    cbn [fst snd negb]. rewrite max_size_touch.
    rewrite (bool_decide_eq_true_2 (is_Some (Some x))) by eauto.
    rewrite andb_true_r.
    split_and!; [done|by apply NoDup_shadow_touch|done|].
    destruct (decide (key ∈ shadow_keys s)) as [Hin|Hout].
    + destruct (shadow_touch_in key s Hnd Hin) as (_ & Hle).
      lia.
    + rewrite shadow_touch_out by done.
      rewrite bool_decide_eq_true_2 by done.
      destruct s; rewrite ?length_app; simpl in *; lia.
  - (* set *)
    cbn [adopts]. destruct (bound_set now key value ttl s b n Ec Hnd Hlen)
      as (? & ? & ? & ?). split_and!; [done..|lia].
  - (* delete *)
    cbn [adopts]. rewrite step_delete_open by done.
    destruct (open_delete_fields key b Ec) as (_ & Ec1 & _).
    cbn [fst snd]. case_bool_decide.
    + split_and!; [done| |apply max_size_drop|].
      * rewrite shadow_keys_drop by done. by apply NoDup_od_del.
      * rewrite shadow_keys_drop by done.
        pose proof (length_od_del_le key (shadow_keys s)). lia.
    + split_and!; [done..|lia].
  - (* clear *)
    cbn [adopts]. rewrite step_clear_open by done. rewrite open_clear by done.
    cbn [fst snd]. rewrite max_size_cleared, shadow_keys_cleared.
    split_and!; [done|constructor|done|simpl; lia].
Qed.

Lemma bound_states (ops : list (Z * StrategyOp V)) s b n (m : Z) :
  _closed b = false → NoDup (shadow_keys s) →
  max_size s = m →
  (Z.of_nat (length (shadow_keys s)) ≤ m + Z.of_nat n)%Z →
  Forall (λ w', (Z.of_nat (length (shadow_keys w'.1))
                 ≤ m + Z.of_nat (n + adoptions ops (s, b)))%Z)
    (states ops (s, b)).
Proof.
  revert s b n. induction ops as [|[now op] ops IH]; intros s b n Ec Hnd Hm Hlen.
  { constructor. }
  cbn [states adoptions]. subst m.
  destruct (bound_step now op s b n Ec Hnd Hlen) as (Ec' & Hnd' & Hm' & Hlen').
  destruct (step now op (s, b)) as [r [s' b']]. cbn [fst snd] in *.
  constructor.
  - cbn [fst]. lia.
  - specialize (IH s' b' (n + if adopts now op (s, b) then 1 else 0)
                  Ec' Hnd' Hm' ltac:(lia)).
    eapply Forall_impl; [exact IH|]. intros w' Hw'. simpl in Hw'. lia.
Qed.

(** The [get] of FIFO never adopts. *)
Lemma adoptions_fifo (ops : list (Z * StrategyOp V)) (f : FIFOEvictionStrategy.t) b :
  adoptions ops (FIFO f, b) = 0.
Proof.
  revert f b. induction ops as [|[now op] ops IH]; intros f b; [done|].
  cbn [adoptions].
  assert (adopts now op (FIFO f, b) = false) as -> by (by destruct op).
  assert (∃ f' b', (step now op (FIFO f, b)).2 = (FIFO f', b')) as (f' & b' & ->).
  { unfold step, as_eviction. cbn [fst snd].
    destruct (call FIFOEvictionStrategy.as_strategy now op (f, b)) as [r [f' b']].
    eauto. }
  by rewrite IH.
Qed.

End index_bound.

(** C3, amended. For each of the three eviction strategies with
    [max_size > 0], on an open backend, started with at most [max_size]
    different keys in the shadow index. A [set] returns [True] with at most
    [max_size] keys in the index, the key among them and its value in the
    backend; when the key is new and the index holds [max_size] keys, the
    policy's victim is deleted from the backend and taken out of the index
    first, and the key is admitted to what is left. Over any sequence of
    [get], [set], [delete] and [clear] calls the index holds, after every
    call, at most [max_size] keys and one more for each [get] that has
    adopted a key (a hit of LRU or LFU on a key that the backend holds and
    the index does not, which joins the index at the end). FIFO never
    adopts, so its queue holds at most [max_size] keys after every call. *)
Theorem set_keeps_index_bounded {V : Type} (now : Z) (key : CacheKey)
    (value : option V) (ttl : option Z) (s : EvictionStrategy) (b : Backend V) :
  (0 < max_size s)%Z →
  _closed b = false →
  NoDup (shadow_keys s) →
  (Z.of_nat (length (shadow_keys s)) ≤ max_size s)%Z →
  (step now (SSet key value ttl) (s, b)).1 = Return (RBool true)
  ∧ max_size (step now (SSet key value ttl) (s, b)).2.1 = max_size s
  ∧ (Z.of_nat (length (shadow_keys (step now (SSet key value ttl) (s, b)).2.1))
     ≤ max_size s)%Z
  ∧ key ∈ shadow_keys (step now (SSet key value ttl) (s, b)).2.1
  ∧ _store (step now (SSet key value ttl) (s, b)).2.2 !! key = Some value
  ∧ (key ∉ shadow_keys s →
     Z.of_nat (length (shadow_keys s)) = max_size s →
     ∃ v, victim s = Some v
          ∧ v ∈ shadow_keys s
          ∧ (step now (SSet key value ttl) (s, b)).2
            = (enlist key (evict v s),
               (BaseBackend.set now key value ttl (BaseBackend.delete v b).2).2)
          ∧ (v ∉ shadow_keys (step now (SSet key value ttl) (s, b)).2.1)
          ∧ _store (step now (SSet key value ttl) (s, b)).2.2 !! v = None
          ∧ ∀ k, k ∈ shadow_keys (step now (SSet key value ttl) (s, b)).2.1
                 ↔ k = key ∨ (k ∈ shadow_keys s ∧ k ≠ v))
  ∧ (∀ ops : list (Z * StrategyOp V),
       Forall (λ w', (Z.of_nat (length (shadow_keys w'.1))
                      ≤ max_size s + Z.of_nat (adoptions ops (s, b)))%Z)
         (states ops (s, b)))
  ∧ (∀ (ops : list (Z * StrategyOp V)) f, s = FIFO f →
       adoptions ops (s, b) = 0
       ∧ Forall (λ w', (Z.of_nat (length (shadow_keys w'.1)) ≤ max_size s)%Z)
           (states ops (s, b)))
  ∧ (∀ t k cb, adopts t (SGet k cb) (s, b) = true →
       shadow_keys (step t (SGet k cb) (s, b)).2.1 = shadow_keys s ++ [k]).
Proof.
  intros Hmax Ec Hnd Hlen.
  assert (∀ ops : list (Z * StrategyOp V),
            Forall (λ w', (Z.of_nat (length (shadow_keys w'.1))
                           ≤ max_size s + Z.of_nat (adoptions ops (s, b)))%Z)
              (states ops (s, b))) as Hrun.
  { intros ops.
    apply (bound_states ops s b 0 (max_size s) Ec Hnd eq_refl). lia. }
  assert (∀ t k cb, adopts t (SGet k cb) (s, b) = true →
            shadow_keys (step t (SGet k cb) (s, b)).2.1 = shadow_keys s ++ [k])
    as Hadopt.
  { intros t k cb. rewrite adopts_get, step_get_open by done.
    destruct s as [s|s|s]; [| |done].
    - intros [[Hout Hx%negb_true_iff]%andb_true_iff Hv]%andb_true_iff.
      apply bool_decide_eq_true in Hout, Hv. rewrite Hx.
      destruct (mjoin (_store b !! k)); [|by destruct Hv].
      cbn [fst snd]. by rewrite shadow_touch_out.
    - intros [[Hout Hx%negb_true_iff]%andb_true_iff Hv]%andb_true_iff.
      apply bool_decide_eq_true in Hout, Hv. rewrite Hx.
      destruct (mjoin (_store b !! k)); [|by destruct Hv].
      cbn [fst snd]. by rewrite shadow_touch_out. }
  assert (∀ (ops : list (Z * StrategyOp V)) f, s = FIFO f →
            adoptions ops (s, b) = 0
            ∧ Forall (λ w', (Z.of_nat (length (shadow_keys w'.1)) ≤ max_size s)%Z)
                (states ops (s, b))) as Hfifo.
  { intros ops f ->. split; [apply adoptions_fifo|].
    eapply Forall_impl; [apply Hrun|]. intros w' Hw'. simpl in Hw'.
    rewrite adoptions_fifo in Hw'. simpl. lia. }
  rewrite step_set_open by done.
  destruct (needs_eviction key s) eqn:Hne.
  - unfold needs_eviction in Hne. apply andb_true_iff in Hne as [Hnew Hfull].
    apply negb_true_iff, bool_decide_eq_false in Hnew.
    apply bool_decide_eq_true in Hfull.
    destruct (victim_is_Some s) as [v Hv].
    { intros Heq. rewrite Heq in Hfull. simpl in Hfull. lia. }
    rewrite Hv.
    pose proof (victim_elem_of s v Hv) as Hvin.
    destruct (open_delete_fields v b Ec) as (Hs1 & Ec1 & _).
    destruct (open_set now key value ttl _ Ec1) as (_ & Hs2 & _).
    assert (v ≠ key) as Hvk by (by intros ->).
    assert (∀ k, k ∈ shadow_keys (enlist key (evict v s))
                 ↔ k = key ∨ (k ∈ shadow_keys s ∧ k ≠ v)) as Hkeys.
    { intros k. rewrite elem_of_shadow_enlist, shadow_keys_evict by done.
      by rewrite elem_of_od_del. }
    cbn [fst snd]. split_and!; [| | | | | |exact Hrun|exact Hfifo|exact Hadopt].
    + done.
    + by rewrite max_size_enlist, max_size_evict.
    + pose proof (length_shadow_enlist key (evict v s)) as Hla.
      rewrite shadow_keys_evict in Hla by done.
      rewrite bool_decide_eq_false_2 in Hla
        by (rewrite elem_of_od_del; tauto).
      pose proof (length_od_del_lt v (shadow_keys s) Hvin). lia.
    + apply Hkeys. by left.
    + by rewrite Hs2, lookup_insert_eq.
    + intros _ _. exists v. split_and!; try done.
      * rewrite Hkeys. intros [?|[_ ?]]; done.
      * by rewrite Hs2, lookup_insert_ne, Hs1, lookup_delete_eq.
  - destruct (open_set now key value ttl b Ec) as (_ & Hs2 & _).
    unfold needs_eviction in Hne. apply andb_false_iff in Hne.
    cbn [fst snd]. split_and!; [| | | | | |exact Hrun|exact Hfifo|exact Hadopt].
    + done.
    + by rewrite max_size_enlist.
    + pose proof (length_shadow_enlist key s) as Hla.
      destruct Hne as [Hin|Hroom].
      * apply negb_false_iff in Hin. rewrite Hin in Hla. lia.
      * apply bool_decide_eq_false in Hroom.
        destruct (bool_decide (key ∈ shadow_keys s)); lia.
    + apply elem_of_shadow_enlist. by left.
    + by rewrite Hs2, lookup_insert_eq.
    + intros Hnew Hfull. exfalso. destruct Hne as [Hin|Hroom].
      * apply negb_false_iff, bool_decide_eq_true in Hin. done.
      * apply bool_decide_eq_false in Hroom. lia.
Qed.

Lemma set_keeps_index_bounded_witness :
  (step 2 (SSet "c" (Some 3%Z) None) sample_lru_full).1 = Return (RBool true)
  ∧ (Z.of_nat (length (shadow_keys
        (step 2 (SSet "c" (Some 3%Z) None) sample_lru_full).2.1)) ≤ 2)%Z
  ∧ _store (step 2 (SSet "c" (Some 3%Z) None) sample_lru_full).2.2 !! "a" = None
  ∧ Forall (λ w', (Z.of_nat (length (shadow_keys w'.1)) ≤ 1)%Z)
      (states fifo_run_with_fill sample_fifo).
Proof.
  assert (NoDup (shadow_keys sample_lru_full.1)) as Hnd.
  { apply (bool_decide_unpack _). vm_compute. exact I. }
  destruct (set_keeps_index_bounded 2 "c" (Some 3%Z) None
              sample_lru_full.1 sample_lru_full.2
              ltac:(reflexivity) eq_refl Hnd ltac:(vm_compute; discriminate))
    as (Hr & _ & Hlen & _ & _ & Hev & _).
  destruct Hev as (v & Hv & _ & _ & _ & Hgone & _).
  { apply (bool_decide_unpack _). vm_compute. exact I. }
  { vm_compute. reflexivity. }
  assert (v = "a") as -> by (vm_compute in Hv; congruence).
  destruct (set_keeps_index_bounded 0 "a" (Some 1%Z) None
              sample_fifo.1 sample_fifo.2
              ltac:(reflexivity) eq_refl NoDup_nil_2 ltac:(vm_compute; discriminate))
    as (_ & _ & _ & _ & _ & _ & _ & Hfifo & _).
  split_and!; [exact Hr|exact Hlen|exact Hgone|].
  exact (proj2 (Hfifo fifo_run_with_fill _ eq_refl)).
Defined.

(** * The claims on the eviction strategies, over runs *)

(** ** Eviction deletes the victim *)
Section eviction_deletes.
Context {V : Type}.
Implicit Types (b : Backend V) (key k v : CacheKey) (value : option V)
  (s : EvictionStrategy).





End eviction_deletes.


